(** * AIE8 / 02_Embeddings_and_RAG / aimakerspace

    A shallow embedding of
      - [enhanced_vectordatabase.py]: the in-memory vector store
        ([EnhancedVectorDatabase]) with metadata filters, four distance
        metrics and JSON persistence;
      - [pdf_utils.py]: [PDFTextSplitter];
      - [youtube_utils.py]: [YouTubeTextSplitter].

    Conventions of the embedding.
      - Python [int] is [Z]; Python [float] and numpy's [float64] are the
        IEEE binary64 numbers of [PrimFloat]; [str] is [string], one
        character per [ascii].
      - A Python [dict] is an association list in insertion order (the
        iteration order of the interpreter); lookup takes the first binding,
        assignment to a present key keeps its position, assignment to a new
        key appends.  Python dictionaries never hold a key twice; where a
        theorem depends on it the invariant is an explicit hypothesis
        ([wf_store]) and is shown to be preserved by every method.
      - Values are held by value: the embedding does not tell an object
        from an equal copy of it.  What the source does through a second
        reference to a mapping it has stored, and what Python decides by
        identity before equality, is outside the embedding; the statements
        that would depend on it are guarded ([nan_free]) or not made.
      - Exceptions are results [Raise e]; the methods of the store are
        computations in a state-and-exception monad [M] whose state survives
        a raised exception, as the attributes of a Python object do.
      - numpy's array kernels ([np.dot], [np.linalg.norm], ...) are library
        code: they are the fields of the class [Numpy].  A reference
        instance with left-to-right accumulation is given for running the
        model on concrete stores. *)

From Stdlib Require Import ZArith List String Ascii Bool Lia Permutation Sorted.
From Stdlib Require Import PrimFloat FloatOps SpecFloat.
Import ListNotations.
Open Scope string_scope.
Open Scope Z_scope.

Set Implicit Arguments.
Set Warnings "-register-all".

(** ** Exceptions and results *)

Inductive exn : Type :=
| ValueError (msg : string)
| KeyError (msg : string)
| AssertionError (msg : string)
| FileNotFoundError (path : string)
| TypeError                (* raised by a comparison, a membership test or a subscript *)
| AttributeError
| NumpyError               (* raised inside a numpy kernel; class and text are numpy's *)
| Unmodelled (what : string). (* the run leaves the fragment of Python embedded here *)

Inductive res (A : Type) : Type :=
| Ok (a : A)
| Raise (e : exn).
Arguments Raise {A} e.

Definition res_bind {A B} (r : res A) (k : A -> res B) : res B :=
  match r with
  | Ok a => k a
  | Raise e => Raise e
  end.

Definition res_map {A B} (f : A -> B) (r : res A) : res B :=
  res_bind r (fun a => Ok (f a)).

(** ** Python values

    The values metadata are made of: the scalars, lists and nested mappings
    with string keys, that is the values JSON represents. *)

Inductive pyval : Type :=
| VNone
| VBool (b : bool)
| VInt (z : Z)
| VFloat (f : float)
| VStr (s : string)
| VList (l : list pyval)
| VDict (d : list (string * pyval)).

Definition pydict : Type := list (string * pyval).

(** ** Dictionaries *)

Section Dict.
Context {V : Type}.

(** [d.get(k)] *)
Fixpoint dict_get (d : list (string * V)) (k : string) : option V :=
  match d with
  | [] => None
  | (k', v) :: d' => if String.eqb k' k then Some v else dict_get d' k
  end.

(** [k in d] *)
Definition dict_contains (d : list (string * V)) (k : string) : bool :=
  match dict_get d k with
  | Some _ => true
  | None => false
  end.

(** [d.get(k, default)] *)
Definition dict_get_default (d : list (string * V)) (k : string) (default : V) : V :=
  match dict_get d k with
  | Some v => v
  | None => default
  end.

(** [d[k] = v] *)
Fixpoint dict_set (d : list (string * V)) (k : string) (v : V) : list (string * V) :=
  match d with
  | [] => [(k, v)]
  | (k', v') :: d' =>
      if String.eqb k' k then (k, v) :: d' else (k', v') :: dict_set d' k v
  end.

(** [d.update(new)] *)
Definition dict_update (d new : list (string * V)) : list (string * V) :=
  fold_left (fun acc kv => dict_set acc (fst kv) (snd kv)) new d.

Definition dict_keys (d : list (string * V)) : list string := map fst d.

(** [bool(d)] *)
Definition dict_truthy (d : list (string * V)) : bool :=
  match d with
  | [] => false
  | _ :: _ => true
  end.
End Dict.

(** ** Comparisons of Python values *)

Inductive num : Type :=
| NInt (z : Z)
| NFloat (f : float).

(** [bool] is a subclass of [int]; both compare with [float] by value. *)
Definition as_num (v : pyval) : option num :=
  match v with
  | VBool b => Some (NInt (Z.b2z b))
  | VInt z => Some (NInt z)
  | VFloat f => Some (NFloat f)
  | _ => None
  end.

(** An [int] and a [float] are compared exactly, not after a conversion;
    [None] is the unordered outcome of a NaN. *)
Definition int_float_compare (z : Z) (f : float) : option comparison :=
  match Prim2SF f with
  | S754_nan => None
  | S754_zero _ => Some (z ?= 0)
  | S754_infinity neg => Some (if neg then Gt else Lt)
  | S754_finite neg m e =>
      let sm := if neg then Z.neg m else Z.pos m in
      Some (if 0 <=? e then z ?= sm * 2 ^ e else z * 2 ^ (- e) ?= sm)
  end.

Definition float_compare (f g : float) : option comparison :=
  match PrimFloat.compare f g with
  | FEq => Some Eq
  | FLt => Some Lt
  | FGt => Some Gt
  | FNotComparable => None
  end.

Definition num_compare (a b : num) : option comparison :=
  match a, b with
  | NInt x, NInt y => Some (x ?= y)
  | NFloat f, NFloat g => float_compare f g
  | NInt x, NFloat g => int_float_compare x g
  | NFloat f, NInt y => option_map CompOpp (int_float_compare y f)
  end.

Inductive cmpop : Type := OpLt | OpLe | OpGt | OpGe.

Definition cmp_holds (op : cmpop) (c : option comparison) : bool :=
  match c, op with
  | None, _ => false
  | Some Lt, (OpLt | OpLe) => true
  | Some Eq, (OpLe | OpGe) => true
  | Some Gt, (OpGt | OpGe) => true
  | Some _, _ => false
  end.

(** [a == b].  Never raises.  Lists are equal when they have the same
    length and equal items; mappings when they have the same number of keys
    and every key of the one is bound to an equal value in the other. *)
Fixpoint py_eq (a b : pyval) {struct a} : bool :=
  match a, b with
  | VNone, VNone => true
  | VStr s, VStr t => String.eqb s t
  | VList la, VList lb =>
      (fix items (la lb : list pyval) {struct la} : bool :=
         match la, lb with
         | [], [] => true
         | x :: la', y :: lb' => py_eq x y && items la' lb'
         | _, _ => false
         end) la lb
  | VDict da, VDict db =>
      Nat.eqb (List.length da) (List.length db) &&
      (fix bindings (da : list (string * pyval)) {struct da} : bool :=
         match da with
         | [] => true
         | (k, v) :: da' =>
             match dict_get db k with
             | Some v' => py_eq v v'
             | None => false
             end && bindings da'
         end) da
  | _, _ =>
      match as_num a, as_num b with
      | Some x, Some y => cmp_holds OpLe (num_compare x y) && cmp_holds OpGe (num_compare x y)
      | _, _ => false
      end
  end.

(** [a < b], [a <= b], [a > b], [a >= b].  Numbers compare by value,
    strings lexicographically, lists by their first unequal items and then
    by length; every other pair raises [TypeError]. *)
Fixpoint py_compare (op : cmpop) (a b : pyval) {struct a} : res bool :=
  match a, b with
  | VStr s, VStr t => Ok (cmp_holds op (Some (String.compare s t)))
  | VList la, VList lb =>
      (fix items (la lb : list pyval) {struct la} : res bool :=
         match la, lb with
         | x :: la', y :: lb' =>
             if py_eq x y then items la' lb' else py_compare op x y
         | _, _ =>
             Ok (cmp_holds op (Some (Nat.compare (List.length la) (List.length lb))))
         end) la lb
  | _, _ =>
      match as_num a, as_num b with
      | Some x, Some y => Ok (cmp_holds op (num_compare x y))
      | _, _ => Raise TypeError
      end
  end.

(** [t in s] for strings: [t] occurs in [s]. *)
Fixpoint is_substring (t s : string) : bool :=
  String.prefix t s ||
  match s with
  | EmptyString => false
  | String _ s' => is_substring t s'
  end.

Definition hashable (v : pyval) : bool :=
  match v with
  | VList _ | VDict _ => false
  | _ => true
  end.

(** [x in c]: items of a list, keys of a mapping, substrings of a string;
    any other container is not iterable.  Python finds an item that is the
    very object [x] before it asks for [==]; values are compared here by
    [==] alone, which gives the same answer unless the object met again is
    a NaN or holds one.  The statements that compare a store with a copy of
    it read back from a file ask for metadata free of NaN ([nan_free]). *)
Definition py_in (x c : pyval) : res bool :=
  match c with
  | VList l => Ok (existsb (fun item => py_eq item x) l)
  | VDict d =>
      if hashable x
      then Ok (match x with VStr s => dict_contains d s | _ => false end)
      else Raise TypeError
  | VStr s =>
      match x with
      | VStr t => Ok (is_substring t s)
      | _ => Raise TypeError
      end
  | _ => Raise TypeError
  end.

Notation "'let?' x := r 'in' k" := (res_bind r (fun x => k))
  (at level 10, x name, r at level 100, k at level 200).

(** ** numpy

    Embedding vectors are one-dimensional [float64] arrays.  The kernels
    return [None] where numpy raises (shapes that are not aligned, operands
    that cannot be broadcast together). *)

Definition Vec : Type := list float.

Class Numpy : Type := {
  np_dot : Vec -> Vec -> option float;
  np_linalg_norm : Vec -> float;
  np_subtract : Vec -> Vec -> option Vec;
  np_abs : Vec -> Vec;
  np_sum : Vec -> float
}.

Definition numpy_call {A} (r : option A) : res A :=
  match r with
  | Some a => Ok a
  | None => Raise NumpyError
  end.

(** [vector.tolist()] *)
Definition tolist (vector : Vec) : pyval := VList (map VFloat vector).

(** [np.array(l)] on the lists [tolist] produces. *)
Fixpoint floats_of (l : list pyval) : option Vec :=
  match l with
  | [] => Some []
  | VFloat f :: l' => option_map (cons f) (floats_of l')
  | _ :: _ => None
  end.

Definition np_array (v : pyval) : res Vec :=
  match v with
  | VList l =>
      match floats_of l with
      | Some vector => Ok vector
      | None => Raise (Unmodelled "np.array of a list that is not a flat list of floats")
      end
  | _ => Raise (Unmodelled "np.array of a value that is not a list")
  end.

(** ** The four distance metrics *)

Section Metrics.
Context {np : Numpy}.

Definition cosine_similarity (vector_a vector_b : Vec) : res float :=
  let? dot_product := numpy_call (np_dot vector_a vector_b) in
  let norm_a := np_linalg_norm vector_a in
  let norm_b := np_linalg_norm vector_b in
  Ok (dot_product / (norm_a * norm_b))%float.

Definition euclidean_distance (vector_a vector_b : Vec) : res float :=
  let? d := numpy_call (np_subtract vector_a vector_b) in
  Ok (np_linalg_norm d).

Definition manhattan_distance (vector_a vector_b : Vec) : res float :=
  let? d := numpy_call (np_subtract vector_a vector_b) in
  Ok (np_sum (np_abs d)).

Definition dot_product_similarity (vector_a vector_b : Vec) : res float :=
  numpy_call (np_dot vector_a vector_b).

(** [self.distance_metrics], set in [__init__] and never assigned again. *)
Definition distance_metrics : list (string * (Vec -> Vec -> res float)) :=
  [ ("cosine", cosine_similarity);
    ("euclidean", euclidean_distance);
    ("manhattan", manhattan_distance);
    ("dot_product", dot_product_similarity) ].
End Metrics.

(** The names under which [search] accepts a metric. *)
Definition metric_names : list string :=
  ["cosine"; "euclidean"; "manhattan"; "dot_product"].

(** ** Program state

    The two mappings of the store object, and the files the persistence
    methods write and read.  A file holds the JSON document [json.dump]
    wrote: the text round trip of [json.dump] and [json.load] is the
    identity on the values of [pyval]. *)

Record state : Type := mkState {
  vectors : list (string * Vec);
  metadata : list (string * pydict);
  files : list (string * pyval)
}.

(** [EnhancedVectorDatabase()] *)
Definition empty_store (fs : list (string * pyval)) : state :=
  {| vectors := []; metadata := []; files := fs |}.

(** ** The monad of the methods: state that survives exceptions *)

Definition M (A : Type) : Type := state -> res A * state.

Definition ret {A} (a : A) : M A := fun s => (Ok a, s).

Definition bind {A B} (c : M A) (k : A -> M B) : M B :=
  fun s =>
    match c s with
    | (Ok a, s') => k a s'
    | (Raise e, s') => (Raise e, s')
    end.

Definition raise {A} (e : exn) : M A := fun s => (Raise e, s).

Definition lift {A} (r : res A) : M A := fun s => (r, s).

Notation "x <- c ;; k" := (bind c (fun x => k))
  (at level 61, c at next level, right associativity).
Notation "c ;; k" := (bind c (fun _ => k))
  (at level 61, right associativity).

(** Accesses to the attributes of [self]. *)

(** [self.vectors[key] = vector] *)
Definition vectors_setitem (key : string) (vector : Vec) : M unit :=
  fun s => (Ok tt, {| vectors := dict_set (vectors s) key vector;
                      metadata := metadata s; files := files s |}).

(** [self.vectors.get(key, None)] *)
Definition vectors_get (key : string) : M (option Vec) :=
  fun s => (Ok (dict_get (vectors s) key), s).

(** [key in self.vectors] *)
Definition vectors_contains (key : string) : M bool :=
  fun s => (Ok (dict_contains (vectors s) key), s).

(** [self.vectors.items()] *)
Definition vectors_items : M (list (string * Vec)) :=
  fun s => (Ok (vectors s), s).

(** [self.metadata[key] = d] *)
Definition metadata_setitem (key : string) (d : pydict) : M unit :=
  fun s => (Ok tt, {| vectors := vectors s;
                      metadata := dict_set (metadata s) key d; files := files s |}).

(** [self.metadata.get(key, {})]: no entry is created. *)
Definition metadata_get (key : string) : M pydict :=
  fun s => (Ok (dict_get_default (metadata s) key []), s).

(** [self.metadata[key]] on the [defaultdict(dict)]: a missing key is first
    bound to a new empty mapping. *)
Definition metadata_getitem (key : string) : M pydict :=
  fun s =>
    match dict_get (metadata s) key with
    | Some d => (Ok d, s)
    | None => (Ok [], {| vectors := vectors s;
                         metadata := dict_set (metadata s) key []; files := files s |})
    end.

(** [self.metadata.items()] *)
Definition metadata_items : M (list (string * pydict)) :=
  fun s => (Ok (metadata s), s).

(** [self.vectors = defaultdict(np.array)] *)
Definition vectors_reset : M unit :=
  fun s => (Ok tt, {| vectors := []; metadata := metadata s; files := files s |}).

(** [self.metadata = defaultdict(dict)] *)
Definition metadata_reset : M unit :=
  fun s => (Ok tt, {| vectors := vectors s; metadata := []; files := files s |}).

(** [open(filepath, 'w')] and [json.dump(data, f, indent=2, default=str)].
    A file holds the JSON document written to it.  Every value of [pyval]
    is a JSON value, written as it is; [default] is called for none of
    them.  Values that are no JSON values (tuples, dates, keys that are no
    strings), which [json.dump] writes as something else, are outside
    [pyval]. *)
Definition file_write (filepath : string) (data : pyval) : M unit :=
  fun s => (Ok tt, {| vectors := vectors s; metadata := metadata s;
                      files := dict_set (files s) filepath data |}).

(** [open(filepath, 'r')] and [json.load]: the document that was written.
    Numbers are written with [repr] and read back as the same integers and
    the same binary64 floats, [NaN] and the infinities included; what is
    read is made of new objects. *)
Definition file_read (filepath : string) : M pyval :=
  fun s =>
    match dict_get (files s) filepath with
    | Some data => (Ok data, s)
    | None => (Raise (FileNotFoundError filepath), s)
    end.

(** ** EnhancedVectorDatabase *)

(** [insert(key, vector, metadata=None)].  The metadata argument is [None]
    when the caller passes none; [if metadata:] holds for a mapping that is
    not empty. *)
Definition insert (key : string) (vector : Vec) (metadata : option pydict) : M unit :=
  vectors_setitem key vector ;;
  match metadata with
  | Some d => if dict_truthy d then metadata_setitem key d else ret tt
  | None => ret tt
  end.

(** One guard of the operator branch of [_matches_filter]:
    [op in filter_value and test(filter_value[op])]. *)
Definition operator_rejects (filter_value : pydict) (op : string)
           (test : pyval -> res bool) : res bool :=
  match dict_get filter_value op with
  | Some bound => test bound
  | None => Ok false
  end.

(** The body of the loop of [_matches_filter] once the document has the
    key: [Ok false] stands for [return False], [Ok true] for reaching the
    end of the body. *)
Definition matches_value (doc_value filter_value : pyval) : res bool :=
  match filter_value with
  | VDict ops =>
      let? r := operator_rejects ops "$gte" (py_compare OpLt doc_value) in
      if r then Ok false else
      let? r := operator_rejects ops "$lte" (py_compare OpGt doc_value) in
      if r then Ok false else
      let? r := operator_rejects ops "$gt" (py_compare OpLe doc_value) in
      if r then Ok false else
      let? r := operator_rejects ops "$lt" (py_compare OpGe doc_value) in
      if r then Ok false else
      let? r := operator_rejects ops "$in" (fun c => res_map negb (py_in doc_value c)) in
      if r then Ok false else
      let? r := operator_rejects ops "$nin" (py_in doc_value) in
      if r then Ok false else
      Ok true
  | VList _ => py_in doc_value filter_value
  | _ => Ok (py_eq doc_value filter_value)
  end.

(** [for filter_key, filter_value in metadata_filter.items(): ...] *)
Fixpoint matches_items (doc_metadata : pydict) (items : pydict) : res bool :=
  match items with
  | [] => Ok true
  | (filter_key, filter_value) :: rest =>
      match dict_get doc_metadata filter_key with
      | None => Ok false
      | Some doc_value =>
          let? ok := matches_value doc_value filter_value in
          if ok then matches_items doc_metadata rest else Ok false
      end
  end.

Definition _matches_filter (key : string) (metadata_filter : pydict) : M bool :=
  doc_metadata <- metadata_get key ;;
  lift (matches_items doc_metadata metadata_filter).

(** A scored candidate [(key, score, metadata)]. *)
Definition scored : Type := string * float * pydict.

Definition score_of (x : scored) : float := snd (fst x).

(** [sorted(scores, key=lambda x: x[1], reverse=reverse_sort)].  [sorted]
    compares keys with [<] only and is stable, also under [reverse=True];
    where [<] is a strict weak order on the keys this determines its result,
    and the stable insertion sort below computes it. *)
Definition goes_before (reverse : bool) (x y : float) : bool :=
  if reverse then PrimFloat.ltb y x else PrimFloat.ltb x y.

Fixpoint sorted_insert (reverse : bool) (x : scored) (l : list scored) : list scored :=
  match l with
  | [] => [x]
  | y :: l' =>
      if goes_before reverse (score_of y) (score_of x)
      then y :: sorted_insert reverse x l'
      else x :: l
  end.

Definition sorted (scores : list scored) (reverse : bool) : list scored :=
  fold_right (sorted_insert reverse) [] scores.

(** [l[:k]] *)
Definition slice_to {A} (l : list A) (k : Z) : list A :=
  if 0 <=? k
  then firstn (Z.to_nat k) l
  else firstn (List.length l - Z.to_nat (- k)) l.

(** What [search] returns: triples, or pairs when [return_scores] is off. *)
Inductive search_results : Type :=
| WithScores (results : list scored)
| WithoutScores (results : list (string * pydict)).

(** [repr] of a list of strings free of quotes and escapes. *)
Definition repr_names (names : list string) : string :=
  "[" ++ String.concat ", " (map (fun n => "'" ++ n ++ "'") names) ++ "]".

Definition unknown_metric_message (distance_measure : string) : string :=
  "Unknown distance measure: " ++ distance_measure ++ ". Available: "
  ++ repr_names metric_names.

Section Search.
Context {np : Numpy}.

(** [metadata_filter and not self._matches_filter(key, metadata_filter)] *)
Definition filtered_out (key : string) (metadata_filter : option pydict) : M bool :=
  match metadata_filter with
  | Some f =>
      if dict_truthy f
      then m <- _matches_filter key f ;; ret (negb m)
      else ret false
  | None => ret false
  end.

(** [for key, vector in self.vectors.items(): ...] *)
Fixpoint search_scan (distance_func : Vec -> Vec -> res float) (query_vector : Vec)
         (metadata_filter : option pydict) (items : list (string * Vec))
         (scores : list scored) : M (list scored) :=
  match items with
  | [] => ret scores
  | (key, vector) :: rest =>
      skip <- filtered_out key metadata_filter ;;
      if skip
      then search_scan distance_func query_vector metadata_filter rest scores
      else
        score <- lift (distance_func query_vector vector) ;;
        metadata <- metadata_get key ;;
        search_scan distance_func query_vector metadata_filter rest
                    (scores ++ [(key, score, metadata)])
  end.

Definition search (query_vector : Vec) (k : Z) (distance_measure : string)
           (metadata_filter : option pydict) (return_scores : bool)
  : M search_results :=
  match dict_get distance_metrics distance_measure with
  | None => raise (ValueError (unknown_metric_message distance_measure))
  | Some distance_func =>
      items <- vectors_items ;;
      scores <- search_scan distance_func query_vector metadata_filter items [] ;;
      let reverse_sort :=
        existsb (String.eqb distance_measure) ["cosine"; "dot_product"] in
      let sorted_scores := sorted scores reverse_sort in
      let results := slice_to sorted_scores k in
      if return_scores
      then ret (WithScores results)
      else ret (WithoutScores (map (fun r => (fst (fst r), snd r)) results))
  end.
End Search.

(** [retrieve_from_key(key)] *)
Definition retrieve_from_key (key : string) : M (option Vec * pydict) :=
  vector <- vectors_get key ;;
  metadata <- metadata_get key ;;
  ret (vector, metadata).

(** [update_metadata(key, new_metadata)].  The mapping bound to [key] is
    updated.  Mappings are held by value, one per key: a mapping object
    that a caller has inserted under several keys is updated by the source
    under all of them at once, which is outside this embedding, and no
    statement below says what [update_metadata] does to the metadata of
    another key. *)
Definition update_metadata (key : string) (new_metadata : pydict) : M unit :=
  present <- vectors_contains key ;;
  if present
  then
    d <- metadata_getitem key ;;
    metadata_setitem key (dict_update d new_metadata)
  else raise (KeyError ("Key '" ++ key ++ "' not found in database")).

(** A dictionary built by assigning the items one after the other, as a
    comprehension and [dict(...)] do. *)
Definition dict_of_items {V} (items : list (string * V)) : list (string * V) :=
  fold_left (fun acc kv => dict_set acc (fst kv) (snd kv)) items [].

(** [save_to_file(filepath)].  The document is made of the values of
    [pyval] alone, so that [default=str] has nothing to convert; see
    [file_write]. *)
Definition save_to_file (filepath : string) : M unit :=
  vitems <- vectors_items ;;
  mitems <- metadata_items ;;
  let data :=
    VDict [ ("vectors",
             VDict (dict_of_items (map (fun kv => (fst kv, tolist (snd kv))) vitems)));
            ("metadata",
             VDict (dict_of_items (map (fun kv => (fst kv, VDict (snd kv))) mitems))) ] in
  file_write filepath data.

(** [data[name]] on a loaded document *)
Definition py_getitem (data : pyval) (name : string) : res pyval :=
  match data with
  | VDict d =>
      match dict_get d name with
      | Some v => Ok v
      | None => Raise (KeyError ("'" ++ name ++ "'"))
      end
  | _ => Raise TypeError
  end.

(** [v.items()] on a loaded document *)
Definition py_items (v : pyval) : res pydict :=
  match v with
  | VDict d => Ok d
  | _ => Raise AttributeError
  end.

Fixpoint load_vectors (items : pydict) : M unit :=
  match items with
  | [] => ret tt
  | (key, vector_list) :: rest =>
      vector <- lift (np_array vector_list) ;;
      vectors_setitem key vector ;;
      load_vectors rest
  end.

Fixpoint load_metadata (items : pydict) : M unit :=
  match items with
  | [] => ret tt
  | (key, VDict metadata) :: rest =>
      metadata_setitem key metadata ;;
      load_metadata rest
  | (_, _) :: _ => raise (Unmodelled "a metadata entry that is not a mapping")
  end.

(** [load_from_file(filepath)] *)
Definition load_from_file (filepath : string) : M unit :=
  data <- file_read filepath ;;
  vectors_reset ;;
  metadata_reset ;;
  vs <- lift (py_getitem data "vectors") ;;
  vitems <- lift (py_items vs) ;;
  load_vectors vitems ;;
  ms <- lift (py_getitem data "metadata") ;;
  mitems <- lift (py_items ms) ;;
  load_metadata mitems.

(** ** Built-ins the splitters use *)

(** [range(start, stop, step)] *)
Definition range (start stop step : Z) : res (list Z) :=
  if step =? 0
  then Raise (ValueError "range() arg 3 must not be zero")
  else
    let n := if 0 <? step
             then (stop - start + step - 1) / step
             else (start - stop - step - 1) / (- step) in
    Ok (map (fun i => start + Z.of_nat i * step) (seq 0 (Z.to_nat n))).

(** [enumerate(l)] *)
Definition enumerate {A} (l : list A) : list (Z * A) :=
  combine (map Z.of_nat (seq 0 (List.length l))) l.

(** [len(s)] *)
Definition len (s : string) : Z := Z.of_nat (String.length s).

(** [s[lo:hi]]: negative indices count from the end, all are clamped. *)
Definition str_slice (s : string) (lo hi : Z) : string :=
  let clamp i := Z.max 0 (Z.min (len s) (if i <? 0 then i + len s else i)) in
  String.substring (Z.to_nat (clamp lo)) (Z.to_nat (clamp hi - clamp lo)) s.

(** [s.split(sep)] for a separator that is not empty. *)
Fixpoint split_from (sep : string) (skip : nat) (cur s : string) : list string :=
  match s with
  | EmptyString => [cur]
  | String c s' =>
      match skip with
      | S skip' => split_from sep skip' cur s'
      | O =>
          if String.prefix sep s
          then cur :: split_from sep (String.length sep - 1)%nat "" s'
          else split_from sep 0 (cur ++ String c "") s'
      end
  end.

Definition str_split (s sep : string) : list string := split_from sep 0 "" s.

Definition newline : string := String (ascii_of_nat 10) "".

(** ** PDFTextSplitter *)

Module PDFTextSplitter.

Record t : Type := {
  chunk_size : Z;
  chunk_overlap : Z;
  preserve_page_info : bool
}.

(** [PDFTextSplitter(chunk_size, chunk_overlap, preserve_page_info)] *)
Definition __init__ (chunk_size chunk_overlap : Z) (preserve_page_info : bool) : res t :=
  if chunk_size >? chunk_overlap
  then Ok {| chunk_size := chunk_size; chunk_overlap := chunk_overlap;
             preserve_page_info := preserve_page_info |}
  else Raise (AssertionError "Chunk size must be greater than chunk overlap").

Section Split.
(** [int(s)] on a string: [None] where it raises [ValueError]. *)
Variable py_int : string -> option Z.

(** [int(marker.split('Page ')[1].split(' ---')[0])] under
    [except (IndexError, ValueError): pass] *)
Definition page_number (marker : string) : option Z :=
  match nth_error (str_split marker "Page ") 1 with
  | None => None
  | Some after =>
      match nth_error (str_split after " ---") 0 with
      | None => None
      | Some digits => py_int digits
      end
  end.

Definition pages_of (page_markers : list string) : list Z :=
  flat_map (fun marker =>
              match page_number marker with
              | Some page_num => [page_num]
              | None => []
              end) page_markers.

(** The page fields added to the metadata of a chunk. *)
Definition with_page_info (self : t) (chunk_text : string)
           (chunk_metadata : pydict) : pydict :=
  if preserve_page_info self && is_substring "--- Page " chunk_text
  then
    let page_markers :=
      filter (String.prefix "--- Page ") (str_split chunk_text newline) in
    match pages_of page_markers with
    | [] => chunk_metadata
    | (first :: _) as pages =>
        dict_set (dict_set chunk_metadata "pages_spanned" (VList (map VInt pages)))
                 "primary_page" (VInt first)
    end
  else chunk_metadata.

(** The body of the loop of [split]. *)
Definition make_chunk (self : t) (text : string) (base_metadata : pydict)
           (i chunk_start : Z) : pydict :=
  let chunk_text := str_slice text chunk_start (chunk_start + chunk_size self) in
  let chunk_metadata :=
    dict_update base_metadata
      [ ("chunk_id", VInt i);
        ("chunk_start", VInt chunk_start);
        ("chunk_end", VInt (Z.min (chunk_start + chunk_size self) (len text)));
        ("chunk_size", VInt (len chunk_text)) ] in
  [ ("text", VStr chunk_text);
    ("metadata", VDict (with_page_info self chunk_text chunk_metadata)) ].

(** [split(text, metadata=None)] *)
Definition split (self : t) (text : string) (metadata : option pydict)
  : res (list pydict) :=
  let base_metadata :=
    match metadata with
    | Some d => if dict_truthy d then d else []
    | None => []
    end in
  let? starts := range 0 (len text) (chunk_size self - chunk_overlap self) in
  Ok (map (fun ic => make_chunk self text base_metadata (fst ic) (snd ic))
          (enumerate starts)).
End Split.

End PDFTextSplitter.

(** ** YouTubeTextSplitter *)

Module YouTubeTextSplitter.

Record t : Type := {
  chunk_size : Z;
  chunk_overlap : Z;
  preserve_timestamps : bool
}.

(** [YouTubeTextSplitter(chunk_size, chunk_overlap, preserve_timestamps)] *)
Definition __init__ (chunk_size chunk_overlap : Z) (preserve_timestamps : bool) : res t :=
  Ok {| chunk_size := chunk_size; chunk_overlap := chunk_overlap;
        preserve_timestamps := preserve_timestamps |}.

(** The body of the loop of [split_by_text]. *)
Definition make_chunk (self : t) (text : string) (metadata : pydict)
           (chunk_id i : Z) : pydict :=
  let chunk_text := str_slice text i (i + chunk_size self) in
  let chunk_metadata :=
    dict_update metadata
      [ ("chunk_id", VInt chunk_id);
        ("chunk_start", VInt i);
        ("chunk_end", VInt (Z.min (i + chunk_size self) (len text)));
        ("chunk_size", VInt (len chunk_text));
        ("timestamp_start", VNone);
        ("timestamp_end", VNone);
        ("segments_included", VNone) ] in
  [ ("text", VStr chunk_text); ("metadata", VDict chunk_metadata) ].

(** [split_by_text(text, metadata)] *)
Definition split_by_text (self : t) (text : string) (metadata : pydict)
  : res (list pydict) :=
  let? starts := range 0 (len text) (chunk_size self - chunk_overlap self) in
  Ok (map (fun ci => make_chunk self text metadata (fst ci) (snd ci))
          (enumerate starts)).

End YouTubeTextSplitter.

(** ** A reference instance of the numpy kernels

    Sums are accumulated from left to right; subtraction broadcasts an
    array of one element. *)

Definition reference_dot (a b : Vec) : option float :=
  if Nat.eqb (List.length a) (List.length b)
  then Some (fold_left (fun acc xy => acc + fst xy * snd xy)%float (combine a b) 0%float)
  else None.

Definition reference_subtract (a b : Vec) : option Vec :=
  match a, b with
  | [x], _ => Some (map (fun y => x - y)%float b)
  | _, [y] => Some (map (fun x => x - y)%float a)
  | _, _ =>
      if Nat.eqb (List.length a) (List.length b)
      then Some (map (fun xy => fst xy - snd xy)%float (combine a b))
      else None
  end.

Definition reference_sum (a : Vec) : float :=
  fold_left (fun acc x => acc + x)%float a 0%float.

Definition reference_numpy : Numpy := {|
  np_dot := reference_dot;
  np_linalg_norm := fun a => PrimFloat.sqrt (reference_sum (map (fun x => x * x)%float a));
  np_subtract := reference_subtract;
  np_abs := map PrimFloat.abs;
  np_sum := reference_sum
|}.

(** * The rest of the three modules *)

(** ** The embedding provider

    [aimakerspace.openai_utils.embedding.EmbeddingModel] calls a remote
    service: its two calls are the fields of a class.  They return one
    vector of floats per text, or raise. *)

Class EmbeddingModel : Type := {
  get_embedding : string -> res (list float);
  async_get_embeddings : list string -> res (list (list float))
}.

(** ** EnhancedVectorDatabase: searching by text, statistics, building *)

(** What [search_by_text] returns: the keys alone with [return_as_text],
    and what [search] returned otherwise. *)
Inductive text_search_results : Type :=
| AsText (keys : list string)
| AsResults (results : search_results).

(** [[result[0] for result in results]] *)
Definition result_keys (results : search_results) : list string :=
  match results with
  | WithScores l => map (fun r => fst (fst r)) l
  | WithoutScores l => map fst l
  end.

Section SearchByText.
Context {np : Numpy} {embedding_model : EmbeddingModel}.

(** [search_by_text(query_text, k, distance_measure, metadata_filter,
    return_as_text, return_scores)] *)
Definition search_by_text (query_text : string) (k : Z) (distance_measure : string)
           (metadata_filter : option pydict) (return_as_text return_scores : bool)
  : M text_search_results :=
  query_vector <- lift (get_embedding query_text) ;;
  results <- search query_vector k distance_measure metadata_filter return_scores ;;
  if return_as_text
  then ret (AsText (result_keys results))
  else ret (AsResults results).

(** [get_statistics()] *)
Definition get_statistics : M pydict :=
  fun s =>
    (Ok [ ("total_documents", VInt (Z.of_nat (List.length (vectors s))));
          ("total_metadata_entries", VInt (Z.of_nat (List.length (metadata s))));
          ("vector_dimension",
           VInt (match vectors s with
                 | (_, vector) :: _ => Z.of_nat (List.length vector)
                 | [] => 0
                 end));
          ("available_distance_metrics", VList (map VStr (dict_keys distance_metrics))) ],
     s).
End SearchByText.

(** [get_all_metadata()] *)
Definition get_all_metadata : M (list (string * pydict)) :=
  items <- metadata_items ;;
  ret (dict_of_items items).

(** [zip(list_of_text, embeddings, metadata_list)] *)
Definition zip3 {A B C} (la : list A) (lb : list B) (lc : list C) : list (A * B * C) :=
  combine (combine la lb) lc.

(** [for text, embedding, metadata in rows:
       self.insert(text, np.array(embedding), metadata)] *)
Fixpoint insert_rows (rows : list (string * list float * pydict)) : M unit :=
  match rows with
  | [] => ret tt
  | (text, embedding, metadata) :: rest =>
      vector <- lift (np_array (VList (map VFloat embedding))) ;;
      insert text vector (Some metadata) ;;
      insert_rows rest
  end.

Section Build.
Context {embedding_model : EmbeddingModel}.

(** [abuild_from_list(list_of_text, metadata_list=None)]; the one [await]
    is a call that returns or raises. *)
Definition abuild_from_list (list_of_text : list string)
           (metadata_list : option (list pydict)) : M unit :=
  embeddings <- lift (async_get_embeddings list_of_text) ;;
  let metadata_list :=
    match metadata_list with
    | Some ((_ :: _) as l) => l
    | _ => repeat [] (List.length list_of_text)
    end in
  insert_rows (zip3 list_of_text embeddings metadata_list).

(** [[chunk["text"] for chunk in chunks]]; the texts are strings. *)
Fixpoint chunk_texts (chunks : list pydict) : res (list string) :=
  match chunks with
  | [] => Ok []
  | chunk :: rest =>
      match dict_get chunk "text" with
      | None => Raise (KeyError "'text'")
      | Some (VStr text) =>
          let? texts := chunk_texts rest in
          Ok (text :: texts)
      | Some _ => Raise (Unmodelled "a chunk text that is not a string")
      end
  end.

(** The metadata [abuild_from_chunks] keeps for one chunk. *)
Definition preserved_metadata (chunk : pydict) : pydict :=
  match dict_get chunk "metadata" with
  | Some (VDict chunk_metadata) => dict_of_items chunk_metadata
  | _ => []
  end.

(** [abuild_from_chunks(chunks)] *)
Definition abuild_from_chunks (chunks : list pydict) : M unit :=
  texts <- lift (chunk_texts chunks) ;;
  let metadata_list := map preserved_metadata chunks in
  abuild_from_list texts (Some metadata_list).
End Build.

(** ** PDFTextSplitter.split_texts_with_metadata *)

Section SplitTexts.
Variable py_int : string -> option Z.

(** [for text, metadata in zip(texts, metadata_list):
       all_chunks.extend(self.split(text, metadata))] *)
Fixpoint split_pairs (self : PDFTextSplitter.t) (pairs : list (string * pydict))
  : res (list pydict) :=
  match pairs with
  | [] => Ok []
  | (text, metadata) :: rest =>
      let? chunks := PDFTextSplitter.split py_int self text (Some metadata) in
      let? all_chunks := split_pairs self rest in
      Ok (chunks ++ all_chunks)%list
  end.

(** [split_texts_with_metadata(texts, metadata_list=None)] *)
Definition split_texts_with_metadata (self : PDFTextSplitter.t) (texts : list string)
           (metadata_list : option (list pydict)) : res (list pydict) :=
  let metadata_list :=
    match metadata_list with
    | Some ((_ :: _) as l) => l
    | _ => repeat [] (List.length texts)
    end in
  split_pairs self (combine texts metadata_list).
End SplitTexts.

(** ** YouTubeTranscriptLoader.extract_video_id

    The two regular expressions are matched as [re.search] matches them:
    at the leftmost position where a match exists, alternatives in order,
    [.*] and [+] greedy. *)

(** The class [[^&\n?#]]. *)
Definition id_char (c : ascii) : bool :=
  negb (Ascii.eqb c "&" || Ascii.eqb c (ascii_of_nat 10)
        || Ascii.eqb c "?" || Ascii.eqb c "#").

(** The longest run of the class at the head of [s]. *)
Fixpoint id_run (s : string) : string :=
  match s with
  | String c s' => if id_char c then String c (id_run s') else ""
  | EmptyString => ""
  end.

(** The group [([^&\n?#]+)] at the head of [s]. *)
Definition id_group (s : string) : option string :=
  match id_run s with
  | EmptyString => None
  | g => Some g
  end.

(** [s] without its first [n] characters. *)
Fixpoint str_drop (n : nat) (s : string) : string :=
  match n, s with
  | S n', String _ s' => str_drop n' s'
  | _, _ => s
  end.

(** A literal followed by the group, at the head of [s]. *)
Definition literal_then_id (literal s : string) : option string :=
  if String.prefix literal s
  then id_group (str_drop (String.length literal) s)
  else None.

(** [(?:youtube\.com\/watch\?v=|youtu\.be\/|youtube\.com\/embed\/)([^&\n?#]+)]
    at the head of [s]. *)
Definition first_pattern_at (s : string) : option string :=
  match literal_then_id "youtube.com/watch?v=" s with
  | Some g => Some g
  | None =>
      match literal_then_id "youtu.be/" s with
      | Some g => Some g
      | None => literal_then_id "youtube.com/embed/" s
      end
  end.

(** [.*v=([^&\n?#]+)] at the head of [r]: the dot takes no newline, and the
    star gives back as little as it must. *)
Fixpoint greedy_then_v (r : string) : option string :=
  match
    match r with
    | String c r' =>
        if Ascii.eqb c (ascii_of_nat 10) then None else greedy_then_v r'
    | EmptyString => None
    end
  with
  | Some g => Some g
  | None => literal_then_id "v=" r
  end.

(** [youtube\.com\/watch\?.*v=([^&\n?#]+)] at the head of [s]. *)
Definition second_pattern_at (s : string) : option string :=
  if String.prefix "youtube.com/watch?" s
  then greedy_then_v (str_drop (String.length "youtube.com/watch?") s)
  else None.

(** [re.search]: the match at the leftmost position that has one. *)
Fixpoint re_search (pattern_at : string -> option string) (s : string) : option string :=
  match pattern_at s with
  | Some g => Some g
  | None =>
      match s with
      | String _ s' => re_search pattern_at s'
      | EmptyString => None
      end
  end.

(** [extract_video_id(url)] *)
Definition extract_video_id (url : string) : res string :=
  match re_search first_pattern_at url with
  | Some video_id => Ok video_id
  | None =>
      match re_search second_pattern_at url with
      | Some video_id => Ok video_id
      | None => Raise (ValueError ("Could not extract video ID from URL: " ++ url))
      end
  end.

(** ** YouTubeTextSplitter._get_overlap_text *)

(** [_get_overlap_text(text)]; [text[-n:]] is the slice from [-n] to the
    end. *)
Definition _get_overlap_text (self : YouTubeTextSplitter.t) (text : string) : string :=
  if len text <=? YouTubeTextSplitter.chunk_overlap self
  then text
  else str_slice text (- YouTubeTextSplitter.chunk_overlap self) (len text).

(** ** Built-ins of the splitting by segments *)

From Stdlib Require Import DecimalString.

(** [c.isspace()] for the characters below 256: tab to carriage return, the
    four separators, the space, NEL and the no-break space. *)
Definition py_isspace (c : ascii) : bool :=
  let n := N_of_ascii c in
  ((9 <=? n) && (n <=? 13) || (28 <=? n) && (n <=? 32) || (n =? 133) || (n =? 160))%N.

(** [s.lstrip()] *)
Fixpoint str_lstrip (s : string) : string :=
  match s with
  | String c s' => if py_isspace c then str_lstrip s' else s
  | EmptyString => EmptyString
  end.

(** [s.rstrip()] *)
Fixpoint str_rstrip (s : string) : string :=
  match s with
  | String c s' =>
      match str_rstrip s' with
      | EmptyString => if py_isspace c then EmptyString else String c EmptyString
      | r => String c r
      end
  | EmptyString => EmptyString
  end.

(** [s.strip()] *)
Definition str_strip (s : string) : string := str_rstrip (str_lstrip s).

(** [bool(s)] *)
Definition str_truthy (s : string) : bool :=
  match s with
  | EmptyString => false
  | String _ _ => true
  end.

(** [del d[k]]: afterwards [k] is no key of [d]. *)
Fixpoint dict_del {V} (d : list (string * V)) (k : string) : list (string * V) :=
  match d with
  | [] => []
  | (k', v) :: d' => if String.eqb k' k then dict_del d' k else (k', v) :: dict_del d' k
  end.

(** [for x in v]: the elements of a list, the keys of a mapping, the
    characters of a string; nothing else here is iterable. *)
Definition py_iter (v : pyval) : res (list pyval) :=
  match v with
  | VList l => Ok l
  | VDict d => Ok (map VStr (dict_keys d))
  | VStr s => Ok (map (fun c => VStr (String c EmptyString)) (list_ascii_of_string s))
  | _ => Raise TypeError
  end.

(** *** Arithmetic on timestamps

    [int] and [bool] operands are integers, [float] operands are binary64;
    an integer meeting a float is converted first, rounding to nearest
    even, and [OverflowError] is raised where that would give an
    infinity. *)

(** [float(z)] *)
Definition float_of_int (z : Z) : res float :=
  match binary_normalize prec emax z 0 false with
  | S754_infinity _ =>
      Raise (Unmodelled "OverflowError: int too large to convert to float")
  | f => Ok (SF2Prim f)
  end.

Definition py_arith (int_op : Z -> Z -> Z) (float_op : float -> float -> float)
           (a b : num) : res pyval :=
  match a, b with
  | NInt x, NInt y => Ok (VInt (int_op x y))
  | NFloat x, NFloat y => Ok (VFloat (float_op x y))
  | NInt x, NFloat y => let? x' := float_of_int x in Ok (VFloat (float_op x' y))
  | NFloat x, NInt y => let? y' := float_of_int y in Ok (VFloat (float_op x y'))
  end.

(** [a + b] *)
Definition py_add (a b : pyval) : res pyval :=
  match as_num a, as_num b with
  | Some x, Some y => py_arith Z.add PrimFloat.add x y
  | _, _ =>
      match a, b with
      | VStr s, VStr t => Ok (VStr (s ++ t))
      | VList l, VList m => Ok (VList (l ++ m)%list)
      | _, _ => Raise TypeError
      end
  end.

(** [a - b] *)
Definition py_sub (a b : pyval) : res pyval :=
  match as_num a, as_num b with
  | Some x, Some y => py_arith Z.sub PrimFloat.sub x y
  | _, _ => Raise TypeError
  end.

(** *** The format [.1f]

    The decimal with one digit after the point that is nearest to the
    exact value of the float, ties going to the even digit. *)

(** [str(n)] for [n >= 0] *)
Definition decimal (n : Z) : string :=
  NilZero.string_of_uint (N.to_uint (Z.to_N n)).

(** [n / d] rounded to the nearest integer, ties to even, for [d > 0]. *)
Definition round_half_even (n d : Z) : Z :=
  let q := n / d in
  match 2 * (n mod d) ?= d with
  | Lt => q
  | Gt => q + 1
  | Eq => if Z.even q then q else q + 1
  end.

(** Ten times [m * 2^e], rounded. *)
Definition tenths (m : positive) (e : Z) : Z :=
  if 0 <=? e
  then 10 * Zpos m * 2 ^ e
  else round_half_even (10 * Zpos m) (2 ^ (- e)).

(** [f"{x:.1f}"] for a float *)
Definition float_1f (x : float) : string :=
  match Prim2SF x with
  | S754_nan => "nan"
  | S754_infinity s => if s then "-inf" else "inf"
  | S754_zero s => (if s then "-" else "") ++ "0.0"
  | S754_finite s m e =>
      let t := tenths m e in
      (if s then "-" else "") ++ decimal (t / 10) ++ "." ++ decimal (t mod 10)
  end.

(** [f"{v:.1f}"] *)
Definition format_1f (v : pyval) : res string :=
  match v with
  | VFloat f => Ok (float_1f f)
  | VInt z => let? f := float_of_int z in Ok (float_1f f)
  | VBool b => Ok (float_1f (if b then 1 else 0))
  | VStr _ => Raise (ValueError "Unknown format code 'f' for object of type 'str'")
  | _ => Raise TypeError
  end.

(** ** YouTubeTextSplitter: the methods that work on segments *)

Module YouTubeTextSplitterSegments.
Import YouTubeTextSplitter.

(** [_create_chunk_metadata(base_metadata, segments, chunk_id)] *)
Definition _create_chunk_metadata (self : t) (base_metadata : pydict)
           (segments : list pyval) (chunk_id : Z) : res pydict :=
  match segments with
  | [] => Ok (dict_update base_metadata [("chunk_id", VInt chunk_id)])
  | first_segment :: _ =>
      let last_segment := List.last segments first_segment in
      let? start_time := py_getitem first_segment "start" in
      let? last_start := py_getitem last_segment "start" in
      let? last_duration := py_getitem last_segment "duration" in
      let? end_time := py_add last_start last_duration in
      let? duration := py_sub end_time start_time in
      let? start_text := format_1f start_time in
      let? end_text := format_1f end_time in
      let chunk_metadata :=
        dict_update base_metadata
          [ ("chunk_id", VInt chunk_id);
            ("timestamp_start", start_time);
            ("timestamp_end", end_time);
            ("duration", duration);
            ("segments_included", VInt (Z.of_nat (List.length segments)));
            ("segment_range", VStr (start_text ++ "s - " ++ end_text ++ "s")) ] in
      Ok (if dict_contains chunk_metadata "transcript_segments"
          then dict_del chunk_metadata "transcript_segments"
          else chunk_metadata)
  end.

(** The variables of the loop of [split_by_segments]. *)
Record loop : Type := {
  chunks : list pydict;
  current_chunk : string;
  current_segments : list pyval;
  chunk_id : Z
}.

(** [{"text": current_chunk.strip(), "metadata": chunk_metadata}] appended
    to [chunks]. *)
Definition append_chunk (self : t) (metadata : pydict) (st : loop) : res (list pydict) :=
  let? chunk_metadata :=
    _create_chunk_metadata self metadata (current_segments st) (chunk_id st) in
  Ok (chunks st ++ [ [ ("text", VStr (str_strip (current_chunk st)));
                       ("metadata", VDict chunk_metadata) ] ])%list.

(** The body of the loop of [split_by_segments]. *)
Definition loop_body (self : t) (metadata : pydict) (st : loop) (segment : pyval)
  : res loop :=
  let? segment_text := py_getitem segment "text" in
  match segment_text with
  | VStr segment_text =>
      if (chunk_size self <? len (current_chunk st ++ " " ++ segment_text))
         && str_truthy (current_chunk st)
      then
        let? chunks' := append_chunk self metadata st in
        let overlap_text := _get_overlap_text self (current_chunk st) in
        Ok {| chunks := chunks';
              current_chunk :=
                if str_truthy overlap_text
                then overlap_text ++ " " ++ segment_text
                else segment_text;
              current_segments := [segment];
              chunk_id := chunk_id st + 1 |}
      else
        Ok {| chunks := chunks st;
              current_chunk :=
                current_chunk st
                ++ (if str_truthy (current_chunk st)
                    then " " ++ segment_text
                    else segment_text);
              current_segments := (current_segments st ++ [segment])%list;
              chunk_id := chunk_id st |}
  | _ => Raise TypeError     (* [current_chunk + " " + segment_text] *)
  end.

Fixpoint run_loop (self : t) (metadata : pydict) (st : loop)
         (transcript_segments : list pyval) : res loop :=
  match transcript_segments with
  | [] => Ok st
  | segment :: rest =>
      let? st' := loop_body self metadata st segment in
      run_loop self metadata st' rest
  end.

(** [split_by_segments(transcript_segments, metadata)] *)
Definition split_by_segments (self : t) (transcript_segments : list pyval)
           (metadata : pydict) : res (list pydict) :=
  let? st :=
    run_loop self metadata
             {| chunks := []; current_chunk := ""; current_segments := [];
                chunk_id := 0 |}
             transcript_segments in
  if str_truthy (current_chunk st)
  then append_chunk self metadata st
  else Ok (chunks st).

(** [split(transcript_text, metadata)] *)
Definition split (self : t) (transcript_text : string) (metadata : pydict)
  : res (list pydict) :=
  if preserve_timestamps self && dict_contains metadata "transcript_segments"
  then
    let? value := py_getitem (VDict metadata) "transcript_segments" in
    let? transcript_segments := py_iter value in
    split_by_segments self transcript_segments metadata
  else split_by_text self transcript_text metadata.

End YouTubeTextSplitterSegments.

(** ** YouTubeTranscriptLoader *)

Module YouTubeTranscriptLoader.

Record t : Type := {
  video_id : option string;
  video_info : pydict
}.

(** [YouTubeTranscriptLoader()] *)
Definition __init__ : t := {| video_id := None; video_info := [] |}.

(** [get_video_info(video_id)]; [now] is what
    [datetime.now().isoformat()] returns when it is called. *)
Definition get_video_info (now : string) (video_id : string) : pydict :=
  [ ("video_id", VStr video_id);
    ("title", VStr ("Video " ++ video_id));
    ("channel", VStr "Sample Channel");
    ("duration", VStr "10:30");
    ("upload_date", VStr now);
    ("description", VStr "Sample video description");
    ("view_count", VInt 1000);
    ("like_count", VInt 50);
    ("language", VStr "en") ].

Definition segment (text : string) (start duration : float) : pyval :=
  VDict [ ("text", VStr text); ("start", VFloat start); ("duration", VFloat duration) ].

#[local] Set Warnings "-inexact-float".

(** [get_transcript(video_id)] *)
Definition get_transcript (video_id : string) : list pyval :=
  [ segment "Welcome to this video about startup advice and entrepreneurship."
            0.0 3.5;
    segment "Today we'll discuss the key factors that determine startup success."
            3.5 4.0;
    segment "First, let's talk about product market fit and why it's crucial."
            7.5 4.2;
    segment "Product market fit means customers are buying your product as fast as you can make it."
            11.7 5.1;
    segment "Without product market fit, even the best team will struggle to succeed."
            16.8 4.3;
    segment "Next, we need to consider the founding team and their experience."
            21.1 4.0;
    segment "A strong founding team with complementary skills is essential for startup success."
            25.1 5.2;
    segment "The team should include technical expertise, business acumen, and domain knowledge."
            30.3 5.5;
    segment "Market timing is another critical factor that many entrepreneurs overlook."
            35.8 4.7;
    segment "Even great products can fail if they're introduced too early or too late."
            40.5 4.8 ].

(** What [load_video_content] returns or raises: everything raised inside
    its [try] block leaves it as a plain [Exception]. *)
Inductive outcome : Type :=
| Loaded (full_transcript : string) (metadata : pydict)
| Exception (msg : string).

(** [str(e)] for the exceptions that carry their text. *)
Definition str_of_exn (e : exn) : string :=
  match e with
  | ValueError msg | KeyError msg | AssertionError msg => msg
  | _ => ""
  end.

(** [[segment["text"] for segment in transcript_segments]] *)
Fixpoint segment_texts (transcript_segments : list pyval) : res (list string) :=
  match transcript_segments with
  | [] => Ok []
  | segment :: rest =>
      let? text := py_getitem segment "text" in
      let? texts := segment_texts rest in
      match text with
      | VStr text => Ok (text :: texts)
      | _ => Raise TypeError     (* [" ".join] of something that is no string *)
      end
  end.

(** [load_video_content(url)]; [now_1] and [now_2] are the two readings of
    the clock. *)
Definition load_video_content (now_1 now_2 : string) (self : t) (url : string)
  : outcome * t :=
  let failed e :=
    Exception ("Failed to load YouTube video content: " ++ str_of_exn e) in
  match extract_video_id url with
  | Raise e => (failed e, self)
  | Ok video_id =>
      let self := {| video_id := Some video_id; video_info := video_info self |} in
      let video_info := get_video_info now_1 video_id in
      let transcript_segments := get_transcript video_id in
      match segment_texts transcript_segments with
      | Raise e => (failed e, self)
      | Ok texts =>
          let full_transcript := String.concat " " texts in
          let metadata :=
            dict_update video_info
              [ ("source", VStr url);
                ("source_type", VStr "youtube");
                ("transcript_segments", VList transcript_segments);
                ("total_segments", VInt (Z.of_nat (List.length transcript_segments)));
                ("transcript_length", VInt (len full_transcript));
                ("loader", VStr "YouTubeTranscriptLoader");
                ("processed_date", VStr now_2) ] in
          (Loaded full_transcript metadata,
           {| video_id := Some video_id; video_info := metadata |})
      end
  end.

End YouTubeTranscriptLoader.
(** * The vocabulary of the statements *)

Open Scope list_scope.

(** ** Induction on Python values *)

Section PyvalInduction.
Variable P : pyval -> Prop.
Hypothesis P_none : P VNone.
Hypothesis P_bool : forall b, P (VBool b).
Hypothesis P_int : forall z, P (VInt z).
Hypothesis P_float : forall f, P (VFloat f).
Hypothesis P_str : forall s, P (VStr s).
Hypothesis P_list : forall l, Forall P l -> P (VList l).
Hypothesis P_dict : forall d, Forall (fun kv => P (snd kv)) d -> P (VDict d).

Fixpoint pyval_nested_ind (v : pyval) : P v :=
  match v with
  | VNone => P_none
  | VBool b => P_bool b
  | VInt z => P_int z
  | VFloat f => P_float f
  | VStr s => P_str s
  | VList l =>
      P_list ((fix items (l : list pyval) : Forall P l :=
                 match l with
                 | [] => Forall_nil P
                 | x :: l' => Forall_cons x (pyval_nested_ind x) (items l')
                 end) l)
  | VDict d =>
      P_dict ((fix bindings (d : list (string * pyval))
                : Forall (fun kv => P (snd kv)) d :=
                 match d with
                 | [] => Forall_nil _
                 | kv :: d' =>
                     Forall_cons (P := fun kv => P (snd kv)) kv
                                 (pyval_nested_ind (snd kv)) (bindings d')
                 end) d)
  end.
End PyvalInduction.

(** ** Filters *)

(** What one filter value asks of the document's value.  The range
    operators pass when the rejecting comparison of the source evaluates to
    false: [$gte] when [doc_value < bound] is false, [$lte] when
    [doc_value > bound] is false, [$gt] when [doc_value <= bound] is false,
    [$lt] when [doc_value >= bound] is false. *)
Definition value_passes (doc_value filter_value : pyval) : Prop :=
  match filter_value with
  | VDict ops =>
      (forall bound, dict_get ops "$gte" = Some bound ->
                     py_compare OpLt doc_value bound = Ok false) /\
      (forall bound, dict_get ops "$lte" = Some bound ->
                     py_compare OpGt doc_value bound = Ok false) /\
      (forall bound, dict_get ops "$gt" = Some bound ->
                     py_compare OpLe doc_value bound = Ok false) /\
      (forall bound, dict_get ops "$lt" = Some bound ->
                     py_compare OpGe doc_value bound = Ok false) /\
      (forall choices, dict_get ops "$in" = Some choices ->
                       py_in doc_value choices = Ok true) /\
      (forall choices, dict_get ops "$nin" = Some choices ->
                       py_in doc_value choices = Ok false)
  | VList _ => py_in doc_value filter_value = Ok true
  | _ => py_eq doc_value filter_value = true
  end.

(** A filter key passes when the document has the key and its value passes. *)
Definition key_passes (doc_metadata : pydict) (filter_key : string)
           (filter_value : pyval) : Prop :=
  exists doc_value,
    dict_get doc_metadata filter_key = Some doc_value /\
    value_passes doc_value filter_value.

(** ** Ranking *)

(** [ordered reverse x y]: [y] may stand after [x] in the result, the key
    of [y] does not go strictly before the key of [x]. *)
Definition ordered (reverse : bool) (x y : scored) : Prop :=
  goes_before reverse (score_of y) (score_of x) = false.

(** [<] is a strict weak order on the keys in [l] (as it is on floats none
    of which is a NaN). *)
Definition comparable (l : list float) : Prop :=
  (forall a b, In a l -> In b l ->
               PrimFloat.ltb a b = true -> PrimFloat.ltb b a = false) /\
  (forall a b c, In a l -> In b l -> In c l ->
                 PrimFloat.ltb a b = false -> PrimFloat.ltb b c = false ->
                 PrimFloat.ltb a c = false).

(** [pass] says which keys the filter keeps: what [_matches_filter]
    returns for the key, and every key when there is no filter or an
    empty one. *)
Definition selects (s : state) (metadata_filter : option pydict)
           (pass : string -> bool) (key : string) : Prop :=
  match metadata_filter with
  | Some ((_ :: _) as f) => fst (_matches_filter key f s) = Ok (pass key)
  | _ => pass key = true
  end.

(** The stored vectors the filter keeps, in the order of the store, each
    with its score and its metadata. *)
Definition candidates (s : state) (pass : string -> bool) (score : Vec -> float)
           (items : list (string * Vec)) : list scored :=
  map (fun kv => (fst kv, score (snd kv), dict_get_default (metadata s) (fst kv) []))
      (filter (fun kv => pass (fst kv)) items).

(** ** Equality as Python and numpy see it *)

(** [x == y] on floats: nothing is equal to a NaN, not even itself. *)
Definition float_eq (x y : float) : bool :=
  match float_compare x y with
  | Some Eq => true
  | _ => false
  end.

(** [np.array_equal(a, b)]: the same length and [==] component by
    component. *)
Fixpoint array_equal (a b : Vec) : bool :=
  match a, b with
  | [], [] => true
  | x :: a', y :: b' => float_eq x y && array_equal a' b'
  | _, _ => false
  end.

#[local] Set Warnings "-inexact-float".

(** [np.isclose(x, y)] with the tolerances numpy takes by default. *)
Definition np_isclose (x y : float) : bool :=
  if PrimFloat.is_finite x && PrimFloat.is_finite y
  then PrimFloat.leb (PrimFloat.abs (x - y)) (1e-8 + 1e-5 * PrimFloat.abs y)%float
  else float_eq x y.

(** [np.allclose(a, b)] on arrays of the same length. *)
Fixpoint np_allclose (a b : Vec) : bool :=
  match a, b with
  | [], [] => true
  | x :: a', y :: b' => np_isclose x y && np_allclose a' b'
  | _, _ => false
  end.

(** No float in the value is a NaN: every float in it is [==] to itself. *)
Fixpoint nan_free (v : pyval) : bool :=
  match v with
  | VFloat f => float_eq f f
  | VList l =>
      (fix items (l : list pyval) : bool :=
         match l with
         | [] => true
         | x :: l' => nan_free x && items l'
         end) l
  | VDict d =>
      (fix bindings (d : list (string * pyval)) : bool :=
         match d with
         | [] => true
         | (_, x) :: d' => nan_free x && bindings d'
         end) d
  | _ => true
  end.

(** The invariant of Python dictionaries inside a value: no mapping in it
    binds a key twice. *)
Fixpoint unique_keys (v : pyval) : Prop :=
  match v with
  | VList l =>
      (fix items (l : list pyval) : Prop :=
         match l with
         | [] => True
         | x :: l' => unique_keys x /\ items l'
         end) l
  | VDict d =>
      NoDup (dict_keys d) /\
      (fix bindings (d : list (string * pyval)) : Prop :=
         match d with
         | [] => True
         | (_, x) :: d' => unique_keys x /\ bindings d'
         end) d
  | _ => True
  end.

(** ** Well-formed stores *)

(** The invariant of Python dictionaries: no key is bound twice. *)
Definition wf_store (s : state) : Prop :=
  NoDup (dict_keys (vectors s)) /\ NoDup (dict_keys (metadata s)).

(** The document [save_to_file] writes for a store. *)
Definition document_of (s : state) : pyval :=
  VDict [ ("vectors", VDict (map (fun kv => (fst kv, tolist (snd kv))) (vectors s)));
          ("metadata", VDict (map (fun kv => (fst kv, VDict (snd kv))) (metadata s))) ].

(** A computation keeps the invariant, whether it returns or raises. *)
Definition preserves_wf {A} (c : M A) : Prop :=
  forall s, wf_store s -> wf_store (snd (c s)).

(** ** Stores and texts the statements are run on *)

(** A store with one document, built by the methods themselves. *)
Definition one_document_store : state :=
  snd (insert "doc" [1%float] (Some [("category", VStr "food")]) (empty_store [])).

(** A store whose document has a NaN in its vector and in its metadata. *)
Definition nan_store : state :=
  snd (insert "doc" [nan; 1]%float (Some [("score", VFloat nan)]) (empty_store [])).

(** A store with three documents, built by [insert]. *)
Definition three_document_store : state :=
  snd ((insert "apple" [1; 0]%float (Some [("category", VStr "food"); ("length", VInt 5)]) ;;
        insert "bird" [0; 1]%float (Some [("category", VStr "animals"); ("length", VInt 4)]) ;;
        insert "cat" [2; 0]%float (Some [("category", VStr "animals"); ("length", VInt 3)]))
         (empty_store [])).

(** A text that needs two chunks of the default size. *)
Definition nine_hundred_characters : string :=
  string_of_list_ascii (repeat "a"%char 900).

(** A reading of decimal literals: surrounding blanks, a sign, digits.  It
    stands in for [int] when [split] is run on the page markers the loader
    writes. *)
Definition digit_of (c : ascii) : option Z :=
  let n := Z.of_nat (nat_of_ascii c) in
  if (48 <=? n) && (n <=? 57) then Some (n - 48) else None.

Definition is_blank (c : ascii) : bool :=
  let n := nat_of_ascii c in
  Nat.eqb n 32 || (Nat.leb 9 n && Nat.leb n 13).

Fixpoint drop_blanks (l : list ascii) : list ascii :=
  match l with
  | c :: l' => if is_blank c then drop_blanks l' else l
  | [] => []
  end.

Fixpoint decimal_from (acc : Z) (l : list ascii) : option Z :=
  match l with
  | [] => Some acc
  | c :: l' =>
      match digit_of c with
      | Some d => decimal_from (10 * acc + d) l'
      | None => None
      end
  end.

Definition decimal_int (s : string) : option Z :=
  let stripped :=
    drop_blanks (rev (drop_blanks (rev (list_ascii_of_string s)))) in
  let digits l :=
    match l with
    | [] => None
    | _ :: _ => decimal_from 0 l
    end in
  match stripped with
  | "-"%char :: l => option_map Z.opp (digits l)
  | "+"%char :: l => digits l
  | l => digits l
  end.

(** ** Video identifiers *)

(** Every character of [s] may stand in a video identifier. *)
Fixpoint all_id_chars (s : string) : bool :=
  match s with
  | String c s' => id_char c && all_id_chars s'
  | EmptyString => true
  end.

(** [s] cannot continue an identifier: it is empty or starts with one of
    [&], newline, [?], [#]. *)
Definition ends_id (s : string) : bool :=
  match s with
  | String c _ => negb (id_char c)
  | EmptyString => true
  end.

(** [found id s]: [id] is a non-empty run of identifier characters that
    occurs in [s]. *)
Definition found (id s : string) : Prop :=
  id <> "" /\ all_id_chars id = true /\ exists a b, s = (a ++ id ++ b)%string.

(** ** The scan of [search] as a function of the two mappings *)

(** Whether the filter keeps a key, given the metadata mapping. *)
Definition keeps_key (md : list (string * pydict)) (metadata_filter : option pydict)
           (key : string) : res bool :=
  match metadata_filter with
  | Some ((_ :: _) as f) => matches_items (dict_get_default md key []) f
  | _ => Ok true
  end.

(** The scored candidates, in the order of the items; an exception of the
    filter or of the metric on an item comes before anything of the later
    items. *)
Fixpoint scan (md : list (string * pydict)) (distance_func : Vec -> Vec -> res float)
         (query_vector : Vec) (metadata_filter : option pydict)
         (items : list (string * Vec)) : res (list scored) :=
  match items with
  | [] => Ok []
  | (key, vector) :: rest =>
      let? keep := keeps_key md metadata_filter key in
      if keep
      then
        let? score := distance_func query_vector vector in
        let? later := scan md distance_func query_vector metadata_filter rest in
        Ok ((key, score, dict_get_default md key []) :: later)
      else scan md distance_func query_vector metadata_filter rest
  end.

(** The results in the form [return_scores] asks for. *)
Definition shaped (return_scores : bool) (results : list scored) : search_results :=
  if return_scores
  then WithScores results
  else WithoutScores (map (fun r => (fst (fst r), snd r)) results).

(** [results[:k]] on either form of results. *)
Definition first_results (k : nat) (results : search_results) : search_results :=
  match results with
  | WithScores l => WithScores (firstn k l)
  | WithoutScores l => WithoutScores (firstn k l)
  end.

(** A returned triple is a stored entry: its vector is the one stored under
    the key, its score the metric of the query and that vector, its metadata
    the metadata stored under the key, and the filter accepts the key. *)
Definition stored_hit (s : state) (distance_func : Vec -> Vec -> res float)
           (query_vector : Vec) (metadata_filter : option pydict)
           (x : scored) : Prop :=
  exists vector,
    dict_get (vectors s) (fst (fst x)) = Some vector /\
    distance_func query_vector vector = Ok (score_of x) /\
    snd x = dict_get_default (metadata s) (fst (fst x)) [] /\
    match metadata_filter with
    | Some ((_ :: _) as f) => fst (_matches_filter (fst (fst x)) f s) = Ok true
    | _ => True
    end.

(** ** Consistent stores *)

(** The dictionaries are well formed and every key that has metadata has a
    vector. *)
Definition consistent (s : state) : Prop :=
  wf_store s /\
  forall key, dict_get (metadata s) key <> None -> dict_get (vectors s) key <> None.

(** A computation keeps a store consistent, whether it returns or raises. *)
Definition keeps_consistent {A} (c : M A) : Prop :=
  forall s, consistent s -> consistent (snd (c s)).

(** One entry of what [get_statistics] returns. *)
Definition statistic {np : Numpy} (name : string) (s : state) : option pyval :=
  match fst (get_statistics s) with
  | Ok stats => dict_get stats name
  | Raise _ => None
  end.

(** ** Rows and chunks *)

(** The vector assignments and the metadata assignments a list of rows
    makes through [insert]. *)
Definition row_vectors (rows : list (string * list float * pydict))
  : list (string * Vec) :=
  map (fun r => (fst (fst r), snd (fst r))) rows.

Definition row_metadata (rows : list (string * list float * pydict))
  : list (string * pydict) :=
  flat_map (fun r => match snd r with
                     | [] => []
                     | _ :: _ => [(fst (fst r), snd r)]
                     end) rows.

(** The chunk both splitters build from a text and its metadata. *)
Definition chunk_of (p : string * pydict) : pydict :=
  [("text", VStr (fst p)); ("metadata", VDict (snd p))].

(** An embedding provider for running the model: a text is embedded by its
    length. *)
Definition length_embedding (text : string) : list float :=
  [Nat.iter (String.length text) (fun x => x + 1)%float 0%float; 1%float].

Definition length_embedding_model : EmbeddingModel := {|
  get_embedding := fun text => Ok (length_embedding text);
  async_get_embeddings := fun texts => Ok (map length_embedding texts)
|}.

(** The text and the metadata of a chunk. *)
Definition chunk_text (chunk : pydict) : string :=
  match dict_get chunk "text" with
  | Some (VStr text) => text
  | _ => ""
  end.

Definition chunk_metadata (chunk : pydict) : pydict :=
  match dict_get chunk "metadata" with
  | Some (VDict md) => md
  | _ => []
  end.

(** The metadata keys [PDFTextSplitter.split] writes itself. *)
Definition split_keys : list string :=
  ["chunk_id"; "chunk_start"; "chunk_end"; "chunk_size"; "pages_spanned"; "primary_page"].

(** ** Transcript segments *)

(** [segment[name]], where there is one. *)
Definition field (segment : pyval) (name : string) : option pyval :=
  match segment with
  | VDict d => dict_get d name
  | _ => None
  end.

Definition seg_text (segment : pyval) : string :=
  match field segment "text" with
  | Some (VStr text) => text
  | _ => ""
  end.

Definition seg_start (segment : pyval) : float :=
  match field segment "start" with
  | Some (VFloat start) => start
  | _ => 0
  end.

Definition seg_duration (segment : pyval) : float :=
  match field segment "duration" with
  | Some (VFloat duration) => duration
  | _ => 0
  end.

(** A segment as a transcript has them: a mapping with a string under
    [text] and floats under [start] and [duration]. *)
Definition timed (segment : pyval) : bool :=
  match field segment "text", field segment "start", field segment "duration" with
  | Some (VStr _), Some (VFloat _), Some (VFloat _) => true
  | _, _, _ => false
  end.

(** When a group of segments ends: the start of its last segment plus its
    duration. *)
Definition group_end (first_segment : pyval) (rest : list pyval) : float :=
  let last_segment := List.last (first_segment :: rest) first_segment in
  (seg_start last_segment + seg_duration last_segment)%float.

(** The metadata keys [_create_chunk_metadata] writes or removes. *)
Definition segment_keys : list string :=
  ["chunk_id"; "timestamp_start"; "timestamp_end"; "duration"; "segments_included";
   "segment_range"; "transcript_segments"].

(** The number under [segments_included] in the metadata of a chunk. *)
Definition segments_included (chunk : pydict) : Z :=
  match dict_get (chunk_metadata chunk) "segments_included" with
  | Some (VInt n) => n
  | _ => 0
  end.

(** The sum of a list of integers. *)
Definition total (l : list Z) : Z := fold_right Z.add 0 l.

(** The splitter [YouTubeTextSplitter()] with the defaults of the
    constructor. *)
Definition default_youtube_splitter : YouTubeTextSplitter.t :=
  {| YouTubeTextSplitter.chunk_size := 1000;
     YouTubeTextSplitter.chunk_overlap := 200;
     YouTubeTextSplitter.preserve_timestamps := true |}.

(** What [_create_chunk_metadata] makes of a group of timed segments. *)
Definition created (base_metadata : pydict) (first_segment : pyval) (rest : list pyval)
           (chunk_id : Z) : pydict :=
  let start_time := seg_start first_segment in
  let end_time := group_end first_segment rest in
  let chunk_metadata :=
    dict_update base_metadata
      [ ("chunk_id", VInt chunk_id);
        ("timestamp_start", VFloat start_time);
        ("timestamp_end", VFloat end_time);
        ("duration", VFloat (end_time - start_time)%float);
        ("segments_included", VInt (Z.of_nat (S (List.length rest))));
        ("segment_range",
         VStr (float_1f start_time ++ "s - " ++ float_1f end_time ++ "s")%string) ] in
  if dict_contains chunk_metadata "transcript_segments"
  then dict_del chunk_metadata "transcript_segments"
  else chunk_metadata.

(** The metadata of the chunk made of a group of timed segments. *)
Definition group_metadata (base_metadata : pydict) (segments : list pyval)
           (chunk_id : Z) : pydict :=
  match segments with
  | [] => dict_update base_metadata [("chunk_id", VInt chunk_id)]
  | first_segment :: rest => created base_metadata first_segment rest chunk_id
  end.

(** [" ".join(segment["text"] for segment in segments)] *)
Definition join_texts (segments : list pyval) : string :=
  String.concat " " (map seg_text segments).

(** The text gathered for a group of segments: the overlap kept of the
    text gathered for the group before, where there is one, a space, and
    the texts of the group. *)
Definition raw_text (self : YouTubeTextSplitter.t) (previous : option string)
           (segments : list pyval) : string :=
  match previous with
  | None => join_texts segments
  | Some text => (_get_overlap_text self text ++ " " ++ join_texts segments)%string
  end.

(** The texts gathered for consecutive groups. *)
Fixpoint raw_texts (self : YouTubeTextSplitter.t) (previous : option string)
         (groups : list (list pyval)) : list string :=
  match groups with
  | [] => []
  | segments :: groups' =>
      let text := raw_text self previous segments in
      text :: raw_texts self (Some text) groups'
  end.

(** The chunk of a numbered group and the text gathered for it. *)
Definition chunk_for (base_metadata : pydict) (x : Z * (list pyval * string)) : pydict :=
  chunk_of (str_strip (snd (snd x)), group_metadata base_metadata (fst (snd x)) (fst x)).

(** The chunks of consecutive groups. *)
Definition chunks_for (self : YouTubeTextSplitter.t) (base_metadata : pydict)
           (groups : list (list pyval)) : list pydict :=
  map (chunk_for base_metadata) (enumerate (combine groups (raw_texts self None groups))).

(** The last of [texts], or [previous] when there is none. *)
Definition last_text (previous : option string) (texts : list string) : option string :=
  List.last (map Some texts) previous.

(** What holds of the variables of the loop of [split_by_segments] once
    the first segment is read: [groups] are the groups of segments already
    made into chunks. *)
Definition loop_invariant (self : YouTubeTextSplitter.t) (base_metadata : pydict)
           (st : YouTubeTextSplitterSegments.loop) (groups : list (list pyval)) : Prop :=
  YouTubeTextSplitterSegments.chunks st = chunks_for self base_metadata groups /\
  YouTubeTextSplitterSegments.chunk_id st = Z.of_nat (List.length groups) /\
  YouTubeTextSplitterSegments.current_segments st <> [] /\
  forallb timed (YouTubeTextSplitterSegments.current_segments st) = true /\
  YouTubeTextSplitterSegments.current_chunk st
  = raw_text self (last_text None (raw_texts self None groups))
             (YouTubeTextSplitterSegments.current_segments st) /\
  YouTubeTextSplitterSegments.current_chunk st <> "" /\
  Forall (fun g => g <> []) groups /\
  Forall (fun g => forallb timed g = true) groups /\
  Forall (fun gr => (2 <= List.length (fst gr))%nat ->
                    len (snd gr) <= YouTubeTextSplitter.chunk_size self)
         (combine groups (raw_texts self None groups)) /\
  ((2 <= List.length (YouTubeTextSplitterSegments.current_segments st))%nat ->
   len (YouTubeTextSplitterSegments.current_chunk st)
   <= YouTubeTextSplitter.chunk_size self).

(** A splitter and three short segments for running the model. *)
Definition short_splitter : YouTubeTextSplitter.t :=
  {| YouTubeTextSplitter.chunk_size := 12;
     YouTubeTextSplitter.chunk_overlap := 3;
     YouTubeTextSplitter.preserve_timestamps := true |}.

Definition hello_segment : pyval := YouTubeTranscriptLoader.segment "hello" 0 1.5.

Definition world_again : list pyval :=
  [YouTubeTranscriptLoader.segment "world" 1.5 2;
   YouTubeTranscriptLoader.segment "again" 3.5 1].

(** What [segment["text"]] raises, or the concatenation with it, when the
    segment has no string under [text]. *)
Definition text_error (segment : pyval) : exn :=
  match segment with
  | VDict d =>
      match dict_get d "text" with
      | None => KeyError "'text'"
      | Some _ => TypeError
      end
  | _ => TypeError
  end.
(** * Properties *)

(** ** Runs of the primitives *)

Example py_compare_mixed :
  py_compare OpLt (VInt 3) (VFloat 3.5) = Ok true /\
  py_compare OpGe (VBool true) (VInt 1) = Ok true /\
  py_compare OpLt (VStr "a") (VInt 1) = Raise TypeError /\
  py_compare OpLe (VList [VInt 1; VInt 2]) (VList [VInt 1; VInt 3]) = Ok true /\
  py_eq (VInt 1) (VFloat 1) = true /\
  py_eq (VFloat nan) (VFloat nan) = false /\
  py_eq (VDict [("a", VInt 1); ("b", VNone)]) (VDict [("b", VNone); ("a", VInt 1)]) = true /\
  py_in (VInt 2) (VList [VInt 1; VFloat 2]) = Ok true.
Proof. vm_compute. repeat split. Qed.

Example str_split_examples :
  str_split "--- Page 12 ---" "Page " = ["--- "; "12 ---"] /\
  str_split "12 ---" " ---" = ["12"; ""] /\
  str_split "a" "Page " = ["a"] /\
  str_slice "hello" 1 3 = "el" /\
  str_slice "hello" 3 100 = "lo" /\
  str_slice "hello" (-2) 5 = "lo" /\
  range 0 10 4 = Ok [0; 4; 8] /\
  range 0 10 (-1) = Ok [] /\
  range 5 0 (-2) = Ok [5; 3; 1].
Proof. vm_compute. repeat split. Qed.

Example metrics_on_reference_kernels :
  cosine_similarity (np := reference_numpy) [3; 4]%float [3; 4]%float = Ok 1%float /\
  euclidean_distance (np := reference_numpy) [3; 4]%float [0; 0]%float = Ok 5%float /\
  manhattan_distance (np := reference_numpy) [3; 4]%float [1; 6]%float = Ok 4%float /\
  dot_product_similarity (np := reference_numpy) [3; 4]%float [1; 2]%float = Ok 11%float /\
  dot_product_similarity (np := reference_numpy) [3; 4]%float [1]%float = Raise NumpyError.
Proof. vm_compute. repeat split. Qed.

(** ** Dictionaries *)

Section DictFacts.
Context {V : Type}.
Implicit Types (d : list (string * V)) (k : string) (v : V).

Lemma dict_get_set_same d k v : dict_get (dict_set d k v) k = Some v.
Proof.
  induction d as [| [k' v'] d IH]; simpl.
  - now rewrite String.eqb_refl.
  - destruct (String.eqb k' k) eqn:E; simpl.
    + now rewrite String.eqb_refl.
    + now rewrite E.
Qed.

Lemma dict_get_set_other d k k' v :
  k <> k' -> dict_get (dict_set d k v) k' = dict_get d k'.
Proof.
  intros Hne. induction d as [| [k0 v0] d IH]; simpl.
  - destruct (String.eqb k k') eqn:E; [apply String.eqb_eq in E; contradiction | reflexivity].
  - destruct (String.eqb k0 k) eqn:E; simpl.
    + apply String.eqb_eq in E; subst k0.
      destruct (String.eqb k k') eqn:E'; [apply String.eqb_eq in E'; contradiction | reflexivity].
    + now rewrite IH.
Qed.

Lemma dict_get_None_not_key d k : dict_get d k = None <-> ~ In k (dict_keys d).
Proof.
  induction d as [| [k' v'] d IH]; simpl.
  - tauto.
  - destruct (String.eqb k' k) eqn:E.
    + apply String.eqb_eq in E. split; [discriminate | intros H; exfalso; auto].
    + apply String.eqb_neq in E. rewrite IH. tauto.
Qed.

Lemma dict_set_new d k v : ~ In k (dict_keys d) -> dict_set d k v = d ++ [(k, v)].
Proof.
  induction d as [| [k' v'] d IH]; simpl; intros Hk; [reflexivity |].
  destruct (String.eqb k' k) eqn:E.
  - apply String.eqb_eq in E. exfalso; auto.
  - f_equal. apply IH. tauto.
Qed.

Lemma dict_keys_set d k v :
  dict_keys (dict_set d k v) = if dict_contains d k then dict_keys d else dict_keys d ++ [k].
Proof.
  unfold dict_contains. induction d as [| [k' v'] d IH]; simpl; [reflexivity |].
  destruct (String.eqb k' k) eqn:E; simpl.
  - apply String.eqb_eq in E. now subst.
  - rewrite IH. now destruct (dict_get d k).
Qed.

Lemma dict_set_NoDup d k v : NoDup (dict_keys d) -> NoDup (dict_keys (dict_set d k v)).
Proof.
  intros Hd. rewrite dict_keys_set. unfold dict_contains.
  destruct (dict_get d k) eqn:E; [assumption |].
  apply dict_get_None_not_key in E.
  apply NoDup_rev in Hd. rewrite <- (rev_involutive (dict_keys d ++ [k])).
  apply NoDup_rev. rewrite rev_app_distr. simpl. constructor; [| assumption].
  now rewrite <- in_rev.
Qed.

(** Building a dictionary from items with distinct keys keeps the items
    as they are. *)
Lemma dict_of_items_NoDup (items : list (string * V)) :
  NoDup (dict_keys items) -> dict_of_items items = items.
Proof.
  unfold dict_of_items.
  enough (H : forall acc, NoDup (dict_keys (acc ++ items)) ->
              fold_left (fun a kv => dict_set a (fst kv) (snd kv)) items acc = acc ++ items)
    by (intros Hn; now apply (H [])).
  induction items as [| [k v] items IH]; intros acc Hn; simpl.
  - now rewrite app_nil_r.
  - replace (acc ++ (k, v) :: items) with ((acc ++ [(k, v)]) ++ items) in *
      by now rewrite <- app_assoc.
    rewrite dict_set_new; [now apply IH |].
    unfold dict_keys in Hn. rewrite !map_app in Hn. simpl in Hn.
    rewrite <- app_assoc in Hn. apply NoDup_remove_2 in Hn.
    intros Hin. apply Hn. apply in_or_app. now left.
Qed.

(** [d.update(new)] binds the keys of [new] and leaves the others. *)
Lemma dict_get_update_other d (new : list (string * V)) k :
  dict_get new k = None -> dict_get (dict_update d new) k = dict_get d k.
Proof.
  unfold dict_update. revert d.
  induction new as [| [k' v'] new IH]; intros d Hk; simpl in *; [reflexivity |].
  destruct (String.eqb k' k) eqn:E; [discriminate |].
  rewrite IH by assumption. apply dict_get_set_other. now apply String.eqb_neq.
Qed.

Lemma dict_get_update_new d (new : list (string * V)) k v :
  NoDup (dict_keys new) -> dict_get new k = Some v ->
  dict_get (dict_update d new) k = Some v.
Proof.
  unfold dict_update. revert d.
  induction new as [| [k' v'] new IH]; intros d Hn Hk; simpl in *; [discriminate |].
  inversion Hn as [| ? ? Hnotin Hn']; subst.
  destruct (String.eqb k' k) eqn:E.
  - apply String.eqb_eq in E. subst k'. injection Hk as ->.
    change (fold_left _ new ?a) with (dict_update a new).
    rewrite dict_get_update_other; [apply dict_get_set_same |].
    now apply dict_get_None_not_key.
  - now apply IH.
Qed.
End DictFacts.

(** ** insert, retrieve_from_key, update_metadata *)

(** C3, as stated, fails: inserting again under a key that already has
    metadata, without metadata, leaves the old metadata in place, and
    [retrieve_from_key] returns it instead of an empty mapping. *)
Lemma insert_without_metadata_keeps_old_metadata :
  fst (retrieve_from_key "doc" (snd (insert "doc" [2%float] None one_document_store)))
  = Ok (Some [2%float], [("category", VStr "food")]) /\
  fst (retrieve_from_key "doc" (snd (insert "doc" [2%float] None one_document_store)))
  <> Ok (Some [2%float], []) /\
  fst (retrieve_from_key "doc" (snd (insert "doc" [2%float] (Some []) one_document_store)))
  <> Ok (Some [2%float], []).
Proof. repeat split; vm_compute; discriminate. Qed.

(** C3, amended: [insert(key, vector, metadata)] always succeeds and
    overwrites the vector stored under [key]; it overwrites the metadata
    stored under [key] exactly when a metadata mapping that is not empty is
    supplied, and leaves the metadata mapping as it is otherwise.  An
    immediately following [retrieve_from_key(key)] returns the inserted
    vector, together with the inserted metadata when it is not empty and
    with the metadata stored under [key] before (the empty mapping if there
    was none) otherwise; it does not change the store. *)
Theorem insert_then_retrieve (s : state) (key : string) (vector : Vec)
        (md : option pydict) :
  fst (insert key vector md s) = Ok tt /\
  vectors (snd (insert key vector md s)) = dict_set (vectors s) key vector /\
  metadata (snd (insert key vector md s)) =
    match md with
    | Some ((_ :: _) as d) => dict_set (metadata s) key d
    | _ => metadata s
    end /\
  files (snd (insert key vector md s)) = files s /\
  retrieve_from_key key (snd (insert key vector md s)) =
    (Ok (Some vector,
         match md with
         | Some ((_ :: _) as d) => d
         | _ => dict_get_default (metadata s) key []
         end),
     snd (insert key vector md s)).
Proof.
  unfold insert, retrieve_from_key, bind, ret, vectors_setitem, metadata_setitem,
    vectors_get, metadata_get, dict_get_default.
  destruct md as [[| b d] |]; simpl; rewrite ?dict_get_set_same; repeat split.
Qed.

(** C5: [update_metadata(key, new_metadata)] raises [KeyError] exactly when
    [key] has no stored vector, and then leaves the store as it was; when
    the key has a vector it succeeds, leaves the vectors alone and merges
    [new_metadata] into the metadata stored under [key]: the keys of
    [new_metadata] take their new values and every other key of the old
    metadata keeps its value. *)
Theorem update_metadata_merges (s : state) (key : string) (new_metadata : pydict) :
  NoDup (dict_keys new_metadata) ->
  ((exists e, fst (update_metadata key new_metadata s) = Raise e) <->
   dict_get (vectors s) key = None) /\
  (dict_get (vectors s) key = None ->
   update_metadata key new_metadata s =
     (Raise (KeyError ("Key '" ++ key ++ "' not found in database")%string), s)) /\
  (dict_get (vectors s) key <> None ->
   fst (update_metadata key new_metadata s) = Ok tt /\
   vectors (snd (update_metadata key new_metadata s)) = vectors s /\
   files (snd (update_metadata key new_metadata s)) = files s /\
   (forall k v, dict_get new_metadata k = Some v ->
      dict_get (dict_get_default (metadata (snd (update_metadata key new_metadata s))) key []) k
      = Some v) /\
   (forall k, dict_get new_metadata k = None ->
      dict_get (dict_get_default (metadata (snd (update_metadata key new_metadata s))) key []) k
      = dict_get (dict_get_default (metadata s) key []) k)).
Proof.
  intros Hnew.
  unfold update_metadata, bind, ret, raise, vectors_contains, metadata_getitem,
    metadata_setitem, dict_contains, dict_get_default.
  destruct (dict_get (vectors s) key) as [vector |] eqn:Hv; simpl.
  - split; [split; [intros [e He] | discriminate] |].
    + destruct (dict_get (metadata s) key); simpl in He; discriminate.
    + split; [discriminate |]. intros _.
      destruct (dict_get (metadata s) key) as [d |] eqn:Hm; simpl;
        rewrite ?dict_get_set_same; repeat split; intros;
        try (now apply dict_get_update_new);
        try (now apply dict_get_update_other);
        try (rewrite dict_get_update_other by assumption; reflexivity);
        rewrite ?dict_get_set_other by congruence; reflexivity.
  - split; [split; [reflexivity | intros _; eexists; reflexivity] |].
    split; [reflexivity | congruence].
Qed.

Lemma update_metadata_merges_witness :
  fst (update_metadata "doc" [("length", VInt 35)] one_document_store) = Ok tt /\
  dict_get (dict_get_default
              (metadata (snd (update_metadata "doc" [("length", VInt 35)] one_document_store)))
              "doc" []) "category"
  = Some (VStr "food").
Proof.
  assert (Hnew : NoDup (dict_keys [("length", VInt 35)])).
  { repeat constructor; simpl; tauto. }
  destruct (@update_metadata_merges one_document_store "doc" [("length", VInt 35)] Hnew)
    as (_ & _ & Hpresent).
  destruct Hpresent as (Hok & _ & _ & _ & Hkeep); [vm_compute; discriminate |].
  split; [exact Hok |].
  rewrite Hkeep by reflexivity. reflexivity.
Defined.

(** C9: for a key bound in neither mapping, [retrieve_from_key] returns no
    vector and an empty metadata mapping, without raising and without
    changing the store. *)
Theorem retrieve_absent_key (s : state) (key : string) :
  dict_get (vectors s) key = None ->
  dict_get (metadata s) key = None ->
  retrieve_from_key key s = (Ok (None, []), s).
Proof.
  intros Hv Hm.
  unfold retrieve_from_key, bind, ret, vectors_get, metadata_get, dict_get_default.
  simpl. now rewrite Hv, Hm.
Qed.

Lemma retrieve_absent_key_witness :
  retrieve_from_key "other" one_document_store = (Ok (None, []), one_document_store).
Proof. apply retrieve_absent_key; reflexivity. Defined.

(** The comparisons and the membership test raise nothing but [TypeError]. *)
Lemma py_compare_raises (a : pyval) :
  forall op b e, py_compare op a b = Raise e -> e = TypeError.
Proof.
  induction a as [| b0 | z0 | f0 | s0 | la IH | da _] using pyval_nested_ind;
    intros op b e; destruct b; simpl; try discriminate;
    try (intros H; now inversion H).
  revert l. induction IH as [| x la Hx _ IHla]; intros lb.
  - destruct lb; discriminate.
  - destruct lb as [| y lb]; [discriminate |].
    destruct (py_eq x y); [apply IHla | apply Hx].
Qed.

Lemma py_in_raises (x c : pyval) e : py_in x c = Raise e -> e = TypeError.
Proof.
  destruct c; simpl; try (intros H; now inversion H).
  - destruct x; simpl; try discriminate; intros H; now inversion H.
  - destruct (hashable x); [discriminate | intros H; now inversion H].
Qed.

(** ** _matches_filter *)

Lemma guard_passes (ops : pydict) (op : string) (test : pyval -> res bool)
      (continue : res bool) :
  (let? r := operator_rejects ops op test in if r then Ok false else continue) = Ok true
  <-> (forall bound, dict_get ops op = Some bound -> test bound = Ok false) /\
      continue = Ok true.
Proof.
  unfold operator_rejects.
  destruct (dict_get ops op) as [bound |]; simpl.
  - destruct (test bound) as [[|] | e] eqn:E; simpl.
    + split; [discriminate | intros [H _]; specialize (H _ eq_refl); congruence].
    + split; [intros H; split; [intros b Hb; now inversion Hb; subst | exact H] | tauto].
    + split; [discriminate | intros [H _]; specialize (H _ eq_refl); congruence].
  - split; [intros H; split; [discriminate | exact H] | tauto].
Qed.

Lemma matches_value_true (doc_value filter_value : pyval) :
  matches_value doc_value filter_value = Ok true <-> value_passes doc_value filter_value.
Proof.
  destruct filter_value as [| b | z | f | t | l | ops]; simpl;
    try (split; intros H; [now inversion H | now rewrite H]); try tauto.
  rewrite !guard_passes.
  assert (Hin : forall c, res_map negb (py_in doc_value c) = Ok false
                          <-> py_in doc_value c = Ok true).
  { intros c. destruct (py_in doc_value c) as [[|] | e]; simpl;
      split; congruence. }
  split.
  - intros (H1 & H2 & H3 & H4 & H5 & H6 & _).
    repeat split; try assumption. intros c Hc. now apply Hin, H5.
  - intros (H1 & H2 & H3 & H4 & H5 & H6).
    repeat split; try assumption. intros c Hc. now apply Hin, H5.
Qed.

Lemma matches_items_true (doc_metadata items : pydict) :
  matches_items doc_metadata items = Ok true
  <-> Forall (fun kv => key_passes doc_metadata (fst kv) (snd kv)) items.
Proof.
  induction items as [| [filter_key filter_value] items IH]; simpl.
  - split; [constructor | reflexivity].
  - rewrite Forall_cons_iff, <- IH. unfold key_passes. simpl.
    destruct (dict_get doc_metadata filter_key) as [doc_value |].
    + destruct (matches_value doc_value filter_value) as [[|] | e] eqn:E; simpl.
      * apply matches_value_true in E. split; [| tauto].
        intros H. split; [now exists doc_value | exact H].
      * split; [discriminate |]. intros [(dv & Hdv & Hp) _].
        inversion Hdv; subst. apply matches_value_true in Hp. congruence.
      * split; [discriminate |]. intros [(dv & Hdv & Hp) _].
        inversion Hdv; subst. apply matches_value_true in Hp. congruence.
    + split; [discriminate | intros [(dv & Hdv & _) _]; discriminate].
Qed.

Lemma matches_items_raises (doc_metadata items : pydict) e :
  matches_items doc_metadata items = Raise e -> e = TypeError.
Proof.
  induction items as [| [filter_key filter_value] items IH]; simpl; [discriminate |].
  destruct (dict_get doc_metadata filter_key) as [doc_value |]; [| discriminate].
  destruct (matches_value doc_value filter_value) as [[|] | e'] eqn:E; simpl;
    [exact IH | discriminate |].
  intros H; inversion H; subst e'. clear H IH.
  destruct filter_value as [| b | z | f | t | l | ops]; simpl in E;
    try discriminate; try (now apply py_in_raises in E).
  unfold operator_rejects in E.
  repeat match type of E with
         | context [dict_get ops ?op] => destruct (dict_get ops op)
         | context [py_compare ?o doc_value ?b] =>
             let C := fresh "C" in
             destruct (py_compare o doc_value b) as [[|] |] eqn:C;
             [| | apply py_compare_raises in C]
         | context [py_in doc_value ?b] =>
             let C := fresh "C" in
             destruct (py_in doc_value b) as [[|] |] eqn:C;
             [| | apply py_in_raises in C]
         | _ => progress simpl in E
         end; try discriminate; inversion E; congruence.
Qed.

(** C2: [_matches_filter(key, metadata_filter)] returns [True] exactly when
    every filter key passes against the metadata [self.metadata.get(key, {})]
    of the document: the document has the key, and its value satisfies the
    filter value, which is a mapping of operators (each of [$gte], [$lte],
    [$gt], [$lt], [$in], [$nin] that is present is applied as a range or
    membership test), a list (the value is one of its items) or anything
    else (the value equals it).  The store is not changed. *)
Theorem matches_filter_iff_all_keys_pass (s : state) (key : string)
        (metadata_filter : pydict) :
  (fst (_matches_filter key metadata_filter s) = Ok true <->
   Forall (fun kv => key_passes (dict_get_default (metadata s) key [])
                                (fst kv) (snd kv))
          metadata_filter) /\
  snd (_matches_filter key metadata_filter s) = s.
Proof.
  unfold _matches_filter, bind, lift, metadata_get. simpl.
  split; [apply matches_items_true | reflexivity].
Qed.

(** On integers the range operators are the usual bounds: the filter
    [{"length": {"$gte": 30}}] keeps a document exactly when its [length]
    is at least 30. *)
Lemma gte_filter_on_integers (doc_metadata : pydict) (name : string) (bound n : Z) :
  dict_get doc_metadata name = Some (VInt n) ->
  matches_items doc_metadata [(name, VDict [("$gte", VInt bound)])] = Ok (bound <=? n).
Proof.
  intros Hn. simpl. rewrite Hn. simpl.
  destruct (n ?= bound) eqn:C; simpl;
    [apply Z.compare_eq in C | rewrite Z.compare_lt_iff in C | rewrite Z.compare_gt_iff in C];
    destruct (Z.leb_spec bound n); try reflexivity; lia.
Qed.

Example filter_examples :
  let doc := [("category", VStr "animals"); ("length", VInt 33); ("tags", VList [VStr "a"])] in
  matches_items doc [("category", VStr "animals")] = Ok true /\
  matches_items doc [("category", VStr "food")] = Ok false /\
  matches_items doc [("missing", VStr "food")] = Ok false /\
  matches_items doc [("length", VDict [("$gte", VInt 30); ("$lt", VInt 33)])] = Ok false /\
  matches_items doc [("length", VDict [("$in", VList [VInt 33; VInt 34])])] = Ok true /\
  matches_items doc [("category", VList [VStr "food"; VStr "animals"])] = Ok true /\
  matches_items doc [("category", VDict [("$gte", VInt 3)])] = Raise TypeError /\
  matches_items doc [("length", VDict [("other", VInt 3)])] = Ok true.
Proof. vm_compute. repeat split. Qed.

(** ** search: effects and failures *)

Section SearchEffects.
Context {np : Numpy}.

Lemma filtered_out_state (key : string) (metadata_filter : option pydict) (s : state) :
  snd (filtered_out key metadata_filter s) = s.
Proof.
  unfold filtered_out, _matches_filter, bind, ret, lift, metadata_get.
  destruct metadata_filter as [[| b f] |]; cbn [dict_truthy]; try reflexivity.
  now destruct (matches_items _ _).
Qed.

Lemma filtered_out_raises (key : string) (metadata_filter : option pydict)
      (s : state) e :
  fst (filtered_out key metadata_filter s) = Raise e -> e = TypeError.
Proof.
  unfold filtered_out, _matches_filter, bind, ret, lift, metadata_get.
  destruct metadata_filter as [[| b f] |]; cbn [dict_truthy fst]; try discriminate.
  destruct (matches_items _ _) eqn:E; cbn [fst]; [discriminate |].
  intros H; inversion H; subst. now apply matches_items_raises in E.
Qed.

Lemma search_scan_state distance_func query_vector metadata_filter items :
  forall scores s,
    snd (search_scan distance_func query_vector metadata_filter items scores s) = s.
Proof.
  induction items as [| [key vector] items IH]; intros scores s; simpl; [reflexivity |].
  unfold bind at 1.
  pose proof (filtered_out_state key metadata_filter s) as Hs.
  destruct (filtered_out key metadata_filter s) as [[skip | e] s']; simpl in Hs; subst s';
    [| reflexivity].
  destruct skip; [apply IH |].
  unfold bind, lift, metadata_get.
  destruct (distance_func query_vector vector); simpl; [apply IH | reflexivity].
Qed.

Lemma search_scan_raises distance_func query_vector metadata_filter items :
  (forall a b e, distance_func a b = Raise e -> e = NumpyError) ->
  forall scores s e,
    fst (search_scan distance_func query_vector metadata_filter items scores s) = Raise e ->
    e = TypeError \/ e = NumpyError.
Proof.
  intros Hf.
  induction items as [| [key vector] items IH]; intros scores s e; simpl; [discriminate |].
  unfold bind at 1.
  pose proof (filtered_out_state key metadata_filter s) as Hs.
  pose proof (@filtered_out_raises key metadata_filter s) as Hr.
  destruct (filtered_out key metadata_filter s) as [[skip | e'] s']; simpl in *; subst s'.
  - destruct skip; [apply IH |].
    unfold bind, lift, metadata_get.
    destruct (distance_func query_vector vector) eqn:E; simpl; [apply IH |].
    intros H; inversion H; subst. right. eapply Hf, E.
  - intros H; inversion H; subst. left. now apply Hr.
Qed.

Lemma numpy_call_raises {A} (r : option A) e :
  numpy_call r = Raise e -> e = NumpyError.
Proof. destruct r; simpl; [discriminate | intros H; now inversion H]. Qed.

(** The metric functions raise only what numpy raises. *)
Lemma distance_metrics_raise distance_measure distance_func :
  dict_get distance_metrics distance_measure = Some distance_func ->
  forall a b e, distance_func a b = Raise e -> e = NumpyError.
Proof.
  unfold distance_metrics. cbn [dict_get].
  repeat match goal with
         | |- context [String.eqb ?x distance_measure] =>
             destruct (String.eqb x distance_measure)
         end; try discriminate;
    intros H; inversion H; subst; intros a b e;
    unfold cosine_similarity, euclidean_distance, manhattan_distance,
      dot_product_similarity;
    try apply numpy_call_raises;
    match goal with
    | |- context [numpy_call ?r] => destruct r; simpl; [discriminate |]
    end; intros H'; now inversion H'.
Qed.

Lemma recognized_metric (distance_measure : string) :
  In distance_measure metric_names <->
  exists distance_func, dict_get distance_metrics distance_measure = Some distance_func.
Proof.
  unfold metric_names, distance_metrics. cbn [dict_get In].
  repeat match goal with
         | |- context [String.eqb ?x distance_measure] =>
             let E := fresh "E" in
             destruct (String.eqb x distance_measure) eqn:E;
             [apply String.eqb_eq in E | apply String.eqb_neq in E]
         end;
    (split; [intros _; eexists; reflexivity | tauto]) ||
    (split; [intros H; exfalso; tauto | intros [f Hf]; discriminate]).
Qed.

(** C10: [search] is read-only.  Whatever its arguments, and whether it
    returns or raises, the vectors, the metadata and the files are after
    the call what they were before. *)
Theorem search_leaves_store_unchanged (query_vector : Vec) (k : Z)
        (distance_measure : string) (metadata_filter : option pydict)
        (return_scores : bool) (s : state) :
  snd (search query_vector k distance_measure metadata_filter return_scores s) = s.
Proof.
  unfold search.
  destruct (dict_get distance_metrics distance_measure) as [distance_func |];
    [| reflexivity].
  unfold bind at 1. unfold vectors_items. unfold bind.
  pose proof (search_scan_state distance_func query_vector metadata_filter
                                (vectors s) [] s) as Hs.
  destruct (search_scan _ _ _ _ _ _) as [[scores | e] s']; simpl in Hs; subst s';
    [| reflexivity].
  now destruct return_scores.
Qed.

(** C4: [search] raises the [ValueError] of an unknown metric exactly when
    the metric name is none of [cosine], [euclidean], [manhattan],
    [dot_product]; its message names the offending value and lists the
    four valid names.  With a recognized name no [ValueError] is raised. *)
Theorem search_unknown_metric (query_vector : Vec) (k : Z)
        (distance_measure : string) (metadata_filter : option pydict)
        (return_scores : bool) (s : state) :
  ((exists msg,
      fst (search query_vector k distance_measure metadata_filter return_scores s)
      = Raise (ValueError msg))
   <-> ~ In distance_measure ["cosine"; "euclidean"; "manhattan"; "dot_product"]) /\
  (forall msg,
      fst (search query_vector k distance_measure metadata_filter return_scores s)
      = Raise (ValueError msg) ->
      msg = ("Unknown distance measure: " ++ distance_measure
             ++ ". Available: ['cosine', 'euclidean', 'manhattan', 'dot_product']")%string).
Proof.
  change ["cosine"; "euclidean"; "manhattan"; "dot_product"] with metric_names.
  rewrite recognized_metric.
  unfold search.
  destruct (dict_get distance_metrics distance_measure) as [distance_func |] eqn:Hm.
  - assert (Hno : forall msg,
               fst ((items <- vectors_items ;;
                     scores <- search_scan distance_func query_vector
                                           metadata_filter items [] ;;
                     (if return_scores
                      then ret (WithScores
                                  (slice_to (sorted scores
                                     (existsb (String.eqb distance_measure)
                                              ["cosine"; "dot_product"])) k))
                      else ret (WithoutScores
                                  (map (fun r => (fst (fst r), snd r))
                                     (slice_to (sorted scores
                                        (existsb (String.eqb distance_measure)
                                                 ["cosine"; "dot_product"])) k))))) s)
               <> Raise (ValueError msg)).
    { intros msg. unfold bind at 1. unfold vectors_items. unfold bind.
      pose proof (@search_scan_raises distance_func query_vector metadata_filter
                    (vectors s) (distance_metrics_raise _ Hm) [] s) as Hr.
      destruct (search_scan _ _ _ _ _ _) as [[scores | e] s']; simpl in *.
      - destruct return_scores; discriminate.
      - intros H; inversion H; subst. destruct (Hr _ eq_refl); discriminate. }
    split.
    + split; [intros [msg H]; now apply Hno in H | intros H; exfalso; apply H; eauto].
    + intros msg H. now apply Hno in H.
  - simpl. split.
    + split; [intros _ [f Hf]; discriminate | intros _; eexists; reflexivity].
    + intros msg H. inversion H. reflexivity.
Qed.
End SearchEffects.

(** ** sorted *)

Lemma comparable_incl (l l' : list float) :
  incl l' l -> comparable l -> comparable l'.
Proof.
  intros Hi [Ha Ht]. split.
  - intros a b Ia Ib. apply Ha; now apply Hi.
  - intros a b c Ia Ib Ic. apply Ht; now apply Hi.
Qed.

Lemma sorted_insert_perm (reverse : bool) (x : scored) (l : list scored) :
  Permutation (sorted_insert reverse x l) (x :: l).
Proof.
  induction l as [| y l IH]; simpl; [reflexivity |].
  destruct (goes_before reverse (score_of y) (score_of x)); [| reflexivity].
  rewrite IH. apply perm_swap.
Qed.

Lemma sorted_perm (scores : list scored) (reverse : bool) :
  Permutation (sorted scores reverse) scores.
Proof.
  induction scores as [| x l IH]; simpl; [reflexivity |].
  rewrite sorted_insert_perm. now constructor.
Qed.

Lemma Forall_Permutation_iff {A} (P : A -> Prop) (l l' : list A) :
  Permutation l l' -> Forall P l <-> Forall P l'.
Proof.
  intros Hp. split; intros H.
  - eapply Permutation_Forall; eassumption.
  - eapply Permutation_Forall; [apply Permutation_sym |]; eassumption.
Qed.

Lemma sorted_insert_ordered (reverse : bool) (x : scored) (l : list scored) :
  comparable (map score_of (x :: l)) ->
  StronglySorted (ordered reverse) l ->
  StronglySorted (ordered reverse) (sorted_insert reverse x l).
Proof.
  intros Hc Hl. induction l as [| y l IH]; simpl.
  - repeat constructor.
  - inversion Hl as [| ? ? Hl' Hy]; subst.
    destruct Hc as [Hasym Htrans].
    assert (Ix : In (score_of x) (map score_of (x :: y :: l))) by now left.
    assert (Iy : In (score_of y) (map score_of (x :: y :: l))) by (right; now left).
    destruct (goes_before reverse (score_of y) (score_of x)) eqn:E.
    + constructor.
      * apply IH; [| assumption].
        apply comparable_incl with (l := map score_of (x :: y :: l)); [| now split].
        intros a [Ha | Ha]; [now left | right; now right].
      * rewrite (Forall_Permutation_iff _ (sorted_insert_perm reverse x l)).
        constructor; [| assumption].
        unfold ordered, goes_before in *. destruct reverse; now apply Hasym.
    + constructor; [assumption |].
      constructor; [exact E |].
      rewrite Forall_forall in *. intros z Hz.
      assert (Iz : In (score_of z) (map score_of (x :: y :: l))).
      { right; right. now apply in_map. }
      specialize (Hy z Hz). unfold ordered, goes_before in *.
      destruct reverse; [apply Htrans with (b := score_of y) | apply Htrans with (b := score_of y)];
        assumption.
Qed.

Lemma sorted_ordered (scores : list scored) (reverse : bool) :
  comparable (map score_of scores) ->
  StronglySorted (ordered reverse) (sorted scores reverse).
Proof.
  induction scores as [| x l IH]; intros Hc; simpl; [constructor |].
  apply sorted_insert_ordered.
  - apply comparable_incl with (l := map score_of (x :: l)); [| assumption].
    intros a Ha. apply in_map_iff in Ha. destruct Ha as (z & <- & Hz).
    apply in_map. destruct Hz as [<- | Hz]; [now left | right].
    eapply Permutation_in; [apply sorted_perm | exact Hz].
  - apply IH. apply comparable_incl with (l := map score_of (x :: l)); [| assumption].
    intros a Ha. now right.
Qed.

Lemma slice_to_nonneg {A} (l : list A) (k : Z) :
  0 <= k -> slice_to l k = firstn (Z.to_nat k) l.
Proof. intros Hk. unfold slice_to. now destruct (Z.leb_spec 0 k); [| lia]. Qed.

(** ** search: the results *)

Section SearchResults.
Context {np : Numpy}.

Lemma filtered_out_selects s metadata_filter pass key :
  selects s metadata_filter pass key ->
  filtered_out key metadata_filter s = (Ok (negb (pass key)), s).
Proof.
  unfold selects. intros H.
  rewrite (surjective_pairing (filtered_out key metadata_filter s)).
  rewrite filtered_out_state. f_equal.
  unfold filtered_out. destruct metadata_filter as [[| b f] |]; cbn [dict_truthy].
  - unfold ret. simpl. now rewrite H.
  - unfold bind, ret.
    destruct (_matches_filter key (b :: f) s) as [[m | e] s']; cbn [fst] in *;
      [| discriminate].
    now inversion H.
  - unfold ret. simpl. now rewrite H.
Qed.

Lemma search_scan_candidates distance_func query_vector metadata_filter pass score s :
  forall items scores,
    (forall key vector, In (key, vector) items ->
                        selects s metadata_filter pass key) ->
    (forall key vector, In (key, vector) items -> pass key = true ->
                        distance_func query_vector vector = Ok (score vector)) ->
    search_scan distance_func query_vector metadata_filter items scores s
    = (Ok (scores ++ candidates s pass score items), s).
Proof.
  induction items as [| [key vector] items IH]; intros scores Hsel Hscore;
    cbn [search_scan].
  - unfold ret, candidates. simpl. now rewrite app_nil_r.
  - unfold bind at 1.
    rewrite (@filtered_out_selects s metadata_filter pass key)
      by (eapply Hsel; now left).
    unfold candidates. cbn [filter fst snd].
    destruct (pass key) eqn:Hp; cbn [negb].
    + unfold bind at 1. unfold lift.
      rewrite (Hscore key vector) by (now left || assumption).
      unfold bind at 1. unfold metadata_get.
      rewrite IH; [| intros; eapply Hsel; right; eassumption
                   | intros; eapply Hscore; [right; eassumption | assumption]].
      unfold candidates. cbn [map fst snd]. now rewrite <- app_assoc.
    + apply IH; [intros; eapply Hsel; right; eassumption
                | intros; eapply Hscore; [right; eassumption | assumption]].
Qed.
End SearchResults.

Section SearchTopK.
Context {np : Numpy}.

(** C1, amended: for a recognized metric and a count [k] that is not
    negative, where the filter evaluates on every stored key and the
    metric on every vector the filter keeps, and [<] orders their scores,
    [search] returns the first [k] of the scored candidates sorted by
    score: the returned triples [(key, score, metadata)], followed by the
    candidates left out, are a rearrangement of all the stored vectors
    the filter keeps, in descending order of score for [cosine] and
    [dot_product] and in ascending order for [euclidean] and [manhattan];
    exactly [min(k, number of candidates)] are returned, so that a [k] at
    or beyond the number of candidates, or the size of the store, returns
    them all; with [return_scores] off the same results are returned as
    pairs [(key, metadata)]. *)
Theorem search_returns_top_k (s : state) (query_vector : Vec) (k : Z)
        (distance_measure : string) (distance_func : Vec -> Vec -> res float)
        (metadata_filter : option pydict) (return_scores : bool)
        (pass : string -> bool) (score : Vec -> float) :
  dict_get distance_metrics distance_measure = Some distance_func ->
  0 <= k ->
  (forall key vector, In (key, vector) (vectors s) ->
                      selects s metadata_filter pass key) ->
  (forall key vector, In (key, vector) (vectors s) -> pass key = true ->
                      distance_func query_vector vector = Ok (score vector)) ->
  comparable (map score_of (candidates s pass score (vectors s))) ->
  exists results rest : list scored,
    fst (search query_vector k distance_measure metadata_filter return_scores s)
    = Ok (if return_scores
          then WithScores results
          else WithoutScores (map (fun r => (fst (fst r), snd r)) results)) /\
    Permutation (results ++ rest) (candidates s pass score (vectors s)) /\
    (distance_measure = "cosine" \/ distance_measure = "dot_product" ->
     StronglySorted (fun x y => PrimFloat.ltb (score_of x) (score_of y) = false)
                    (results ++ rest)) /\
    (distance_measure = "euclidean" \/ distance_measure = "manhattan" ->
     StronglySorted (fun x y => PrimFloat.ltb (score_of y) (score_of x) = false)
                    (results ++ rest)) /\
    Z.of_nat (List.length results)
    = Z.min k (Z.of_nat (List.length (candidates s pass score (vectors s)))) /\
    (List.length (candidates s pass score (vectors s)) <= List.length (vectors s))%nat /\
    (Z.of_nat (List.length (candidates s pass score (vectors s))) <= k -> rest = []).
Proof.
  intros Hm Hk Hsel Hscore Hcmp.
  set (cands := candidates s pass score (vectors s)) in *.
  set (reverse := existsb (String.eqb distance_measure) ["cosine"; "dot_product"]).
  exists (firstn (Z.to_nat k) (sorted cands reverse)),
    (skipn (Z.to_nat k) (sorted cands reverse)).
  assert (Hlen : List.length (sorted cands reverse) = List.length cands)
    by apply Permutation_length, sorted_perm.
  split; [| split; [| split; [| split; [| split; [| split]]]]].
  - unfold search. rewrite Hm. unfold bind at 1. unfold vectors_items.
    unfold bind at 1.
    rewrite (@search_scan_candidates distance_func query_vector metadata_filter
                                     pass score s (vectors s) [] Hsel Hscore).
    cbn [app]. fold cands. fold reverse. rewrite slice_to_nonneg by assumption.
    now destruct return_scores.
  - rewrite firstn_skipn. apply sorted_perm.
  - intros Hd. rewrite firstn_skipn.
    assert (Hr : reverse = true)
      by (destruct Hd as [-> | ->]; reflexivity).
    pose proof (@sorted_ordered cands reverse Hcmp) as Hs.
    remember (sorted cands reverse) as l eqn:El. rewrite Hr in Hs. exact Hs.
  - intros Hd. rewrite firstn_skipn.
    assert (Hr : reverse = false)
      by (destruct Hd as [-> | ->]; reflexivity).
    pose proof (@sorted_ordered cands reverse Hcmp) as Hs.
    remember (sorted cands reverse) as l eqn:El. rewrite Hr in Hs. exact Hs.
  - rewrite length_firstn, Hlen. lia.
  - unfold cands, candidates. rewrite length_map. apply filter_length_le.
  - intros Hall. apply skipn_all2. rewrite Hlen. lia.
Qed.
End SearchTopK.

Example search_examples :
  fst (search (np := reference_numpy) [1; 0]%float 2 "dot_product" None true
              three_document_store)
  = Ok (WithScores
          [ ("cat", 2%float, [("category", VStr "animals"); ("length", VInt 3)]);
            ("apple", 1%float, [("category", VStr "food"); ("length", VInt 5)]) ]) /\
  fst (search (np := reference_numpy) [1; 0]%float 5 "euclidean"
              (Some [("category", VStr "animals")]) false three_document_store)
  = Ok (WithoutScores
          [ ("cat", [("category", VStr "animals"); ("length", VInt 3)]);
            ("bird", [("category", VStr "animals"); ("length", VInt 4)]) ]) /\
  fst (search (np := reference_numpy) [1; 0]%float 5 "chebyshev" None true
              three_document_store)
  = Raise (ValueError "Unknown distance measure: chebyshev. Available: ['cosine', 'euclidean', 'manhattan', 'dot_product']").
Proof. vm_compute. repeat split. Qed.

(** C1, as stated, fails: [search] does not return results for every
    store and query vector.  A query vector of another dimension than the
    stored ones makes the metric raise, and a range filter whose bound does
    not compare with the document's value makes the filter raise; in both
    runs the metric is a recognized one, [k] is 2 and the store holds three
    documents. *)
Lemma search_raises_on_some_queries :
  fst (search (np := reference_numpy) [1; 0; 0]%float 2 "dot_product" None true
              three_document_store)
  = Raise NumpyError /\
  fst (search (np := reference_numpy) [1; 0]%float 2 "dot_product"
              (Some [("length", VDict [("$gte", VStr "long")])]) true
              three_document_store)
  = Raise TypeError.
Proof. split; vm_compute; reflexivity. Qed.

Lemma search_returns_top_k_witness :
  exists results rest : list scored,
    fst (search (np := reference_numpy) [1; 0]%float 1 "dot_product"
                (Some [("category", VStr "animals")]) true three_document_store)
    = Ok (WithScores results) /\
    Z.of_nat (List.length results) = 1 /\
    Z.of_nat (List.length (results ++ rest)) = 2.
Proof.
  pose (pass := fun key : string => negb (String.eqb key "apple")).
  pose (score := fun vector : Vec =>
                   match dot_product_similarity (np := reference_numpy)
                                                [1; 0]%float vector with
                   | Ok x => x
                   | Raise _ => 0%float
                   end).
  destruct (@search_returns_top_k reference_numpy three_document_store [1; 0]%float 1
              "dot_product" (@dot_product_similarity reference_numpy)
              (Some [("category", VStr "animals")]) true pass score)
    as (results & rest & Hres & Hperm & _ & _ & Hlen & _ & _).
  - reflexivity.
  - lia.
  - intros key vector Hin. vm_compute in Hin.
    destruct Hin as [H | [H | [H | []]]]; inversion H; subst; vm_compute; reflexivity.
  - intros key vector Hin _. vm_compute in Hin.
    destruct Hin as [H | [H | [H | []]]]; inversion H; subst; vm_compute; reflexivity.
  - split.
    + intros a b Ha Hb. vm_compute in Ha, Hb.
      destruct Ha as [<- | [<- | []]]; destruct Hb as [<- | [<- | []]];
        vm_compute; intros; (reflexivity || discriminate).
    + intros a b c Ha Hb Hc. vm_compute in Ha, Hb, Hc.
      destruct Ha as [<- | [<- | []]]; destruct Hb as [<- | [<- | []]];
        destruct Hc as [<- | [<- | []]];
        vm_compute; intros; (reflexivity || discriminate).
  - exists results, rest. split; [exact Hres |]. split; [exact Hlen |].
    apply Permutation_length in Hperm. rewrite Hperm. reflexivity.
Defined.

(** ** Strings *)

Lemma substring_empty (n m : nat) : substring n m "" = "".
Proof. destruct n, m; reflexivity. Qed.

Lemma substring_zero_length (n : nat) (s : string) : substring n 0 s = "".
Proof.
  revert n. induction s as [| c s IH]; intros n; [apply substring_empty |].
  destruct n; [reflexivity | apply IH].
Qed.

Lemma substring_length (n m : nat) (s : string) :
  String.length (substring n m s) = Nat.min m (String.length s - n).
Proof.
  revert n m. induction s as [| c s IH]; intros n m.
  - rewrite substring_empty. simpl. now rewrite Nat.min_0_r.
  - destruct n as [| n].
    + destruct m as [| m]; [reflexivity |].
      simpl. rewrite IH. now rewrite Nat.sub_0_r.
    + simpl. apply IH.
Qed.

(** Asking for more characters than the string has left changes nothing. *)
Lemma substring_truncate (n m : nat) (s : string) :
  substring n (Nat.min m (String.length s - n)) s = substring n m s.
Proof.
  revert n m. induction s as [| c s IH]; intros n m.
  - now rewrite !substring_empty.
  - destruct n as [| n].
    + destruct m as [| m]; [reflexivity |].
      simpl. f_equal. rewrite <- (IH 0%nat m). now rewrite Nat.sub_0_r.
    + simpl. apply IH.
Qed.

Lemma substring_substring (a b n m : nat) (s : string) :
  substring a b (substring n m s) = substring (n + a) (Nat.min b (m - a)) s.
Proof.
  revert a b n m. induction s as [| c s IH]; intros a b n m.
  - now rewrite !substring_empty.
  - destruct n as [| n].
    + destruct m as [| m].
      * rewrite substring_zero_length, substring_empty.
        cbn [Nat.sub]. now rewrite Nat.min_0_r, substring_zero_length.
      * cbn [substring]. destruct a as [| a].
        -- destruct b as [| b]; [reflexivity |].
           cbn [substring Nat.add Nat.sub Nat.min]. f_equal.
           rewrite IH. cbn [Nat.add]. now rewrite Nat.sub_0_r.
        -- cbn [substring Nat.add Nat.sub]. now rewrite IH.
    + cbn [substring Nat.add]. apply IH.
Qed.

(** A slice with bounds inside the string is a substring. *)
Lemma str_slice_window (s : string) (lo w : nat) :
  (lo <= String.length s)%nat ->
  str_slice s (Z.of_nat lo) (Z.of_nat lo + Z.of_nat w) = substring lo w s.
Proof.
  intros Hlo. unfold str_slice, len.
  destruct (Z.ltb_spec (Z.of_nat lo) 0); [lia |].
  destruct (Z.ltb_spec (Z.of_nat lo + Z.of_nat w) 0); [lia |].
  rewrite <- (substring_truncate lo w s). f_equal; lia.
Qed.

(** ** Built-ins *)

Lemma combine_map_same {A B C} (f : A -> B) (g : A -> C) (l : list A) :
  combine (map f l) (map g l) = map (fun x => (f x, g x)) l.
Proof. induction l as [| x l IH]; simpl; [reflexivity | now rewrite IH]. Qed.

Lemma enumerate_map_seq {A} (h : nat -> A) (n : nat) :
  enumerate (map h (seq 0 n)) = map (fun i => (Z.of_nat i, h i)) (seq 0 n).
Proof.
  unfold enumerate. rewrite length_map, length_seq. apply combine_map_same.
Qed.

Lemma range_ascending (stop step : Z) :
  0 < step ->
  range 0 stop step
  = Ok (map (fun i => Z.of_nat i * step) (seq 0 (Z.to_nat ((stop + step - 1) / step)))).
Proof.
  intros Hs. unfold range.
  destruct (Z.eqb_spec step 0); [lia |].
  destruct (Z.ltb_spec 0 step); [| lia].
  rewrite Z.sub_0_r. f_equal.
Qed.

(** ** PDFTextSplitter.split *)

Lemma pdf_split_chunks (py_int : string -> option Z) (self : PDFTextSplitter.t)
      (text : string) (metadata : option pydict) :
  0 < PDFTextSplitter.chunk_size self - PDFTextSplitter.chunk_overlap self ->
  exists base_metadata,
    PDFTextSplitter.split py_int self text metadata
    = Ok (map (fun i =>
                 PDFTextSplitter.make_chunk py_int self text base_metadata (Z.of_nat i)
                   (Z.of_nat i * (PDFTextSplitter.chunk_size self
                                  - PDFTextSplitter.chunk_overlap self)))
              (seq 0 (Z.to_nat
                        ((len text + (PDFTextSplitter.chunk_size self
                                      - PDFTextSplitter.chunk_overlap self) - 1)
                         / (PDFTextSplitter.chunk_size self
                            - PDFTextSplitter.chunk_overlap self))))).
Proof.
  intros Hstep. unfold PDFTextSplitter.split.
  eexists. rewrite range_ascending by assumption. cbn [res_bind].
  rewrite enumerate_map_seq, map_map. reflexivity.
Qed.

(** C7: with [chunk_size=1000] and [chunk_overlap=200], a text of length
    [L > 0] is split into [ceil(L/800)] chunks; chunk [i] holds the
    substring of the text that starts at offset [800 i] and has length at
    most 1000 (it is never empty); the characters of chunk [i] from its
    offset 800 on are the first characters of chunk [i+1]; and for every pair
    of successive chunks whose second one is not the final chunk, the first
    has the full 1000 characters and this overlap has exactly 200. *)
Theorem pdf_split_default_chunks (py_int : string -> option Z)
        (preserve_page_info : bool) (self : PDFTextSplitter.t)
        (text : string) (metadata : option pydict) :
  PDFTextSplitter.__init__ 1000 200 preserve_page_info = Ok self ->
  text <> "" ->
  exists chunks : list pydict,
    PDFTextSplitter.split py_int self text metadata = Ok chunks /\
    Z.of_nat (List.length chunks) = (len text + 799) / 800 /\
    800 * (Z.of_nat (List.length chunks) - 1) < len text
      <= 800 * Z.of_nat (List.length chunks) /\
    (forall i chunk,
        nth_error chunks i = Some chunk ->
        dict_get chunk "text" = Some (VStr (substring (800 * i) 1000 text)) /\
        (1 <= String.length (substring (800 * i) 1000 text) <= 1000)%nat) /\
    (forall i, (S i < List.length chunks)%nat ->
        substring 800 200 (substring (800 * i) 1000 text)
        = substring 0 200 (substring (800 * S i) 1000 text) /\
        String.length (substring 800 200 (substring (800 * i) 1000 text))
        = Nat.min 200 (String.length text - 800 * S i)) /\
    (forall i, (S (S i) < List.length chunks)%nat ->
        String.length (substring (800 * i) 1000 text) = 1000%nat /\
        String.length (substring 800 200 (substring (800 * i) 1000 text)) = 200%nat).
Proof.
  intros Hinit Htext.
  unfold PDFTextSplitter.__init__ in Hinit. cbn in Hinit.
  injection Hinit as <-.
  destruct (@pdf_split_chunks py_int
              {| PDFTextSplitter.chunk_size := 1000;
                 PDFTextSplitter.chunk_overlap := 200;
                 PDFTextSplitter.preserve_page_info := preserve_page_info |}
              text metadata) as [base Hsplit];
    [cbn; lia |].
  rewrite Hsplit. cbn [PDFTextSplitter.chunk_size PDFTextSplitter.chunk_overlap].
  replace (1000 - 200) with 800 by reflexivity.
  replace (len text + 800 - 1) with (len text + 799) by lia.
  set (n := Z.to_nat ((len text + 799) / 800)).
  assert (HL : 0 < len text).
  { unfold len. destruct text; [congruence | simpl; lia]. }
  assert (Hn : Z.of_nat n = (len text + 799) / 800).
  { unfold n. rewrite Z2Nat.id; [reflexivity |]. apply Z.div_pos; lia. }
  assert (Hceil : 800 * (Z.of_nat n - 1) < len text <= 800 * Z.of_nat n).
  { rewrite Hn.
    pose proof (Z.div_mod (len text + 799) 800 ltac:(lia)) as Hdm.
    pose proof (Z.mod_pos_bound (len text + 799) 800 ltac:(lia)) as Hmod. lia. }
  assert (Hlen : List.length
                   (map (fun i : nat =>
                           PDFTextSplitter.make_chunk py_int
                             {| PDFTextSplitter.chunk_size := 1000;
                                PDFTextSplitter.chunk_overlap := 200;
                                PDFTextSplitter.preserve_page_info := preserve_page_info |}
                             text base (Z.of_nat i) (Z.of_nat i * 800))
                        (seq 0 n)) = n)
    by now rewrite length_map, length_seq.
  eexists. split; [reflexivity |]. rewrite Hlen.
  assert (Hfull : forall i, (800 * i + 1000 <= String.length text)%nat ->
                            String.length (substring (800 * i) 1000 text) = 1000%nat).
  { intros i Hi. rewrite substring_length. lia. }
  unfold len in *.
  split; [exact Hn |]. split; [exact Hceil |].
  split; [| split].
  - intros i chunk Hi.
    rewrite nth_error_map, nth_error_seq in Hi.
    destruct (Nat.ltb_spec i n) as [Hlt |]; [| discriminate].
    cbn in Hi. inversion Hi as [Hchunk]. clear Hi.
    split.
    + unfold PDFTextSplitter.make_chunk.
      cbn [dict_get PDFTextSplitter.chunk_size]. rewrite String.eqb_refl.
      do 2 f_equal.
      replace (Z.of_nat i * 800) with (Z.of_nat (800 * i)) by lia.
      replace 1000 with (Z.of_nat 1000) by reflexivity.
      apply str_slice_window. lia.
    + rewrite substring_length. lia.
  - intros i Hi. rewrite !substring_substring. split.
    + f_equal; lia.
    + rewrite substring_length. lia.
  - intros i Hi. split.
    + apply Hfull. lia.
    + rewrite substring_substring, substring_length. lia.
Qed.

Lemma pdf_split_default_chunks_witness :
  exists chunks : list pydict,
    PDFTextSplitter.split (fun _ => None)
      {| PDFTextSplitter.chunk_size := 1000; PDFTextSplitter.chunk_overlap := 200;
         PDFTextSplitter.preserve_page_info := true |}
      nine_hundred_characters None = Ok chunks /\
    Z.of_nat (List.length chunks) = 2.
Proof.
  destruct (@pdf_split_default_chunks (fun _ => None) true
              {| PDFTextSplitter.chunk_size := 1000; PDFTextSplitter.chunk_overlap := 200;
                 PDFTextSplitter.preserve_page_info := true |}
              nine_hundred_characters None)
    as (chunks & Hsplit & Hlen & _).
  - reflexivity.
  - discriminate.
  - exists chunks. split; [exact Hsplit |]. rewrite Hlen. reflexivity.
Defined.

(** ** Construction of the splitters *)

Lemma pdf_splitter_construction (chunk_size chunk_overlap : Z) (preserve_page_info : bool) :
  (chunk_size <= chunk_overlap ->
   PDFTextSplitter.__init__ chunk_size chunk_overlap preserve_page_info
   = Raise (AssertionError "Chunk size must be greater than chunk overlap")) /\
  (chunk_overlap < chunk_size ->
   PDFTextSplitter.__init__ chunk_size chunk_overlap preserve_page_info
   = Ok {| PDFTextSplitter.chunk_size := chunk_size;
           PDFTextSplitter.chunk_overlap := chunk_overlap;
           PDFTextSplitter.preserve_page_info := preserve_page_info |}).
Proof.
  unfold PDFTextSplitter.__init__.
  destruct (Z.gtb_spec chunk_size chunk_overlap); split; intros; (reflexivity || lia).
Qed.

Lemma youtube_splitter_construction (chunk_size chunk_overlap : Z)
      (preserve_timestamps : bool) :
  YouTubeTextSplitter.__init__ chunk_size chunk_overlap preserve_timestamps
  = Ok {| YouTubeTextSplitter.chunk_size := chunk_size;
          YouTubeTextSplitter.chunk_overlap := chunk_overlap;
          YouTubeTextSplitter.preserve_timestamps := preserve_timestamps |}.
Proof. reflexivity. Qed.

(** C8 at the failing input: with [chunk_size=100] and [chunk_overlap=200]
    the constructor of [PDFTextSplitter] fails on its assertion, and the
    constructor of [YouTubeTextSplitter], which has no such check, returns a
    splitter; so it does with [chunk_size = chunk_overlap].  The splitters
    it returns then split no text: [split_by_text] yields no chunk at all
    for the first and fails inside [range] for the second. *)
Theorem youtube_splitter_accepts_chunk_size_below_overlap :
  PDFTextSplitter.__init__ 100 200 true
  = Raise (AssertionError "Chunk size must be greater than chunk overlap") /\
  YouTubeTextSplitter.__init__ 100 200 true
  = Ok {| YouTubeTextSplitter.chunk_size := 100;
          YouTubeTextSplitter.chunk_overlap := 200;
          YouTubeTextSplitter.preserve_timestamps := true |} /\
  YouTubeTextSplitter.__init__ 200 200 true
  = Ok {| YouTubeTextSplitter.chunk_size := 200;
          YouTubeTextSplitter.chunk_overlap := 200;
          YouTubeTextSplitter.preserve_timestamps := true |} /\
  res_bind (YouTubeTextSplitter.__init__ 100 200 true)
           (fun self => YouTubeTextSplitter.split_by_text self "a transcript" [])
  = Ok [] /\
  res_bind (YouTubeTextSplitter.__init__ 200 200 true)
           (fun self => YouTubeTextSplitter.split_by_text self "a transcript" [])
  = Raise (ValueError "range() arg 3 must not be zero").
Proof. vm_compute. repeat split. Qed.

(** ** Persistence *)

Lemma floats_of_tolist (vector : Vec) : floats_of (map VFloat vector) = Some vector.
Proof.
  induction vector as [| f vector IH]; simpl; [reflexivity | now rewrite IH].
Qed.

Lemma np_array_tolist (vector : Vec) : np_array (tolist vector) = Ok vector.
Proof. unfold np_array, tolist. now rewrite floats_of_tolist. Qed.

Lemma load_vectors_saved (items : list (string * Vec)) :
  forall s,
    load_vectors (map (fun kv => (fst kv, tolist (snd kv))) items) s
    = (Ok tt, {| vectors := dict_update (vectors s) items;
                 metadata := metadata s; files := files s |}).
Proof.
  induction items as [| [key vector] items IH]; intros s; cbn [map load_vectors fst snd].
  - unfold ret, dict_update. simpl. now destruct s.
  - unfold bind at 1. unfold lift. rewrite np_array_tolist.
    unfold bind at 1. unfold vectors_setitem. rewrite IH. reflexivity.
Qed.

Lemma load_metadata_saved (items : list (string * pydict)) :
  forall s,
    load_metadata (map (fun kv => (fst kv, VDict (snd kv))) items) s
    = (Ok tt, {| vectors := vectors s;
                 metadata := dict_update (metadata s) items; files := files s |}).
Proof.
  induction items as [| [key d] items IH]; intros s; cbn [map load_metadata fst snd].
  - unfold ret, dict_update. simpl. now destruct s.
  - unfold bind at 1. unfold metadata_setitem. rewrite IH. reflexivity.
Qed.

Lemma dict_keys_map_values {A B} (f : string * A -> B) (items : list (string * A)) :
  dict_keys (map (fun kv => (fst kv, f kv)) items) = dict_keys items.
Proof. unfold dict_keys. rewrite map_map. reflexivity. Qed.

Lemma dict_update_empty {V} (items : list (string * V)) :
  dict_update [] items = dict_of_items items.
Proof. reflexivity. Qed.

Lemma save_to_file_writes (filepath : string) (s : state) :
  wf_store s ->
  save_to_file filepath s
  = (Ok tt, {| vectors := vectors s; metadata := metadata s;
               files := dict_set (files s) filepath (document_of s) |}).
Proof.
  intros [Hv Hm].
  unfold save_to_file, bind, vectors_items, metadata_items, file_write, document_of.
  rewrite !dict_of_items_NoDup; [reflexivity | |];
    now rewrite (dict_keys_map_values (fun kv => _ (snd kv))).
Qed.

Lemma load_from_file_saved (filepath : string) (s loader : state) :
  wf_store s ->
  files loader = dict_set (files s) filepath (document_of s) ->
  load_from_file filepath loader
  = (Ok tt, {| vectors := vectors s; metadata := metadata s; files := files loader |}).
Proof.
  intros [Hv Hm] Hfiles.
  unfold load_from_file, bind, file_read, vectors_reset, metadata_reset, lift.
  rewrite Hfiles, dict_get_set_same.
  unfold document_of. cbn [py_getitem py_items dict_get].
  rewrite String.eqb_refl. cbn [py_items vectors metadata files].
  rewrite load_vectors_saved.
  replace (String.eqb "vectors" "metadata") with false by reflexivity.
  rewrite String.eqb_refl. cbn [py_items].
  rewrite load_metadata_saved. cbn [fst snd vectors metadata files].
  rewrite !dict_update_empty, !dict_of_items_NoDup by assumption.
  fold (document_of s). now rewrite <- Hfiles.
Qed.

Lemma dict_get_In {V} (d : list (string * V)) (k : string) (v : V) :
  NoDup (dict_keys d) -> In (k, v) d -> dict_get d k = Some v.
Proof.
  induction d as [| [k' v'] d IH]; intros Hn Hin; [contradiction |].
  cbn [dict_keys map fst] in Hn. inversion Hn as [| ? ? Hnotin Hn']; subst.
  cbn [dict_get]. destruct Hin as [Heq | Hin].
  - inversion Heq; subst. now rewrite String.eqb_refl.
  - destruct (String.eqb k' k) eqn:E; [| now apply IH].
    apply String.eqb_eq in E. subst k'. exfalso. apply Hnotin.
    change k with (fst (k, v)). now apply in_map.
Qed.

Lemma array_equal_refl (vector : Vec) :
  Forall (fun x => float_eq x x = true) vector -> array_equal vector vector = true.
Proof.
  induction 1 as [| x vector Hx _ IH]; cbn [array_equal]; [reflexivity |].
  now rewrite Hx, IH.
Qed.

Lemma py_eq_bindings (whole da : pydict) :
  (forall k x, In (k, x) da -> dict_get whole k = Some x) ->
  Forall (fun kv => py_eq (snd kv) (snd kv) = true) da ->
  (fix bindings (da : list (string * pyval)) {struct da} : bool :=
     match da with
     | [] => true
     | (k, v) :: da' =>
         match dict_get whole k with
         | Some v' => py_eq v v'
         | None => false
         end && bindings da'
     end) da = true.
Proof.
  induction da as [| [k v] da IH]; intros Hin Hall; [reflexivity |].
  inversion Hall as [| ? ? Hv Hda]; subst. cbn [snd] in Hv.
  rewrite (Hin k v) by now left. rewrite Hv. cbn [andb].
  apply IH; [| assumption]. intros k' x Hx. apply Hin. now right.
Qed.

(** A value without NaN, in which no mapping binds a key twice, is [==] to
    a copy of itself. *)
Lemma py_eq_refl (v : pyval) : nan_free v = true -> unique_keys v -> py_eq v v = true.
Proof.
  induction v as [| b | z | f | s | l IH | d IH] using pyval_nested_ind;
    intros Hnan Huniq.
  - reflexivity.
  - cbn. now rewrite Z.compare_refl.
  - cbn. now rewrite Z.compare_refl.
  - cbn in *. unfold float_eq in Hnan.
    destruct (float_compare f f) as [[] |]; (discriminate || reflexivity).
  - cbn. apply String.eqb_refl.
  - cbn [py_eq nan_free unique_keys] in *.
    induction IH as [| x l Hx _ IHl]; [reflexivity |].
    apply andb_prop in Hnan. destruct Hnan as [Hnx Hnl]. destruct Huniq as [Hux Hul].
    rewrite Hx by assumption. cbn [andb]. now apply IHl.
  - cbn [py_eq nan_free unique_keys] in *.
    rewrite Nat.eqb_refl. cbn [andb]. destruct Huniq as [Hnodup Huniq].
    apply py_eq_bindings; [intros k x; now apply dict_get_In |].
    clear Hnodup.
    induction IH as [| [k x] d Hx _ IHd]; [constructor |].
    apply andb_prop in Hnan. destruct Hnan as [Hnx Hnd]. destruct Huniq as [Hux Hud].
    constructor; [now apply Hx | now apply IHd].
Qed.

(** C6, as stated, fails for a store that holds a NaN: the document comes
    back with a vector and metadata that hold a NaN where the original
    does, and a NaN is equal to nothing.  The reloaded vector is neither
    [==] to the original one nor close to it within numpy's tolerances,
    and the reloaded metadata are not [==] to the original ones. *)
Lemma nan_is_not_restored_equal :
  fst (retrieve_from_key "doc" nan_store)
  = Ok (Some [nan; 1]%float, [("score", VFloat nan)]) /\
  exists (vector' : Vec) (metadata' : pydict),
    fst (retrieve_from_key "doc"
           (snd (load_from_file "db.json"
                   (empty_store (files (snd (save_to_file "db.json" nan_store)))))))
    = Ok (Some vector', metadata') /\
    array_equal [nan; 1]%float vector' = false /\
    np_allclose [nan; 1]%float vector' = false /\
    py_eq (VDict [("score", VFloat nan)]) (VDict metadata') = false.
Proof.
  split; [vm_compute; reflexivity |].
  exists [nan; 1]%float, [("score", VFloat nan)].
  repeat split; vm_compute; reflexivity.
Qed.

(** C6, amended: on a store whose vectors are arrays of floats and whose
    metadata are made of JSON values, [save_to_file] writes a JSON object
    with the two keys [vectors] (key to list of numbers) and [metadata]
    (key to object), and leaves the store as it is; [load_from_file] on
    that file, by any store object, succeeds and leaves that object with
    the keys, the floats and the JSON values of the store that was saved.
    A vector without NaN is then [==], component by component, to the
    vector read back under its key, and metadata without NaN are [==] to
    the metadata read back under their key. *)
Theorem save_then_load_round_trip (filepath : string) (s loader : state) :
  wf_store s ->
  files loader = files (snd (save_to_file filepath s)) ->
  fst (save_to_file filepath s) = Ok tt /\
  vectors (snd (save_to_file filepath s)) = vectors s /\
  metadata (snd (save_to_file filepath s)) = metadata s /\
  dict_get (files (snd (save_to_file filepath s))) filepath = Some (document_of s) /\
  fst (load_from_file filepath loader) = Ok tt /\
  vectors (snd (load_from_file filepath loader)) = vectors s /\
  metadata (snd (load_from_file filepath loader)) = metadata s /\
  files (snd (load_from_file filepath loader)) = files loader /\
  (forall key vector,
     dict_get (vectors s) key = Some vector ->
     Forall (fun x => float_eq x x = true) vector ->
     exists vector',
       dict_get (vectors (snd (load_from_file filepath loader))) key = Some vector' /\
       array_equal vector vector' = true) /\
  (forall key md,
     dict_get (metadata s) key = Some md ->
     nan_free (VDict md) = true ->
     unique_keys (VDict md) ->
     exists md',
       dict_get (metadata (snd (load_from_file filepath loader))) key = Some md' /\
       py_eq (VDict md) (VDict md') = true).
Proof.
  intros Hwf Hfiles. rewrite save_to_file_writes in * by assumption.
  cbn [fst snd vectors metadata files] in *.
  rewrite (@load_from_file_saved filepath s loader Hwf Hfiles), dict_get_set_same.
  cbn [fst snd vectors metadata files].
  repeat match goal with |- _ /\ _ => split end; try reflexivity.
  - intros key vector Hv Hnan. exists vector. split; [assumption |].
    now apply array_equal_refl.
  - intros key md Hm Hnan Huniq. exists md. split; [assumption |].
    now apply py_eq_refl.
Qed.

Lemma save_then_load_round_trip_witness :
  fst (load_from_file "db.json"
         (empty_store (files (snd (save_to_file "db.json" three_document_store)))))
  = Ok tt /\
  vectors (snd (load_from_file "db.json"
                  (empty_store (files (snd (save_to_file "db.json" three_document_store))))))
  = vectors three_document_store /\
  metadata (snd (load_from_file "db.json"
                   (empty_store (files (snd (save_to_file "db.json" three_document_store))))))
  = metadata three_document_store /\
  exists vector',
    dict_get (vectors (snd (load_from_file "db.json"
                              (empty_store
                                 (files (snd (save_to_file "db.json"
                                                           three_document_store)))))))
             "cat"
    = Some vector' /\
    array_equal [2; 0]%float vector' = true.
Proof.
  assert (Hwf : wf_store three_document_store).
  { split; vm_compute; repeat constructor; simpl; intuition discriminate. }
  destruct (@save_then_load_round_trip "db.json" three_document_store
              (empty_store (files (snd (save_to_file "db.json" three_document_store))))
              Hwf eq_refl)
    as (_ & _ & _ & _ & Hok & Hv & Hm & _ & Heq & _).
  split; [exact Hok |]. split; [exact Hv |]. split; [exact Hm |].
  apply (Heq "cat" [2; 0]%float); [reflexivity |].
  repeat constructor.
Defined.

(** ** The dictionary invariant is kept by every method *)

Create HintDb wf discriminated.

Lemma preserves_ret {A} (a : A) : preserves_wf (ret a).
Proof. intros s H. exact H. Qed.

Lemma preserves_raise {A} (e : exn) : preserves_wf (raise (A := A) e).
Proof. intros s H. exact H. Qed.

Lemma preserves_lift {A} (r : res A) : preserves_wf (lift r).
Proof. intros s H. exact H. Qed.

Lemma preserves_bind {A B} (c : M A) (k : A -> M B) :
  preserves_wf c -> (forall a, preserves_wf (k a)) -> preserves_wf (bind c k).
Proof.
  intros Hc Hk s Hs. unfold bind. specialize (Hc s Hs).
  destruct (c s) as [[a | e] s']; simpl in *; [now apply Hk | exact Hc].
Qed.

Lemma preserves_vectors_setitem key vector : preserves_wf (vectors_setitem key vector).
Proof. intros s [Hv Hm]. split; simpl; [now apply dict_set_NoDup | exact Hm]. Qed.

Lemma preserves_metadata_setitem key d : preserves_wf (metadata_setitem key d).
Proof. intros s [Hv Hm]. split; simpl; [exact Hv | now apply dict_set_NoDup]. Qed.

Lemma preserves_metadata_getitem key : preserves_wf (metadata_getitem key).
Proof.
  intros s [Hv Hm]. unfold metadata_getitem.
  destruct (dict_get (metadata s) key); split; simpl;
    try assumption; now apply dict_set_NoDup.
Qed.

Lemma preserves_vectors_contains key : preserves_wf (vectors_contains key).
Proof. intros s H. exact H. Qed.

Lemma preserves_vectors_items : preserves_wf vectors_items.
Proof. intros s H. exact H. Qed.

Lemma preserves_metadata_items : preserves_wf metadata_items.
Proof. intros s H. exact H. Qed.

Lemma preserves_vectors_reset : preserves_wf vectors_reset.
Proof. intros s [Hv Hm]. split; simpl; [constructor | exact Hm]. Qed.

Lemma preserves_metadata_reset : preserves_wf metadata_reset.
Proof. intros s [Hv Hm]. split; simpl; [exact Hv | constructor]. Qed.

Lemma preserves_file_write filepath data : preserves_wf (file_write filepath data).
Proof. intros s H. exact H. Qed.

Lemma preserves_file_read filepath : preserves_wf (file_read filepath).
Proof.
  intros s H. unfold file_read. now destruct (dict_get (files s) filepath).
Qed.

#[local] Hint Resolve preserves_ret preserves_raise preserves_lift preserves_bind
  preserves_vectors_setitem preserves_metadata_setitem preserves_metadata_getitem
  preserves_vectors_contains preserves_vectors_items preserves_metadata_items
  preserves_vectors_reset preserves_metadata_reset preserves_file_write
  preserves_file_read : wf.

Lemma empty_store_wf (fs : list (string * pyval)) : wf_store (empty_store fs).
Proof. split; constructor. Qed.

Lemma insert_preserves_wf key vector md : preserves_wf (insert key vector md).
Proof.
  unfold insert. apply preserves_bind; [auto with wf |].
  intros _. destruct md as [[| b d] |]; cbn [dict_truthy]; auto with wf.
Qed.

Lemma update_metadata_preserves_wf key new_metadata :
  preserves_wf (update_metadata key new_metadata).
Proof.
  unfold update_metadata. apply preserves_bind; [auto with wf |].
  intros [|]; auto with wf.
Qed.

Lemma save_to_file_preserves_wf filepath : preserves_wf (save_to_file filepath).
Proof. unfold save_to_file. auto 6 with wf. Qed.

Lemma load_vectors_preserves_wf items : preserves_wf (load_vectors items).
Proof.
  induction items as [| [key vector_list] items IH]; cbn [load_vectors]; auto 6 with wf.
Qed.

Lemma load_metadata_preserves_wf items : preserves_wf (load_metadata items).
Proof.
  induction items as [| [key [| | | | | |]] items IH]; cbn [load_metadata]; auto with wf.
Qed.

Lemma load_from_file_preserves_wf filepath : preserves_wf (load_from_file filepath).
Proof.
  unfold load_from_file.
  repeat (apply preserves_bind; [auto with wf | intros ?]);
    try apply load_vectors_preserves_wf.
  apply load_metadata_preserves_wf.
Qed.

(** ** The page fields of a chunk *)

Example pdf_split_page_fields :
  PDFTextSplitter.split decimal_int
    {| PDFTextSplitter.chunk_size := 30; PDFTextSplitter.chunk_overlap := 5;
       PDFTextSplitter.preserve_page_info := true |}
    ("--- Page 1 ---" ++ newline ++ "one" ++ newline ++ "--- Page 2 ---" ++ newline ++ "two")%string
    (Some [("source", VStr "a.pdf")])
  = Ok [ [ ("text",
            VStr ("--- Page 1 ---" ++ newline ++ "one" ++ newline ++ "--- Page 2 ")%string);
           ("metadata",
            VDict [ ("source", VStr "a.pdf"); ("chunk_id", VInt 0); ("chunk_start", VInt 0);
                    ("chunk_end", VInt 30); ("chunk_size", VInt 30);
                    ("pages_spanned", VList [VInt 1; VInt 2]); ("primary_page", VInt 1) ]) ];
         [ ("text", VStr ("ge 2 ---" ++ newline ++ "two")%string);
           ("metadata",
            VDict [ ("source", VStr "a.pdf"); ("chunk_id", VInt 1); ("chunk_start", VInt 25);
                    ("chunk_end", VInt 37); ("chunk_size", VInt 12) ]) ] ].
Proof. vm_compute. reflexivity. Qed.

(** * Further properties *)

(** ** extract_video_id *)

Example extract_video_id_examples :
  extract_video_id "https://www.youtube.com/watch?v=dQw4w9WgXcQ" = Ok "dQw4w9WgXcQ" /\
  extract_video_id "https://youtu.be/dQw4w9WgXcQ?t=42" = Ok "dQw4w9WgXcQ" /\
  extract_video_id "https://www.youtube.com/embed/dQw4w9WgXcQ#top" = Ok "dQw4w9WgXcQ" /\
  extract_video_id "https://www.youtube.com/watch?feature=share&v=abc&t=1" = Ok "abc" /\
  extract_video_id "https://www.youtube.com/watch?v=&list=x&v=abc" = Ok "abc" /\
  extract_video_id "https://www.youtube.com/watch?a=v=x&b=v=y" = Ok "y" /\
  extract_video_id "https://example.com/watch?v=abc"
  = Raise (ValueError "Could not extract video ID from URL: https://example.com/watch?v=abc").
Proof. vm_compute. repeat split. Qed.

Lemma prefix_empty (s : string) : String.prefix "" s = true.
Proof. now destruct s. Qed.

Lemma id_run_app (id rest : string) :
  all_id_chars id = true -> ends_id rest = true ->
  id_run (id ++ rest)%string = id.
Proof.
  intros Hid Hrest.
  induction id as [| c id IH]; cbn [append id_run all_id_chars] in *.
  - destruct rest as [| c rest]; [reflexivity |].
    cbn [id_run ends_id] in *. now destruct (id_char c).
  - apply andb_prop in Hid. destruct Hid as [Hc Hid].
    rewrite Hc. now rewrite IH.
Qed.

Lemma id_group_app (id rest : string) :
  id <> "" -> all_id_chars id = true -> ends_id rest = true ->
  id_group (id ++ rest)%string = Some id.
Proof.
  intros Hne Hid Hrest. unfold id_group. rewrite id_run_app by assumption.
  destruct id; [congruence | reflexivity].
Qed.

(** X1: on the three usual shapes of a YouTube address,
    [https://www.youtube.com/watch?v=ID], [https://youtu.be/ID] and
    [https://www.youtube.com/embed/ID], followed by nothing or by a part that
    starts with one of [&], [?], [#] or a newline, [extract_video_id] returns
    exactly [ID], for every non-empty [ID] free of these four characters. *)
Theorem extract_video_id_usual_addresses (id rest : string) :
  id <> "" -> all_id_chars id = true -> ends_id rest = true ->
  extract_video_id ("https://www.youtube.com/watch?v=" ++ id ++ rest)%string = Ok id /\
  extract_video_id ("https://youtu.be/" ++ id ++ rest)%string = Ok id /\
  extract_video_id ("https://www.youtube.com/embed/" ++ id ++ rest)%string = Ok id.
Proof.
  intros Hne Hid Hrest.
  pose proof (id_group_app rest Hne Hid Hrest) as Hg.
  unfold extract_video_id.
  unfold first_pattern_at, literal_then_id.
  repeat split; cbn -[id_group]; rewrite prefix_empty, Hg; reflexivity.
Qed.

Lemma extract_video_id_usual_addresses_witness :
  extract_video_id "https://youtu.be/dQw4w9WgXcQ?t=42" = Ok "dQw4w9WgXcQ".
Proof.
  destruct (@extract_video_id_usual_addresses "dQw4w9WgXcQ" "?t=42")
    as (_ & H & _); [discriminate | reflexivity | reflexivity | exact H].
Defined.

Lemma prefix_trans (a b c : string) :
  String.prefix a b = true -> String.prefix b c = true -> String.prefix a c = true.
Proof.
  revert b c. induction a as [| x a IH]; intros b c Hab Hbc.
  - apply prefix_empty.
  - destruct b as [| y b]; [discriminate |].
    destruct c as [| z c]; [discriminate |].
    cbn [String.prefix] in *.
    destruct (ascii_dec x y) as [-> |]; [| discriminate].
    destruct (ascii_dec y z) as [-> |]; [| discriminate].
    eapply IH; eassumption.
Qed.

Lemma re_search_nowhere (pattern_at : string -> option string) (marker s : string) :
  (forall t, String.prefix marker t = false -> pattern_at t = None) ->
  is_substring marker s = false ->
  re_search pattern_at s = None.
Proof.
  intros Hp. induction s as [| c s IH]; cbn [re_search is_substring]; intros Hs;
    apply orb_false_elim in Hs; destruct Hs as [Hhead Htail].
  - now rewrite Hp.
  - rewrite Hp by assumption. now apply IH.
Qed.

Lemma literal_then_id_needs (marker literal s : string) :
  String.prefix marker literal = true ->
  String.prefix marker s = false ->
  literal_then_id literal s = None.
Proof.
  intros Hm Hs. unfold literal_then_id.
  destruct (String.prefix literal s) eqn:E; [| reflexivity].
  now rewrite (prefix_trans _ _ _ Hm E) in Hs.
Qed.

(** X2: an address in which [youtu] does not occur has no video identifier:
    [extract_video_id] raises [ValueError], and the message quotes the
    address. *)
Theorem extract_video_id_rejects_other_addresses (url : string) :
  is_substring "youtu" url = false ->
  extract_video_id url
  = Raise (ValueError ("Could not extract video ID from URL: " ++ url)%string).
Proof.
  intros Hurl. unfold extract_video_id.
  rewrite (@re_search_nowhere first_pattern_at "youtu" url); [| | assumption].
  - rewrite (@re_search_nowhere second_pattern_at "youtu" url); [reflexivity | | assumption].
    intros t Ht. unfold second_pattern_at.
    destruct (String.prefix "youtube.com/watch?" t) eqn:E; [| reflexivity].
    now rewrite (@prefix_trans "youtu" "youtube.com/watch?" t eq_refl E) in Ht.
  - intros t Ht. unfold first_pattern_at.
    now rewrite !(@literal_then_id_needs "youtu" _ t) by (reflexivity || assumption).
Qed.

Lemma extract_video_id_rejects_other_addresses_witness :
  extract_video_id "https://vimeo.com/12345"
  = Raise (ValueError "Could not extract video ID from URL: https://vimeo.com/12345").
Proof.
  apply (@extract_video_id_rejects_other_addresses "https://vimeo.com/12345").
  reflexivity.
Defined.

Lemma found_tail (id s : string) (c : ascii) : found id s -> found id (String c s).
Proof.
  intros (Hne & Hid & a & b & ->). repeat split; try assumption.
  now exists (String c a), b.
Qed.

Lemma id_run_spec (s : string) :
  all_id_chars (id_run s) = true /\ exists b, s = (id_run s ++ b)%string.
Proof.
  induction s as [| c s [IH1 [b IH2]]]; cbn [id_run].
  - split; [reflexivity | now exists ""].
  - destruct (id_char c) eqn:E; cbn [all_id_chars append].
    + rewrite E, IH1. split; [reflexivity |]. exists b. now rewrite <- IH2.
    + split; [reflexivity | now exists (String c s)].
Qed.

Lemma str_drop_spec (n : nat) (s : string) : exists a, s = (a ++ str_drop n s)%string.
Proof.
  revert s. induction n as [| n IH]; intros s.
  - exists "". now destruct s.
  - destruct s as [| c s]; [now exists "" |].
    destruct (IH s) as [a Ha]. exists (String c a). cbn. now rewrite <- Ha.
Qed.

Lemma literal_then_id_found (literal s id : string) :
  literal_then_id literal s = Some id -> found id s.
Proof.
  unfold literal_then_id, id_group.
  destruct (String.prefix literal s); [| discriminate].
  destruct (str_drop_spec (String.length literal) s) as [a Ha].
  destruct (id_run_spec (str_drop (String.length literal) s)) as [Hchars [b Hb]].
  destruct (id_run (str_drop (String.length literal) s)) as [| c g] eqn:E;
    [discriminate |].
  intros H. inversion H; subst id. repeat split; [discriminate | assumption |].
  exists a, b. rewrite Ha at 1. now rewrite Hb at 1.
Qed.

Lemma greedy_then_v_found (r id : string) : greedy_then_v r = Some id -> found id r.
Proof.
  induction r as [| c r IH]; cbn [greedy_then_v].
  - apply literal_then_id_found.
  - destruct (Ascii.eqb c (ascii_of_nat 10)).
    + apply literal_then_id_found.
    + destruct (greedy_then_v r) as [g |].
      * intros H. inversion H; subst g. now apply found_tail, IH.
      * apply literal_then_id_found.
Qed.

Lemma re_search_found (pattern_at : string -> option string) (s id : string) :
  (forall t g, pattern_at t = Some g -> found g t) ->
  re_search pattern_at s = Some id -> found id s.
Proof.
  intros Hp. induction s as [| c s IH]; cbn [re_search].
  - destruct (pattern_at "") eqn:E; [| discriminate].
    intros H. inversion H; subst. now apply Hp.
  - destruct (pattern_at (String c s)) eqn:E.
    + intros H. inversion H; subst. now apply Hp.
    + intros H. now apply found_tail, IH.
Qed.

(** X3: whatever the address, an identifier that [extract_video_id] returns
    is not empty, contains none of [&], newline, [?], [#], and is a part of
    the address. *)
Theorem extract_video_id_returns_part_of_address (url id : string) :
  extract_video_id url = Ok id ->
  id <> "" /\ all_id_chars id = true /\ exists a b, url = (a ++ id ++ b)%string.
Proof.
  unfold extract_video_id. intros H.
  assert (H1 : forall t g, first_pattern_at t = Some g -> found g t).
  { intros t g. unfold first_pattern_at.
    destruct (literal_then_id "youtube.com/watch?v=" t) eqn:E1.
    - intros Hg. inversion Hg; subst. eapply literal_then_id_found, E1.
    - destruct (literal_then_id "youtu.be/" t) eqn:E2.
      + intros Hg. inversion Hg; subst. eapply literal_then_id_found, E2.
      + apply literal_then_id_found. }
  assert (H2 : forall t g, second_pattern_at t = Some g -> found g t).
  { intros t g. unfold second_pattern_at.
    destruct (String.prefix "youtube.com/watch?" t); [| discriminate].
    intros Hg. apply greedy_then_v_found in Hg.
    destruct Hg as (Hne & Hid & a & b & Hab).
    destruct (str_drop_spec (String.length "youtube.com/watch?") t) as [a' Ha'].
    repeat split; try assumption.
    exists (a' ++ a)%string, b. rewrite Ha' at 1. rewrite Hab.
    clear. induction a' as [| c a' IH]; cbn; [reflexivity | now rewrite IH]. }
  destruct (re_search first_pattern_at url) as [g |] eqn:E1.
  - inversion H; subst. exact (re_search_found _ _ H1 E1).
  - destruct (re_search second_pattern_at url) as [g |] eqn:E2; [| discriminate].
    inversion H; subst. exact (re_search_found _ _ H2 E2).
Qed.

Lemma extract_video_id_returns_part_of_address_witness :
  "abc" <> "" /\ all_id_chars "abc" = true /\
  exists a b, "https://www.youtube.com/watch?feature=share&v=abc&t=1" = (a ++ "abc" ++ b)%string.
Proof.
  apply (@extract_video_id_returns_part_of_address
           "https://www.youtube.com/watch?feature=share&v=abc&t=1" "abc").
  reflexivity.
Defined.

(** ** search, once more *)

Section SearchAgain.
Context {np : Numpy}.

Lemma filtered_out_keeps_key (key : string) (metadata_filter : option pydict) (s : state) :
  filtered_out key metadata_filter s
  = (res_map negb (keeps_key (metadata s) metadata_filter key), s).
Proof.
  unfold filtered_out, keeps_key, _matches_filter, bind, ret, lift, metadata_get.
  destruct metadata_filter as [[| b f] |]; cbn [dict_truthy]; try reflexivity.
  now destruct (matches_items _ _).
Qed.

Lemma search_scan_scan distance_func query_vector metadata_filter items :
  forall scores s,
    search_scan distance_func query_vector metadata_filter items scores s
    = (res_map (app scores)
               (scan (metadata s) distance_func query_vector metadata_filter items), s).
Proof.
  induction items as [| [key vector] items IH]; intros scores s;
    cbn [search_scan scan].
  - unfold ret. cbn. now rewrite app_nil_r.
  - unfold bind at 1. rewrite filtered_out_keeps_key.
    destruct (keeps_key (metadata s) metadata_filter key) as [[|] | e];
      cbn [res_map res_bind negb].
    + unfold bind, lift, metadata_get.
      destruct (distance_func query_vector vector) as [score | e];
        cbn [res_map res_bind]; [| reflexivity].
      rewrite IH.
      destruct (scan _ _ _ _ items) as [later | e]; cbn [res_map res_bind];
        [| reflexivity].
      now rewrite <- app_assoc.
    + apply IH.
    + reflexivity.
Qed.

(** What [search] returns, as a function of the two mappings. *)
Lemma search_result (query_vector : Vec) (k : Z) (distance_measure : string)
      (metadata_filter : option pydict) (return_scores : bool) (s : state) :
  fst (search query_vector k distance_measure metadata_filter return_scores s)
  = match dict_get distance_metrics distance_measure with
    | None => Raise (ValueError (unknown_metric_message distance_measure))
    | Some distance_func =>
        res_map (fun scores =>
                   shaped return_scores
                     (slice_to (sorted scores
                                  (existsb (String.eqb distance_measure)
                                           ["cosine"; "dot_product"])) k))
                (scan (metadata s) distance_func query_vector metadata_filter (vectors s))
    end.
Proof.
  unfold search.
  destruct (dict_get distance_metrics distance_measure) as [distance_func |];
    [| reflexivity].
  unfold bind at 1. unfold vectors_items. unfold bind at 1.
  rewrite search_scan_scan.
  destruct (scan _ _ _ _ _) as [scores | e]; cbn; [| reflexivity].
  now destruct return_scores.
Qed.
End SearchAgain.

Lemma dict_get_Some_In {V} (d : list (string * V)) (k : string) (v : V) :
  dict_get d k = Some v -> In (k, v) d.
Proof.
  induction d as [| [k' v'] d IH]; cbn [dict_get]; [discriminate |].
  destruct (String.eqb k' k) eqn:E.
  - apply String.eqb_eq in E. intros H. inversion H; subst. now left.
  - intros H. right. now apply IH.
Qed.

Lemma NoDup_firstn {A} (n : nat) (l : list A) : NoDup l -> NoDup (firstn n l).
Proof.
  intros H. rewrite <- (firstn_skipn n l) in H. now apply NoDup_app_remove_r in H.
Qed.

Lemma In_firstn {A} (n : nat) (l : list A) (x : A) : In x (firstn n l) -> In x l.
Proof.
  intros H. rewrite <- (firstn_skipn n l). apply in_or_app. now left.
Qed.

Lemma slice_to_firstn {A} (l : list A) (k : Z) : exists n, slice_to l k = firstn n l.
Proof. unfold slice_to. destruct (0 <=? k); eexists; reflexivity. Qed.

Lemma scan_hits (md : list (string * pydict)) distance_func query_vector
      metadata_filter (items : list (string * Vec)) :
  NoDup (dict_keys items) ->
  forall l,
    scan md distance_func query_vector metadata_filter items = Ok l ->
    NoDup (map (fun x => fst (fst x)) l) /\
    incl (map (fun x => fst (fst x)) l) (dict_keys items) /\
    Forall (fun x => exists vector,
                In (fst (fst x), vector) items /\
                distance_func query_vector vector = Ok (score_of x) /\
                snd x = dict_get_default md (fst (fst x)) [] /\
                keeps_key md metadata_filter (fst (fst x)) = Ok true) l.
Proof.
  induction items as [| [key vector] items IH]; intros Hn l; cbn [scan].
  - intros H. inversion H; subst. repeat split; [constructor | intros x [] | constructor].
  - cbn [dict_keys map fst] in Hn. inversion Hn as [| ? ? Hnotin Hn']; subst.
    destruct (keeps_key md metadata_filter key) as [[|] | e] eqn:Ek;
      cbn [res_bind]; [| | discriminate].
    + destruct (distance_func query_vector vector) as [score | e] eqn:Ef;
        cbn [res_bind]; [| discriminate].
      destruct (scan md distance_func query_vector metadata_filter items)
        as [later | e]; cbn [res_bind]; [| discriminate].
      intros H. inversion H; subst l. clear H.
      destruct (IH Hn' later eq_refl) as (Hnd & Hincl & Hall).
      repeat split.
      * cbn [map fst]. constructor; [| assumption].
        intros Hin. apply Hnotin. now apply Hincl.
      * intros k [<- | Hk]; [now left | right; now apply Hincl].
      * constructor.
        -- exists vector. cbn [fst snd score_of]. repeat split; try assumption. now left.
        -- eapply Forall_impl; [| exact Hall].
           intros x (v & Hv & Hrest). exists v. split; [now right | exact Hrest].
    + intros H. destruct (IH Hn' l H) as (Hnd & Hincl & Hall).
      repeat split; [assumption | intros k Hk; right; now apply Hincl |].
      eapply Forall_impl; [| exact Hall].
      intros x (v & Hv & Hrest). exists v. split; [now right | exact Hrest].
Qed.

Lemma result_keys_shaped (return_scores : bool) (results : list scored) :
  result_keys (shaped return_scores results) = map (fun x => fst (fst x)) results.
Proof.
  unfold shaped, result_keys. destruct return_scores; [reflexivity |].
  now rewrite map_map.
Qed.

Section SearchEntries.
Context {np : Numpy}.

(** X4: whatever [search] returns comes from the store.  For a store whose
    dictionaries are well formed and any arguments (any [k], any filter),
    no key is returned twice, and every returned entry carries a key of the
    store, the metric of the query vector and the vector stored under that
    key as its score, the metadata stored under that key, and is accepted by
    the filter. *)
Theorem search_returns_stored_entries (s : state) (query_vector : Vec) (k : Z)
        (distance_measure : string) (distance_func : Vec -> Vec -> res float)
        (metadata_filter : option pydict) (return_scores : bool) (r : search_results) :
  wf_store s ->
  dict_get distance_metrics distance_measure = Some distance_func ->
  fst (search query_vector k distance_measure metadata_filter return_scores s) = Ok r ->
  NoDup (result_keys r) /\
  exists results,
    r = shaped return_scores results /\
    Forall (stored_hit s distance_func query_vector metadata_filter) results.
Proof.
  intros [Hv _] Hm. rewrite search_result, Hm.
  destruct (scan (metadata s) distance_func query_vector metadata_filter (vectors s))
    as [scores | e] eqn:Es; cbn [res_map res_bind]; [| discriminate].
  intros H. injection H as <-.
  destruct (@scan_hits (metadata s) distance_func query_vector metadata_filter
              (vectors s) Hv scores Es) as (Hnd & _ & Hall).
  match goal with
  | |- context [slice_to (sorted scores ?rev) k] =>
      set (reverse := rev);
      destruct (slice_to_firstn (sorted scores reverse) k) as [n Hn]; rewrite Hn
  end.
  split.
  - rewrite result_keys_shaped, <- firstn_map. apply NoDup_firstn.
    eapply Permutation_NoDup; [| exact Hnd].
    apply Permutation_map, Permutation_sym, sorted_perm.
  - eexists. split; [reflexivity |].
    rewrite Forall_forall in *. intros x Hx.
    apply In_firstn in Hx.
    apply (Permutation_in _ (sorted_perm scores reverse)) in Hx.
    destruct (Hall x Hx) as (vector & Hin & Hscore & Hmd & Hkeep).
    exists vector. repeat split; try assumption.
    + now apply dict_get_In.
    + unfold keeps_key in Hkeep. destruct metadata_filter as [[| b f] |]; try exact I.
      exact Hkeep.
Qed.

End SearchEntries.

Lemma search_returns_stored_entries_witness :
  NoDup (result_keys
           (WithScores
              [ ("cat", 2%float, [("category", VStr "animals"); ("length", VInt 3)]);
                ("apple", 1%float, [("category", VStr "food"); ("length", VInt 5)]) ])).
Proof.
  assert (Hwf : wf_store three_document_store).
  { split; vm_compute; repeat constructor; simpl; intuition discriminate. }
  destruct (@search_returns_stored_entries reference_numpy three_document_store
              [1; 0]%float 2
              "dot_product" (@dot_product_similarity reference_numpy) None true
              (WithScores
                 [ ("cat", 2%float, [("category", VStr "animals"); ("length", VInt 3)]);
                   ("apple", 1%float, [("category", VStr "food"); ("length", VInt 5)]) ])
              Hwf eq_refl)
    as [Hnd _]; [vm_compute; reflexivity | exact Hnd].
Defined.

Lemma first_results_shaped (n : nat) (return_scores : bool) (results : list scored) :
  first_results n (shaped return_scores results) = shaped return_scores (firstn n results).
Proof.
  unfold first_results, shaped. destruct return_scores; [reflexivity |].
  now rewrite firstn_map.
Qed.

Section SearchComposition.
Context {np : Numpy}.

(** X5: asking for fewer results gives a prefix of what asking for more
    gives: for [0 <= k <= k'], if [search] with [k'] returns, then [search]
    with [k] and otherwise the same arguments returns the first [k] of those
    results. *)
Theorem search_smaller_k_is_prefix (s : state) (query_vector : Vec) (k k' : Z)
        (distance_measure : string) (metadata_filter : option pydict)
        (return_scores : bool) (r' : search_results) :
  0 <= k <= k' ->
  fst (search query_vector k' distance_measure metadata_filter return_scores s) = Ok r' ->
  fst (search query_vector k distance_measure metadata_filter return_scores s)
  = Ok (first_results (Z.to_nat k) r').
Proof.
  intros Hk. rewrite !search_result.
  destruct (dict_get distance_metrics distance_measure) as [distance_func |];
    [| discriminate].
  destruct (scan _ _ _ _ _) as [scores | e]; cbn [res_map res_bind]; [| discriminate].
  intros H. injection H as <-.
  rewrite first_results_shaped, !slice_to_nonneg by lia.
  rewrite firstn_firstn. do 3 f_equal. lia.
Qed.

(** X6: a store loaded from the file another store was saved to answers
    every search as the saved store does: the same results in the same
    order, or the same exception.  The saved store is one whose metadata
    are made of JSON values and hold no NaN: a stored NaN would be found in
    a filter that holds the same object, and no longer once it is read back
    as another one. *)
Theorem reloaded_store_answers_alike (filepath : string) (s loader : state)
        (query_vector : Vec) (k : Z) (distance_measure : string)
        (metadata_filter : option pydict) (return_scores : bool) :
  wf_store s ->
  Forall (fun kv => nan_free (VDict (snd kv)) = true) (metadata s) ->
  files loader = files (snd (save_to_file filepath s)) ->
  fst (search query_vector k distance_measure metadata_filter return_scores
              (snd (load_from_file filepath loader)))
  = fst (search query_vector k distance_measure metadata_filter return_scores s).
Proof.
  intros Hwf _ Hfiles. rewrite save_to_file_writes in Hfiles by assumption.
  cbn [snd files] in Hfiles.
  rewrite (@load_from_file_saved filepath s loader Hwf Hfiles).
  now rewrite !search_result.
Qed.
End SearchComposition.

Lemma search_smaller_k_is_prefix_witness :
  fst (search (np := reference_numpy) [1; 0]%float 1 "dot_product" None true
              three_document_store)
  = Ok (WithScores
          [ ("cat", 2%float, [("category", VStr "animals"); ("length", VInt 3)]) ]).
Proof.
  refine (@search_smaller_k_is_prefix reference_numpy three_document_store [1; 0]%float
            1 2 "dot_product" None true
            (WithScores
               [ ("cat", 2%float, [("category", VStr "animals"); ("length", VInt 3)]);
                 ("apple", 1%float, [("category", VStr "food"); ("length", VInt 5)]) ])
            _ _).
  - lia.
  - vm_compute. reflexivity.
Defined.

Lemma reloaded_store_answers_alike_witness :
  fst (search (np := reference_numpy) [1; 0]%float 2 "euclidean" None true
              (snd (load_from_file "db.json"
                      (empty_store
                         (files (snd (save_to_file "db.json" three_document_store)))))))
  = fst (search (np := reference_numpy) [1; 0]%float 2 "euclidean" None true
                three_document_store).
Proof.
  apply (@reloaded_store_answers_alike reference_numpy "db.json" three_document_store).
  - split; vm_compute; repeat constructor; simpl; intuition discriminate.
  - vm_compute. repeat constructor.
  - reflexivity.
Defined.

(** ** search_by_text *)

Section SearchByTextFacts.
Context {np : Numpy} {embedding_model : EmbeddingModel}.

(** X7: [search_by_text] with [return_as_text] returns the keys of what
    [search] returns for the embedding of the query, in the same order, and
    the same keys whether or not scores are requested; if the embedding
    provider or [search] raises, it raises the same exception.  It never
    changes the store. *)
Theorem search_by_text_returns_keys (s : state) (query_text : string) (k : Z)
        (distance_measure : string) (metadata_filter : option pydict)
        (return_scores : bool) :
  fst (search_by_text query_text k distance_measure metadata_filter true return_scores s)
  = res_map (fun r => AsText (result_keys r))
            (res_bind (get_embedding query_text)
                      (fun query_vector =>
                         fst (search query_vector k distance_measure metadata_filter
                                     true s))) /\
  snd (search_by_text query_text k distance_measure metadata_filter true return_scores s)
  = s.
Proof.
  unfold search_by_text, bind at 1, lift.
  destruct (get_embedding query_text) as [query_vector | e]; cbn [res_bind res_map];
    [| split; reflexivity].
  unfold bind.
  pose proof (search_result query_vector k distance_measure metadata_filter
                            return_scores s) as Hr.
  pose proof (search_result query_vector k distance_measure metadata_filter true s) as Ht.
  rewrite Ht.
  assert (Hs : snd (search query_vector k distance_measure metadata_filter
                           return_scores s) = s).
  { unfold search.
    destruct (dict_get distance_metrics distance_measure); [| reflexivity].
    unfold bind at 1. unfold vectors_items. unfold bind at 1.
    rewrite search_scan_scan.
    destruct (scan _ _ _ _ _); cbn [res_map res_bind]; [| reflexivity].
    now destruct return_scores. }
  destruct (search query_vector k distance_measure metadata_filter return_scores s)
    as [[r | e] s']; cbn [fst snd] in *; subst s'.
  - destruct (dict_get distance_metrics distance_measure); [| discriminate].
    destruct (scan _ _ _ _ _); cbn [res_map res_bind] in *; [| discriminate].
    injection Hr as ->. unfold ret. cbn [fst snd].
    split; [| reflexivity]. do 2 f_equal. now rewrite !result_keys_shaped.
  - split; [| reflexivity]. cbn [fst].
    destruct (dict_get distance_metrics distance_measure);
      [| cbn [res_map res_bind]; congruence].
    destruct (scan _ _ _ _ _); cbn [res_map res_bind] in *; [discriminate |].
    congruence.
Qed.
End SearchByTextFacts.

(** ** The store under insert and update_metadata *)

(** X8: [insert] under one key never changes what [retrieve_from_key]
    returns for another key, and [update_metadata], whether it returns or
    raises, never changes the vector that [retrieve_from_key] returns for
    any key. *)
Theorem other_keys_are_untouched (s : state) (key other : string) (vector : Vec)
        (md : option pydict) (new_metadata : pydict) :
  other <> key ->
  fst (retrieve_from_key other (snd (insert key vector md s)))
  = fst (retrieve_from_key other s) /\
  forall any : string,
    res_map fst (fst (retrieve_from_key any (snd (update_metadata key new_metadata s))))
    = res_map fst (fst (retrieve_from_key any s)).
Proof.
  intros Hne.
  assert (Hne' : key <> other) by congruence.
  unfold retrieve_from_key, insert, update_metadata, bind, ret, raise, vectors_get,
    metadata_get, vectors_setitem, metadata_setitem, vectors_contains,
    metadata_getitem, dict_get_default.
  split.
  - destruct md as [[| b d] |]; cbn [dict_truthy fst snd vectors metadata];
      now rewrite ?dict_get_set_other by assumption.
  - intros any. destruct (dict_contains (vectors s) key); cbn [fst snd]; [| reflexivity].
    destruct (dict_get (metadata s) key); reflexivity.
Qed.

Lemma other_keys_are_untouched_witness :
  fst (retrieve_from_key "bird"
         (snd (insert "cat" [5; 5]%float (Some [("length", VInt 9)])
                      three_document_store)))
  = fst (retrieve_from_key "bird" three_document_store) /\
  res_map fst (fst (retrieve_from_key "cat"
                      (snd (update_metadata "cat" [("length", VInt 9)]
                                            three_document_store))))
  = Ok (Some [2; 0]%float).
Proof.
  destruct (@other_keys_are_untouched three_document_store "cat" "bird" [5; 5]%float
              (Some [("length", VInt 9)]) [("length", VInt 9)]) as [Hinsert Hupdate].
  - discriminate.
  - split; [exact Hinsert |]. rewrite Hupdate. reflexivity.
Defined.

Lemma dict_set_length {V} (d : list (string * V)) (k : string) (v : V) :
  List.length (dict_set d k v)
  = (List.length d + if dict_contains d k then 0 else 1)%nat.
Proof.
  unfold dict_contains. induction d as [| [k' v'] d IH]; cbn [dict_set dict_get].
  - reflexivity.
  - destruct (String.eqb k' k); cbn [List.length]; [lia |].
    rewrite IH. destruct (dict_get d k); lia.
Qed.

Lemma dict_get_set {V} (d : list (string * V)) (k k' : string) (v : V) :
  dict_get (dict_set d k v) k' = if String.eqb k k' then Some v else dict_get d k'.
Proof.
  destruct (String.eqb k k') eqn:E.
  - apply String.eqb_eq in E. subst. apply dict_get_set_same.
  - apply String.eqb_neq in E. now apply dict_get_set_other.
Qed.

Lemma consistent_insert key vector md : keeps_consistent (insert key vector md).
Proof.
  intros s [Hwf Hsub]. split; [now apply insert_preserves_wf |].
  unfold insert, bind, ret, vectors_setitem, metadata_setitem.
  intros k. destruct md as [[| b d] |]; cbn [dict_truthy fst snd vectors metadata];
    rewrite ?dict_get_set; destruct (String.eqb key k); try discriminate; auto.
Qed.

Lemma consistent_update_metadata key new_metadata :
  keeps_consistent (update_metadata key new_metadata).
Proof.
  intros s [Hwf Hsub]. split; [now apply update_metadata_preserves_wf |].
  unfold update_metadata, bind, ret, raise, vectors_contains, metadata_getitem,
    metadata_setitem, dict_contains.
  intros k. destruct (dict_get (vectors s) key) eqn:Hv; cbn [fst snd]; [| auto].
  destruct (dict_get (metadata s) key); cbn [fst snd vectors metadata];
    rewrite ?dict_get_set; destruct (String.eqb key k) eqn:E; auto;
    apply String.eqb_eq in E; subst k; congruence.
Qed.

Lemma consistent_bind {A B} (c : M A) (k : A -> M B) :
  keeps_consistent c -> (forall a, keeps_consistent (k a)) -> keeps_consistent (bind c k).
Proof.
  intros Hc Hk s Hs. unfold bind. specialize (Hc s Hs).
  destruct (c s) as [[a | e] s']; cbn [snd] in *; [now apply Hk | exact Hc].
Qed.

Lemma consistent_insert_rows rows : keeps_consistent (insert_rows rows).
Proof.
  induction rows as [| [[text embedding] md] rows IH]; cbn [insert_rows].
  - intros s H. exact H.
  - apply consistent_bind; [intros s H; exact H | intros vector].
    apply consistent_bind; [apply consistent_insert | intros _; exact IH].
Qed.

Section Statistics.
Context {np : Numpy} {embedding_model : EmbeddingModel}.

(** X9: every key that has metadata has a vector, in the empty store and
    after any [insert], [update_metadata], [abuild_from_list],
    [abuild_from_chunks] or [save_to_file] on a store of which this holds,
    whether the call returns or raises; on such a store [get_statistics]
    never reports more metadata entries than documents. *)
Theorem metadata_entries_never_exceed_documents :
  (forall fs, consistent (empty_store fs)) /\
  (forall key vector md, keeps_consistent (insert key vector md)) /\
  (forall key new_metadata, keeps_consistent (update_metadata key new_metadata)) /\
  (forall texts mds, keeps_consistent (abuild_from_list texts mds)) /\
  (forall chunks, keeps_consistent (abuild_from_chunks chunks)) /\
  (forall filepath, keeps_consistent (save_to_file filepath)) /\
  (forall s, consistent s ->
     exists entries documents,
       statistic "total_metadata_entries" s = Some (VInt entries) /\
       statistic "total_documents" s = Some (VInt documents) /\
       0 <= entries <= documents).
Proof.
  assert (Hlist : forall texts mds, keeps_consistent (abuild_from_list texts mds)).
  { intros texts mds. unfold abuild_from_list.
    apply consistent_bind; [intros s H; exact H | intros embeddings].
    apply consistent_insert_rows. }
  split; [intros fs; split; [split; constructor | intros key H; now contradiction H] |].
  split; [intros key vector md; apply consistent_insert |].
  split; [intros key new_metadata; apply consistent_update_metadata |].
  split; [exact Hlist |].
  split.
  { intros chunks. unfold abuild_from_chunks.
    apply consistent_bind; [intros s H; exact H | intros texts]. apply Hlist. }
  split.
  { intros filepath s [Hwf Hsub]. split; [now apply save_to_file_preserves_wf |].
    exact Hsub. }
  intros s [[Hv Hm] Hsub]. do 2 eexists.
  split; [reflexivity |]. split; [reflexivity |]. split; [lia |].
  apply inj_le. unfold dict_keys in *.
  rewrite <- (length_map fst (metadata s)), <- (length_map fst (vectors s)).
  apply NoDup_incl_length; [exact Hm |].
  intros key Hkey. apply in_map_iff in Hkey. destruct Hkey as ([k d] & <- & Hin).
  assert (Hget : dict_get (metadata s) k <> None).
  { rewrite (dict_get_In (metadata s) k d Hm Hin). discriminate. }
  apply Hsub in Hget. destruct (dict_get (vectors s) k) as [vector |] eqn:E;
    [| congruence].
  apply dict_get_Some_In in E. cbn [fst].
  apply in_map_iff. now exists (k, vector).
Qed.

(** X10: [insert] under a key the store already has never adds a document;
    under a new key it adds exactly one: the [total_documents] of
    [get_statistics] grows by one or stays. *)
Theorem insert_counts_each_key_once (s : state) (key : string) (vector : Vec)
        (md : option pydict) :
  statistic "total_documents" s = Some (VInt (Z.of_nat (List.length (vectors s)))) /\
  statistic "total_documents" (snd (insert key vector md s))
  = Some (VInt (Z.of_nat (List.length (vectors s))
                + match dict_get (vectors s) key with Some _ => 0 | None => 1 end)).
Proof.
  split; [reflexivity |].
  unfold statistic, get_statistics. cbn [fst dict_get]. rewrite String.eqb_refl.
  replace (vectors (snd (insert key vector md s))) with (dict_set (vectors s) key vector).
  - rewrite dict_set_length. unfold dict_contains.
    destruct (dict_get (vectors s) key); do 2 f_equal; lia.
  - unfold insert, bind, ret, vectors_setitem, metadata_setitem.
    now destruct md as [[| b d] |].
Qed.
End Statistics.

(** ** load_from_file on other files *)

(** X11: [load_from_file] on a path that holds no file raises
    [FileNotFoundError] and leaves the store as it was; on a file that holds
    a JSON object without the key [vectors] it raises [KeyError], and by
    then both mappings of the store have been emptied. *)
Theorem load_from_file_failures (filepath : string) (s : state) :
  (dict_get (files s) filepath = None ->
   load_from_file filepath s = (Raise (FileNotFoundError filepath), s)) /\
  (forall d, dict_get (files s) filepath = Some (VDict d) ->
             dict_get d "vectors" = None ->
             load_from_file filepath s
             = (Raise (KeyError "'vectors'"),
                {| vectors := []; metadata := []; files := files s |})).
Proof.
  unfold load_from_file, bind, file_read, vectors_reset, metadata_reset, lift.
  split.
  - intros H. now rewrite H.
  - intros d H Hd. rewrite H. cbn [py_getitem vectors metadata files].
    now rewrite Hd.
Qed.

Example load_from_file_loses_the_store :
  let s := snd (file_write "broken.json" (VDict [("metadata", VDict [])])
                           three_document_store) in
  fst (load_from_file "broken.json" s) = Raise (KeyError "'vectors'") /\
  vectors (snd (load_from_file "broken.json" s)) = [] /\
  metadata (snd (load_from_file "broken.json" s)) = [].
Proof. vm_compute. repeat split. Qed.

(** ** Building a store *)

Lemma insert_rows_state (rows : list (string * list float * pydict)) :
  forall s,
    insert_rows rows s
    = (Ok tt, {| vectors := dict_update (vectors s) (row_vectors rows);
                 metadata := dict_update (metadata s) (row_metadata rows);
                 files := files s |}).
Proof.
  induction rows as [| [[text embedding] md] rows IH]; intros s; cbn [insert_rows].
  - unfold ret. now destruct s.
  - unfold bind at 1. unfold lift.
    change (VList (map VFloat embedding)) with (tolist embedding).
    rewrite np_array_tolist.
    unfold bind at 1. unfold insert, bind, ret, vectors_setitem, metadata_setitem.
    destruct md as [| b md]; cbn [dict_truthy]; rewrite IH; reflexivity.
Qed.

Lemma map_fst_combine {A B} (l : list A) (l' : list B) :
  map fst (combine l l') = firstn (List.length l') l.
Proof.
  revert l'. induction l as [| x l IH]; intros [| y l']; cbn; try reflexivity.
  now rewrite IH.
Qed.

Lemma dict_get_combine {V} (keys : list string) (values : list V) (i : nat)
      (k : string) (v : V) :
  NoDup keys -> nth_error keys i = Some k -> nth_error values i = Some v ->
  dict_get (combine keys values) k = Some v.
Proof.
  revert values i. induction keys as [| k' keys IH]; intros values i Hn Hk Hv.
  - destruct i; discriminate.
  - destruct values as [| v' values]; [destruct i; discriminate |].
    inversion Hn as [| ? ? Hnotin Hn']; subst.
    destruct i as [| i]; cbn in Hk, Hv; cbn [combine dict_get].
    + inversion Hk; inversion Hv; subst. now rewrite String.eqb_refl.
    + destruct (String.eqb k' k) eqn:E.
      * apply String.eqb_eq in E. subst k'. apply nth_error_In in Hk. contradiction.
      * eapply IH; eassumption.
Qed.

Lemma row_vectors_zip3 (texts : list string) (embeddings : list (list float))
      (mds : list pydict) :
  row_vectors (zip3 texts embeddings mds)
  = firstn (List.length mds) (combine texts embeddings).
Proof.
  unfold row_vectors, zip3.
  rewrite <- (map_fst_combine (combine texts embeddings) mds).
  apply map_ext. now intros [[t e] m].
Qed.

Lemma row_metadata_empty (texts : list string) (embeddings : list (list float)) (n : nat) :
  row_metadata (zip3 texts embeddings (repeat [] n)) = [].
Proof.
  unfold zip3. generalize (combine texts embeddings). intros l. revert n.
  induction l as [| x l IH]; intros [| n]; cbn; try reflexivity. apply IH.
Qed.

Section BuildFacts.
Context {embedding_model : EmbeddingModel}.

(** X12: [abuild_from_list] without metadata, on pairwise distinct texts for
    which the provider returns one embedding each, returns, and afterwards
    [retrieve_from_key] of every text returns the embedding the provider
    gave for it, with the metadata the store had for that key before. *)
Theorem abuild_from_list_stores_every_text (s : state) (texts : list string)
        (embeddings : list (list float)) :
  async_get_embeddings texts = Ok embeddings ->
  List.length embeddings = List.length texts ->
  NoDup texts ->
  fst (abuild_from_list texts None s) = Ok tt /\
  forall i text embedding,
    nth_error texts i = Some text ->
    nth_error embeddings i = Some embedding ->
    fst (retrieve_from_key text (snd (abuild_from_list texts None s)))
    = Ok (Some embedding, dict_get_default (metadata s) text []).
Proof.
  intros Hprov Hlen Hnd.
  unfold abuild_from_list, bind, lift. rewrite Hprov.
  rewrite insert_rows_state, row_vectors_zip3, row_metadata_empty.
  rewrite repeat_length.
  rewrite firstn_all2 by (rewrite length_combine; lia).
  cbn [fst snd]. split; [reflexivity |].
  intros i text embedding Ht He.
  unfold retrieve_from_key, bind, ret, vectors_get, metadata_get.
  cbn [fst snd vectors metadata]. do 3 f_equal.
  apply dict_get_update_new.
  - unfold dict_keys, Vec. rewrite map_fst_combine, Hlen, firstn_all. exact Hnd.
  - eapply dict_get_combine; eassumption.
Qed.

(** X13: [abuild_from_list] pairs texts, embeddings and metadata with [zip]:
    given a metadata list that is not empty, a text that is not among the
    first [len(metadata_list)] texts gets no vector, and what the store had
    under that key stays. *)
Theorem abuild_from_list_ignores_unpaired_texts (s : state) (texts : list string)
        (mds : list pydict) (text : string) :
  mds <> [] ->
  ~ In text (firstn (List.length mds) texts) ->
  dict_get (vectors (snd (abuild_from_list texts (Some mds) s))) text
  = dict_get (vectors s) text.
Proof.
  intros Hmds Hnot.
  unfold abuild_from_list, bind, lift.
  destruct (async_get_embeddings texts) as [embeddings | e]; [| reflexivity].
  destruct mds as [| md mds]; [congruence |].
  rewrite insert_rows_state, row_vectors_zip3. cbn [snd vectors].
  apply dict_get_update_other. apply dict_get_None_not_key.
  intros Hin. apply Hnot. unfold dict_keys in Hin.
  rewrite <- firstn_map, map_fst_combine, firstn_firstn in Hin.
  replace (Nat.min (List.length (md :: mds)) (List.length embeddings))
    with (Nat.min (Nat.min (List.length (md :: mds)) (List.length embeddings))
                  (List.length (md :: mds))) in Hin by lia.
  rewrite <- firstn_firstn in Hin. now apply In_firstn in Hin.
Qed.
End BuildFacts.

Lemma abuild_from_list_stores_every_text_witness :
  fst (retrieve_from_key "bb"
         (snd (abuild_from_list (embedding_model := length_embedding_model)
                                ["a"; "bb"] None (empty_store []))))
  = Ok (Some [2; 1]%float, []).
Proof.
  destruct (@abuild_from_list_stores_every_text length_embedding_model (empty_store [])
              ["a"; "bb"] [[1; 1]%float; [2; 1]%float])
    as [_ H].
  - reflexivity.
  - reflexivity.
  - repeat constructor; simpl; intuition discriminate.
  - exact (H 1%nat "bb" [2; 1]%float eq_refl eq_refl).
Defined.

Lemma abuild_from_list_ignores_unpaired_texts_witness :
  dict_get (vectors (snd (abuild_from_list (embedding_model := length_embedding_model)
                                           ["a"; "bb"; "ccc"]
                                           (Some [[("source", VStr "x")]])
                                           (empty_store []))))
           "ccc"
  = None.
Proof.
  apply (@abuild_from_list_ignores_unpaired_texts length_embedding_model (empty_store [])
           ["a"; "bb"; "ccc"] [[("source", VStr "x")]] "ccc").
  - discriminate.
  - simpl. intuition discriminate.
Defined.

Lemma chunk_texts_chunk_of (pairs : list (string * pydict)) :
  chunk_texts (map chunk_of pairs) = Ok (map fst pairs).
Proof.
  induction pairs as [| [text md] pairs IH]; cbn; [reflexivity |].
  change (chunk_texts (map chunk_of pairs)) with (chunk_texts (map chunk_of pairs)).
  now rewrite IH.
Qed.

Lemma preserved_metadata_chunk_of (pairs : list (string * pydict)) :
  Forall (fun p => snd p <> [] /\ NoDup (dict_keys (snd p))) pairs ->
  map preserved_metadata (map chunk_of pairs) = map snd pairs.
Proof.
  induction 1 as [| [text md] pairs [_ Hnd] _ IH]; cbn [map]; [reflexivity |].
  rewrite IH. f_equal. unfold preserved_metadata, chunk_of. cbn.
  now apply dict_of_items_NoDup.
Qed.

Lemma row_metadata_nonempty (texts : list string) (embeddings : list (list float))
      (mds : list pydict) :
  List.length embeddings = List.length texts ->
  Forall (fun md => md <> []) mds ->
  row_metadata (zip3 texts embeddings mds) = combine texts mds.
Proof.
  unfold zip3. revert embeddings mds.
  induction texts as [| t texts IH]; intros [| e embeddings] mds Hlen Hmds;
    try discriminate; [reflexivity |].
  destruct mds as [| md mds]; [reflexivity |].
  inversion Hmds as [| ? ? Hmd Hmds']; subst.
  destruct md as [| b md]; [congruence |].
  specialize (IH embeddings mds ltac:(now inversion Hlen) Hmds').
  unfold row_metadata in *. cbn [combine flat_map fst snd app].
  now rewrite IH.
Qed.

Section BuildFromChunks.
Context {embedding_model : EmbeddingModel}.

(** X14: [abuild_from_chunks] on chunks of the form the splitters build,
    [{"text": t, "metadata": m}] with pairwise distinct texts and metadata
    that are not empty, for which the provider returns one embedding each,
    returns, and afterwards [retrieve_from_key] of every chunk text returns
    the embedding of that chunk together with exactly the metadata of that
    chunk. *)
Theorem abuild_from_chunks_stores_every_chunk (s : state)
        (pairs : list (string * pydict)) (embeddings : list (list float)) :
  async_get_embeddings (map fst pairs) = Ok embeddings ->
  List.length embeddings = List.length pairs ->
  NoDup (map fst pairs) ->
  Forall (fun p => snd p <> [] /\ NoDup (dict_keys (snd p))) pairs ->
  fst (abuild_from_chunks (map chunk_of pairs) s) = Ok tt /\
  forall i text md embedding,
    nth_error pairs i = Some (text, md) ->
    nth_error embeddings i = Some embedding ->
    fst (retrieve_from_key text (snd (abuild_from_chunks (map chunk_of pairs) s)))
    = Ok (Some embedding, md).
Proof.
  intros Hprov Hlen Hnd Hmds.
  assert (Hlen' : List.length embeddings = List.length (map fst pairs))
    by now rewrite length_map.
  assert (Hne : Forall (fun md : pydict => md <> []) (map snd pairs)).
  { apply Forall_map. eapply Forall_impl; [| exact Hmds]. now intros p [H _]. }
  unfold abuild_from_chunks, bind at 1, lift.
  rewrite chunk_texts_chunk_of, preserved_metadata_chunk_of by assumption.
  unfold abuild_from_list, bind, lift. rewrite Hprov.
  assert (Hrows : zip3 (map fst pairs) embeddings
                       match map snd pairs with
                       | [] => repeat [] (List.length (map fst pairs))
                       | _ :: _ => map snd pairs
                       end
                  = zip3 (map fst pairs) embeddings (map snd pairs)).
  { destruct pairs; reflexivity. }
  rewrite Hrows, insert_rows_state, row_vectors_zip3, row_metadata_nonempty
    by assumption.
  rewrite firstn_all2 by (rewrite length_combine, !length_map; lia).
  cbn [fst snd]. split; [reflexivity |].
  intros i text md embedding Hp He.
  assert (Ht : nth_error (map fst pairs) i = Some text)
    by (rewrite nth_error_map, Hp; reflexivity).
  assert (Hm : nth_error (map snd pairs) i = Some md)
    by (rewrite nth_error_map, Hp; reflexivity).
  unfold retrieve_from_key, bind, ret, vectors_get, metadata_get, dict_get_default.
  cbn [fst snd vectors metadata].
  rewrite (@dict_get_update_new _ (vectors s) (combine (map fst pairs) embeddings)
             text embedding).
  - rewrite (@dict_get_update_new _ (metadata s) (combine (map fst pairs) (map snd pairs))
               text md); [reflexivity | |].
    + unfold dict_keys. rewrite map_fst_combine, !length_map, firstn_all2; [exact Hnd |].
      rewrite length_map. lia.
    + eapply dict_get_combine; eassumption.
  - unfold dict_keys, Vec. rewrite map_fst_combine, Hlen', firstn_all. exact Hnd.
  - eapply dict_get_combine; eassumption.
Qed.

(** X15: when a chunk has no [text], [abuild_from_chunks] raises [KeyError]
    before any embedding is asked for and before anything is inserted: the
    store is left as it was, also when the chunks before the faulty one are
    in order. *)
Theorem abuild_from_chunks_needs_every_text (s : state)
        (pairs : list (string * pydict)) (faulty : pydict) (rest : list pydict) :
  dict_get faulty "text" = None ->
  abuild_from_chunks (map chunk_of pairs ++ faulty :: rest) s
  = (Raise (KeyError "'text'"), s).
Proof.
  intros Hfaulty. unfold abuild_from_chunks, bind, lift.
  assert (H : chunk_texts (map chunk_of pairs ++ faulty :: rest)
              = Raise (KeyError "'text'")).
  { induction pairs as [| [text md] pairs IH]; cbn [map app chunk_texts].
    - now rewrite Hfaulty.
    - unfold chunk_of at 1. cbn [dict_get fst]. rewrite String.eqb_refl.
      now rewrite IH. }
  now rewrite H.
Qed.
End BuildFromChunks.

Lemma abuild_from_chunks_stores_every_chunk_witness :
  fst (retrieve_from_key "rld"
         (snd (abuild_from_chunks (embedding_model := length_embedding_model)
                 (map chunk_of
                      [ ("hello", [("chunk_id", VInt 0)]);
                        ("o wor", [("chunk_id", VInt 1)]);
                        ("rld", [("chunk_id", VInt 2)]) ])
                 (empty_store []))))
  = Ok (Some [3; 1]%float, [("chunk_id", VInt 2)]).
Proof.
  destruct (@abuild_from_chunks_stores_every_chunk length_embedding_model
              (empty_store [])
              [ ("hello", [("chunk_id", VInt 0)]);
                ("o wor", [("chunk_id", VInt 1)]);
                ("rld", [("chunk_id", VInt 2)]) ]
              [[5; 1]%float; [5; 1]%float; [3; 1]%float])
    as [_ H].
  - reflexivity.
  - reflexivity.
  - repeat constructor; simpl; intuition discriminate.
  - repeat constructor; simpl; (discriminate || tauto).
  - exact (H 2%nat "rld" [("chunk_id", VInt 2)] [3; 1]%float eq_refl eq_refl).
Defined.

Lemma abuild_from_chunks_needs_every_text_witness :
  abuild_from_chunks (embedding_model := length_embedding_model)
    [chunk_of ("hello", []); [("metadata", VDict [])]] three_document_store
  = (Raise (KeyError "'text'"), three_document_store).
Proof.
  apply (@abuild_from_chunks_needs_every_text length_embedding_model
           three_document_store [("hello", [])] [("metadata", VDict [])] []).
  reflexivity.
Defined.

(** ** The windows of the splitters *)

Lemma append_empty_r (s : string) : (s ++ "")%string = s.
Proof. induction s as [| c s IH]; cbn; [reflexivity | now rewrite IH]. Qed.

Lemma concat_empty_cons (x : string) (l : list string) :
  String.concat "" (x :: l) = (x ++ String.concat "" l)%string.
Proof.
  destruct l as [| y l]; cbn [String.concat]; [now rewrite append_empty_r | reflexivity].
Qed.

Lemma substring_str_drop (n m k : nat) (s : string) :
  substring (n + m) k s = substring m k (str_drop n s).
Proof.
  revert s. induction n as [| n IH]; intros s; cbn [Nat.add str_drop].
  - now destruct s.
  - destruct s as [| c s]; [now rewrite !substring_empty | apply IH].
Qed.

Lemma substring_app_str_drop (n : nat) (s : string) :
  (substring 0 n s ++ str_drop n s)%string = s.
Proof.
  revert s. induction n as [| n IH]; intros s.
  - rewrite substring_zero_length. now destruct s.
  - destruct s as [| c s]; [reflexivity |]. cbn. now rewrite IH.
Qed.

Lemma str_drop_length (n : nat) (s : string) :
  String.length (str_drop n s) = (String.length s - n)%nat.
Proof.
  revert s. induction n as [| n IH]; intros s.
  - destruct s; cbn; lia.
  - destruct s as [| c s]; [reflexivity | apply IH].
Qed.

Lemma substring_whole (s : string) : substring 0 (String.length s) s = s.
Proof. induction s as [| c s IH]; cbn; [reflexivity | now rewrite IH]. Qed.

Lemma substring_to_end (n : nat) (s : string) :
  substring n (String.length s - n) s = str_drop n s.
Proof.
  revert s. induction n as [| n IH]; intros s.
  - rewrite Nat.sub_0_r, substring_whole. now destruct s.
  - destruct s as [| c s]; [reflexivity | apply IH].
Qed.

(** Consecutive windows of [step] characters that reach the end of a text
    make up the text. *)
Lemma concat_windows (step n : nat) (text : string) :
  (String.length text <= step * n)%nat ->
  String.concat "" (map (fun i => substring (step * i) step text) (seq 0 n)) = text.
Proof.
  revert text. induction n as [| n IH]; intros text Hlen.
  - destruct text; [reflexivity | cbn in Hlen; lia].
  - cbn [seq map]. rewrite concat_empty_cons, Nat.mul_0_r.
    rewrite <- seq_shift, map_map.
    etransitivity; [| apply (substring_app_str_drop step text)]. f_equal.
    etransitivity;
      [| apply (IH (str_drop step text)); rewrite str_drop_length; lia].
    f_equal. apply map_ext. intros i.
    replace (step * S i)%nat with (step + step * i)%nat by lia.
    apply substring_str_drop.
Qed.

Lemma ceil_bounds (L step : Z) :
  0 <= L -> 0 < step ->
  step * ((L + step - 1) / step - 1) < L <= step * ((L + step - 1) / step).
Proof.
  intros HL Hs.
  pose proof (Z.div_mod (L + step - 1) step ltac:(lia)) as Hdm.
  pose proof (Z.mod_pos_bound (L + step - 1) step Hs) as Hmod. lia.
Qed.

Lemma len_nonneg (s : string) : 0 <= len s.
Proof. unfold len. lia. Qed.

Lemma pdf_init_inv (chunk_size chunk_overlap : Z) (p : bool) (self : PDFTextSplitter.t) :
  PDFTextSplitter.__init__ chunk_size chunk_overlap p = Ok self ->
  chunk_overlap < chunk_size /\
  self = {| PDFTextSplitter.chunk_size := chunk_size;
            PDFTextSplitter.chunk_overlap := chunk_overlap;
            PDFTextSplitter.preserve_page_info := p |}.
Proof.
  unfold PDFTextSplitter.__init__.
  destruct (Z.gtb_spec chunk_size chunk_overlap) as [Hgt | Hle]; [| discriminate].
  intros Heq. injection Heq as <-. split; [lia | reflexivity].
Qed.

(** The text of chunk [i] of a split with a positive window and step. *)
Lemma pdf_chunk_window (py_int : string -> option Z) (self : PDFTextSplitter.t)
      (text : string) (base : pydict) (i : nat) :
  0 < PDFTextSplitter.chunk_size self ->
  0 < PDFTextSplitter.chunk_size self - PDFTextSplitter.chunk_overlap self ->
  Z.of_nat i * (PDFTextSplitter.chunk_size self - PDFTextSplitter.chunk_overlap self)
  <= len text ->
  chunk_text (PDFTextSplitter.make_chunk py_int self text base (Z.of_nat i)
                (Z.of_nat i * (PDFTextSplitter.chunk_size self
                               - PDFTextSplitter.chunk_overlap self)))
  = substring (Z.to_nat (PDFTextSplitter.chunk_size self
                         - PDFTextSplitter.chunk_overlap self) * i)
              (Z.to_nat (PDFTextSplitter.chunk_size self)) text.
Proof.
  intros Hsize Hstep Hi. unfold len in Hi.
  unfold chunk_text, PDFTextSplitter.make_chunk. cbn [dict_get].
  rewrite String.eqb_refl.
  set (step := PDFTextSplitter.chunk_size self - PDFTextSplitter.chunk_overlap self) in *.
  replace (Z.of_nat i * step) with (Z.of_nat (Z.to_nat step * i)) by lia.
  replace (PDFTextSplitter.chunk_size self)
    with (Z.of_nat (Z.to_nat (PDFTextSplitter.chunk_size self))) at 1 by lia.
  apply str_slice_window. lia.
Qed.

Section PdfSplitFacts.
Variable py_int : string -> option Z.

(** X16: a [PDFTextSplitter] that was constructed never fails in [split]:
    it cuts a text of length [L] into [ceil(L / (chunk_size - chunk_overlap))]
    chunks, and the empty text into none. *)
Theorem pdf_split_chunk_count (chunk_size chunk_overlap : Z) (p : bool)
        (self : PDFTextSplitter.t) (text : string) (metadata : option pydict) :
  PDFTextSplitter.__init__ chunk_size chunk_overlap p = Ok self ->
  exists chunks,
    PDFTextSplitter.split py_int self text metadata = Ok chunks /\
    Z.of_nat (List.length chunks)
    = (len text + (chunk_size - chunk_overlap) - 1) / (chunk_size - chunk_overlap) /\
    (chunk_size - chunk_overlap) * (Z.of_nat (List.length chunks) - 1) < len text
      <= (chunk_size - chunk_overlap) * Z.of_nat (List.length chunks) /\
    (text = "" -> chunks = []).
Proof.
  intros Hinit. apply pdf_init_inv in Hinit. destruct Hinit as [Hlt ->].
  destruct (@pdf_split_chunks py_int
              {| PDFTextSplitter.chunk_size := chunk_size;
                 PDFTextSplitter.chunk_overlap := chunk_overlap;
                 PDFTextSplitter.preserve_page_info := p |} text metadata)
    as [base Hsplit]; [cbn; lia |].
  cbn [PDFTextSplitter.chunk_size PDFTextSplitter.chunk_overlap] in Hsplit.
  eexists. split; [exact Hsplit |].
  rewrite length_map, length_seq.
  pose proof (ceil_bounds (len_nonneg text) (step := chunk_size - chunk_overlap)
                          ltac:(lia)) as Hceil.
  assert (Hn : 0 <= (len text + (chunk_size - chunk_overlap) - 1)
                    / (chunk_size - chunk_overlap))
    by (apply Z.div_pos; pose proof (len_nonneg text); lia).
  rewrite Z2Nat.id by assumption.
  split; [reflexivity |]. split; [exact Hceil |].
  intros ->. cbn [len String.length Z.of_nat].
  replace ((0 + (chunk_size - chunk_overlap) - 1) / (chunk_size - chunk_overlap)) with 0
    by (symmetry; apply Z.div_small; lia).
  reflexivity.
Qed.

(** X17: with an overlap that is not negative no character is lost: the
    first [chunk_size - chunk_overlap] characters of every chunk, put one
    after the other, are the text that was split. *)
Theorem pdf_split_loses_no_text (chunk_size chunk_overlap : Z) (p : bool)
        (self : PDFTextSplitter.t) (text : string) (metadata : option pydict)
        (chunks : list pydict) :
  PDFTextSplitter.__init__ chunk_size chunk_overlap p = Ok self ->
  0 <= chunk_overlap ->
  PDFTextSplitter.split py_int self text metadata = Ok chunks ->
  String.concat ""
    (map (fun chunk => substring 0 (Z.to_nat (chunk_size - chunk_overlap))
                                 (chunk_text chunk)) chunks)
  = text.
Proof.
  intros Hinit Hco. apply pdf_init_inv in Hinit. destruct Hinit as [Hlt ->].
  destruct (@pdf_split_chunks py_int
              {| PDFTextSplitter.chunk_size := chunk_size;
                 PDFTextSplitter.chunk_overlap := chunk_overlap;
                 PDFTextSplitter.preserve_page_info := p |} text metadata)
    as [base Hsplit]; [cbn; lia |].
  rewrite Hsplit. intros H. injection H as <-.
  cbn [PDFTextSplitter.chunk_size PDFTextSplitter.chunk_overlap].
  set (step := chunk_size - chunk_overlap) in *.
  pose proof (ceil_bounds (len_nonneg text) (step := step) ltac:(lia)) as Hceil.
  assert (Hn : 0 <= (len text + step - 1) / step)
    by (apply Z.div_pos; pose proof (len_nonneg text); lia).
  set (n := Z.to_nat ((len text + step - 1) / step)) in *.
  assert (HnZ : Z.of_nat n = (len text + step - 1) / step) by (unfold n; lia).
  rewrite <- HnZ in Hceil. rewrite map_map.
  etransitivity;
    [| apply (concat_windows (Z.to_nat step) n text); unfold len in Hceil; lia].
  f_equal. apply map_ext_in. intros i Hi. apply in_seq in Hi.
  pose proof (@pdf_chunk_window py_int
                {| PDFTextSplitter.chunk_size := chunk_size;
                   PDFTextSplitter.chunk_overlap := chunk_overlap;
                   PDFTextSplitter.preserve_page_info := p |} text base i) as Hw.
  cbn [PDFTextSplitter.chunk_size PDFTextSplitter.chunk_overlap] in Hw.
  fold step in Hw. rewrite Hw by (lia || nia).
  rewrite substring_substring. f_equal; lia.
Qed.
End PdfSplitFacts.

Lemma pdf_split_chunk_count_witness :
  exists chunks,
    PDFTextSplitter.split decimal_int
      {| PDFTextSplitter.chunk_size := 5; PDFTextSplitter.chunk_overlap := 1;
         PDFTextSplitter.preserve_page_info := true |} "hello world" None = Ok chunks /\
    Z.of_nat (List.length chunks) = 3.
Proof.
  destruct (@pdf_split_chunk_count decimal_int 5 1 true
              {| PDFTextSplitter.chunk_size := 5; PDFTextSplitter.chunk_overlap := 1;
                 PDFTextSplitter.preserve_page_info := true |} "hello world" None eq_refl)
    as (chunks & Hsplit & Hlen & _).
  exists chunks. split; [exact Hsplit | exact Hlen].
Defined.

Lemma pdf_split_loses_no_text_witness :
  String.concat "" (map (fun chunk => substring 0 4 (chunk_text chunk))
                        (map chunk_of
                             [ ("hello", [ ("chunk_id", VInt 0); ("chunk_start", VInt 0);
                                           ("chunk_end", VInt 5); ("chunk_size", VInt 5) ]);
                               ("o wor", [ ("chunk_id", VInt 1); ("chunk_start", VInt 4);
                                           ("chunk_end", VInt 9); ("chunk_size", VInt 5) ]);
                               ("rld", [ ("chunk_id", VInt 2); ("chunk_start", VInt 8);
                                         ("chunk_end", VInt 11); ("chunk_size", VInt 3) ]) ]))
  = "hello world".
Proof.
  refine (@pdf_split_loses_no_text decimal_int 5 1 false
            {| PDFTextSplitter.chunk_size := 5; PDFTextSplitter.chunk_overlap := 1;
               PDFTextSplitter.preserve_page_info := false |} "hello world" None
            _ eq_refl _ _).
  - lia.
  - vm_compute.
    reflexivity.
Defined.

Lemma pdf_split_items (py_int : string -> option Z) (self : PDFTextSplitter.t)
      (text : string) (metadata : option pydict) :
  0 < PDFTextSplitter.chunk_size self - PDFTextSplitter.chunk_overlap self ->
  PDFTextSplitter.split py_int self text metadata
  = Ok (map (fun i =>
               PDFTextSplitter.make_chunk py_int self text
                 (match metadata with Some d => d | None => [] end) (Z.of_nat i)
                 (Z.of_nat i * (PDFTextSplitter.chunk_size self
                                - PDFTextSplitter.chunk_overlap self)))
            (seq 0 (Z.to_nat
                      ((len text + (PDFTextSplitter.chunk_size self
                                    - PDFTextSplitter.chunk_overlap self) - 1)
                       / (PDFTextSplitter.chunk_size self
                          - PDFTextSplitter.chunk_overlap self))))).
Proof.
  intros Hstep. unfold PDFTextSplitter.split.
  rewrite range_ascending by assumption. cbn [res_bind].
  rewrite enumerate_map_seq, map_map.
  now destruct metadata as [[| b d] |].
Qed.

Lemma with_page_info_other_keys (py_int : string -> option Z) (self : PDFTextSplitter.t)
      (chunk_text : string) (md : pydict) (k : string) :
  k <> "pages_spanned" -> k <> "primary_page" ->
  dict_get (PDFTextSplitter.with_page_info py_int self chunk_text md) k = dict_get md k.
Proof.
  intros H1 H2. unfold PDFTextSplitter.with_page_info.
  destruct (PDFTextSplitter.preserve_page_info self && is_substring "--- Page " chunk_text);
    [| reflexivity].
  destruct (PDFTextSplitter.pages_of py_int _) as [| first pages]; [reflexivity |].
  rewrite !dict_get_set_other by congruence. reflexivity.
Qed.

Section PdfChunkFields.
Variable py_int : string -> option Z.

(** X18: the bookkeeping of [split] is exact.  For a constructed splitter
    with a positive [chunk_size], chunk number [i] records [chunk_id = i],
    [chunk_start = i (chunk_size - chunk_overlap)],
    [chunk_end = min(chunk_start + chunk_size, len(text))] and
    [chunk_size = len(chunk text) = chunk_end - chunk_start], its text is
    never empty and never longer than the window, and every key of the
    caller's metadata other than the six keys [split] writes keeps its
    value. *)
Theorem pdf_split_chunk_fields (chunk_size chunk_overlap : Z) (p : bool)
        (self : PDFTextSplitter.t) (text : string) (metadata : option pydict)
        (chunks : list pydict) (i : nat) (chunk : pydict) :
  PDFTextSplitter.__init__ chunk_size chunk_overlap p = Ok self ->
  0 < chunk_size ->
  PDFTextSplitter.split py_int self text metadata = Ok chunks ->
  nth_error chunks i = Some chunk ->
  dict_get (chunk_metadata chunk) "chunk_id" = Some (VInt (Z.of_nat i)) /\
  dict_get (chunk_metadata chunk) "chunk_start"
  = Some (VInt (Z.of_nat i * (chunk_size - chunk_overlap))) /\
  dict_get (chunk_metadata chunk) "chunk_end"
  = Some (VInt (Z.min (Z.of_nat i * (chunk_size - chunk_overlap) + chunk_size)
                      (len text))) /\
  dict_get (chunk_metadata chunk) "chunk_size" = Some (VInt (len (chunk_text chunk))) /\
  len (chunk_text chunk)
  = Z.min (Z.of_nat i * (chunk_size - chunk_overlap) + chunk_size) (len text)
    - Z.of_nat i * (chunk_size - chunk_overlap) /\
  0 < len (chunk_text chunk) <= chunk_size /\
  forall k, ~ In k split_keys ->
            dict_get (chunk_metadata chunk) k
            = dict_get (match metadata with Some d => d | None => [] end) k.
Proof.
  intros Hinit Hsize. apply pdf_init_inv in Hinit. destruct Hinit as [Hlt ->].
  rewrite pdf_split_items by (cbn; lia).
  cbn [PDFTextSplitter.chunk_size PDFTextSplitter.chunk_overlap].
  set (step := chunk_size - chunk_overlap) in *.
  set (base := match metadata with Some d => d | None => [] end).
  intros H. injection H as <-.
  rewrite nth_error_map, nth_error_seq.
  pose proof (ceil_bounds (len_nonneg text) (step := step) ltac:(lia)) as Hceil.
  assert (Hn : 0 <= (len text + step - 1) / step)
    by (apply Z.div_pos; pose proof (len_nonneg text); lia).
  destruct (Nat.ltb_spec i (Z.to_nat ((len text + step - 1) / step))) as [Hi |];
    [| discriminate].
  cbn [option_map Nat.add]. intros H. injection H as <-.
  assert (Hstart : Z.of_nat i * step < len text) by nia.
  pose proof (@pdf_chunk_window py_int
                {| PDFTextSplitter.chunk_size := chunk_size;
                   PDFTextSplitter.chunk_overlap := chunk_overlap;
                   PDFTextSplitter.preserve_page_info := p |} text base i) as Hw.
  cbn [PDFTextSplitter.chunk_size PDFTextSplitter.chunk_overlap] in Hw.
  fold step in Hw. specialize (Hw Hsize ltac:(lia) ltac:(lia)).
  assert (Hlen : len (chunk_text
                        (PDFTextSplitter.make_chunk py_int
                           {| PDFTextSplitter.chunk_size := chunk_size;
                              PDFTextSplitter.chunk_overlap := chunk_overlap;
                              PDFTextSplitter.preserve_page_info := p |}
                           text base (Z.of_nat i) (Z.of_nat i * step)))
                 = Z.min (Z.of_nat i * step + chunk_size) (len text) - Z.of_nat i * step).
  { rewrite Hw. unfold len in *. rewrite substring_length. lia. }
  assert (Hfields : forall k,
             dict_get (chunk_metadata
                         (PDFTextSplitter.make_chunk py_int
                            {| PDFTextSplitter.chunk_size := chunk_size;
                               PDFTextSplitter.chunk_overlap := chunk_overlap;
                               PDFTextSplitter.preserve_page_info := p |}
                            text base (Z.of_nat i) (Z.of_nat i * step))) k
             = dict_get
                 (PDFTextSplitter.with_page_info py_int
                    {| PDFTextSplitter.chunk_size := chunk_size;
                       PDFTextSplitter.chunk_overlap := chunk_overlap;
                       PDFTextSplitter.preserve_page_info := p |}
                    (str_slice text (Z.of_nat i * step) (Z.of_nat i * step + chunk_size))
                    (dict_update base
                       [ ("chunk_id", VInt (Z.of_nat i));
                         ("chunk_start", VInt (Z.of_nat i * step));
                         ("chunk_end",
                          VInt (Z.min (Z.of_nat i * step + chunk_size) (len text)));
                         ("chunk_size",
                          VInt (len (str_slice text (Z.of_nat i * step)
                                               (Z.of_nat i * step + chunk_size)))) ])) k)
    by reflexivity.
  assert (Hnd : NoDup (dict_keys
                         [ ("chunk_id", VInt (Z.of_nat i));
                           ("chunk_start", VInt (Z.of_nat i * step));
                           ("chunk_end",
                            VInt (Z.min (Z.of_nat i * step + chunk_size) (len text)));
                           ("chunk_size",
                            VInt (len (str_slice text (Z.of_nat i * step)
                                                 (Z.of_nat i * step + chunk_size)))) ])).
  { cbn. repeat constructor; cbn; intuition discriminate. }
  repeat split.
  - rewrite Hfields, with_page_info_other_keys by discriminate.
    now apply dict_get_update_new.
  - rewrite Hfields, with_page_info_other_keys by discriminate.
    now apply dict_get_update_new.
  - rewrite Hfields, with_page_info_other_keys by discriminate.
    now apply dict_get_update_new.
  - rewrite Hfields, with_page_info_other_keys by discriminate.
    now apply dict_get_update_new.
  - exact Hlen.
  - lia.
  - lia.
  - intros k Hk. unfold split_keys in Hk. cbn [In] in Hk.
    rewrite Hfields, with_page_info_other_keys by (intros ->; tauto).
    apply dict_get_update_other. apply dict_get_None_not_key.
    cbn. intuition auto.
Qed.
End PdfChunkFields.

Lemma pdf_split_chunk_fields_witness :
  dict_get (chunk_metadata
              (chunk_of ("rld", [ ("source", VStr "a.pdf"); ("chunk_id", VInt 2);
                                  ("chunk_start", VInt 8); ("chunk_end", VInt 11);
                                  ("chunk_size", VInt 3) ])))
           "chunk_end"
  = Some (VInt (Z.min (Z.of_nat 2 * (5 - 1) + 5) (len "hello world"))).
Proof.
  destruct (@pdf_split_chunk_fields decimal_int 5 1 true
               {| PDFTextSplitter.chunk_size := 5; PDFTextSplitter.chunk_overlap := 1;
                  PDFTextSplitter.preserve_page_info := true |}
               "hello world" (Some [("source", VStr "a.pdf")])
               (map chunk_of
                    [ ("hello", [ ("source", VStr "a.pdf"); ("chunk_id", VInt 0);
                                  ("chunk_start", VInt 0); ("chunk_end", VInt 5);
                                  ("chunk_size", VInt 5) ]);
                      ("o wor", [ ("source", VStr "a.pdf"); ("chunk_id", VInt 1);
                                  ("chunk_start", VInt 4); ("chunk_end", VInt 9);
                                  ("chunk_size", VInt 5) ]);
                      ("rld", [ ("source", VStr "a.pdf"); ("chunk_id", VInt 2);
                                ("chunk_start", VInt 8); ("chunk_end", VInt 11);
                                ("chunk_size", VInt 3) ]) ])
               2%nat
               (chunk_of ("rld", [ ("source", VStr "a.pdf"); ("chunk_id", VInt 2);
                                   ("chunk_start", VInt 8); ("chunk_end", VInt 11);
                                   ("chunk_size", VInt 3) ])))
    as (_ & _ & Hend & _).
  - reflexivity.
  - lia.
  - vm_compute. reflexivity.
  - reflexivity.
  - exact Hend.
Defined.

(** X19: the two splitters cut alike.  For the same [chunk_size] and
    [chunk_overlap], whatever they are, [YouTubeTextSplitter.split_by_text]
    and [PDFTextSplitter.split] return chunks with the same texts in the same
    order, or fail alike. *)
Theorem youtube_split_by_text_cuts_like_pdf_split (py_int : string -> option Z)
        (chunk_size chunk_overlap : Z) (preserve_timestamps preserve_page_info : bool)
        (text : string) (video_metadata : pydict) (pdf_metadata : option pydict) :
  res_map (map chunk_text)
          (YouTubeTextSplitter.split_by_text
             {| YouTubeTextSplitter.chunk_size := chunk_size;
                YouTubeTextSplitter.chunk_overlap := chunk_overlap;
                YouTubeTextSplitter.preserve_timestamps := preserve_timestamps |}
             text video_metadata)
  = res_map (map chunk_text)
            (PDFTextSplitter.split py_int
               {| PDFTextSplitter.chunk_size := chunk_size;
                  PDFTextSplitter.chunk_overlap := chunk_overlap;
                  PDFTextSplitter.preserve_page_info := preserve_page_info |}
               text pdf_metadata).
Proof.
  unfold YouTubeTextSplitter.split_by_text, PDFTextSplitter.split.
  cbn [YouTubeTextSplitter.chunk_size YouTubeTextSplitter.chunk_overlap
       PDFTextSplitter.chunk_size PDFTextSplitter.chunk_overlap].
  destruct (range 0 (len text) (chunk_size - chunk_overlap)) as [offsets | e];
    cbn [res_bind res_map]; try reflexivity.
  rewrite !map_map. apply f_equal. apply map_ext. intros [i chunk_start].
  unfold chunk_text, YouTubeTextSplitter.make_chunk, PDFTextSplitter.make_chunk.
  cbn [dict_get fst snd]. now rewrite String.eqb_refl.
Qed.

(** ** _get_overlap_text *)

Lemma str_drop_beyond (n : nat) (s : string) :
  (String.length s <= n)%nat -> str_drop n s = "".
Proof.
  revert s. induction n as [| n IH]; intros s Hn.
  - destruct s; [reflexivity | cbn in Hn; lia].
  - destruct s as [| c s]; [reflexivity |]. apply IH. cbn in Hn. lia.
Qed.

Lemma str_slice_to_end (s : string) (lo : Z) :
  0 <= lo -> str_slice s lo (len s) = str_drop (Z.to_nat lo) s.
Proof.
  intros Hlo. unfold str_slice, len.
  destruct (Z.ltb_spec lo 0); [lia |].
  destruct (Z.ltb_spec (Z.of_nat (String.length s)) 0); [lia |].
  destruct (Z.le_gt_cases lo (Z.of_nat (String.length s))) as [Hin | Hout].
  - rewrite <- substring_to_end. f_equal; lia.
  - rewrite str_drop_beyond by lia.
    replace (Z.to_nat _ ) with (String.length s) by lia.
    replace (Z.to_nat _) with 0%nat by lia.
    apply substring_zero_length.
Qed.

Lemma overlap_text_drop (self : YouTubeTextSplitter.t) (text : string) :
  (0 < YouTubeTextSplitter.chunk_overlap self ->
   _get_overlap_text self text
   = str_drop (String.length text - Z.to_nat (YouTubeTextSplitter.chunk_overlap self))
              text) /\
  (YouTubeTextSplitter.chunk_overlap self = 0 -> _get_overlap_text self text = text) /\
  (YouTubeTextSplitter.chunk_overlap self < 0 ->
   _get_overlap_text self text
   = str_drop (Z.to_nat (- YouTubeTextSplitter.chunk_overlap self)) text).
Proof.
  unfold _get_overlap_text.
  set (co := YouTubeTextSplitter.chunk_overlap self).
  assert (Hdrop0 : str_drop 0 text = text) by now destruct text.
  destruct (Z.leb_spec (len text) co) as [Hle | Hgt]; unfold len in *.
  - split; [| split]; intros Hco; [| reflexivity | lia].
    replace (String.length text - Z.to_nat co)%nat with 0%nat by lia.
    now rewrite Hdrop0.
  - split; [| split]; intros Hco.
    + unfold str_slice, len.
      destruct (Z.ltb_spec (- co) 0); [| lia].
      destruct (Z.ltb_spec (Z.of_nat (String.length text)) 0); [lia |].
      rewrite <- substring_to_end. f_equal; lia.
    + rewrite Hco. cbn [Z.opp]. fold (len text).
      rewrite str_slice_to_end by lia. exact Hdrop0.
    + fold (len text). now rewrite str_slice_to_end by lia.
Qed.

(** X20: what [_get_overlap_text] keeps of a text.  With a positive
    [chunk_overlap] it is the last [min(len(text), chunk_overlap)]
    characters; with [chunk_overlap = 0] it is the whole text, not the empty
    string, because [text[-0:]] is [text[0:]]; with a negative
    [chunk_overlap] it is the text without its first [-chunk_overlap]
    characters. *)
Theorem get_overlap_text_cases (self : YouTubeTextSplitter.t) (text : string) :
  (0 < YouTubeTextSplitter.chunk_overlap self ->
   _get_overlap_text self text
   = str_drop (String.length text - Z.to_nat (YouTubeTextSplitter.chunk_overlap self))
              text) /\
  (YouTubeTextSplitter.chunk_overlap self = 0 -> _get_overlap_text self text = text) /\
  (YouTubeTextSplitter.chunk_overlap self < 0 ->
   _get_overlap_text self text
   = str_drop (Z.to_nat (- YouTubeTextSplitter.chunk_overlap self)) text).
Proof. apply overlap_text_drop. Qed.

Example get_overlap_text_examples :
  let splitter overlap :=
    {| YouTubeTextSplitter.chunk_size := 10; YouTubeTextSplitter.chunk_overlap := overlap;
       YouTubeTextSplitter.preserve_timestamps := true |} in
  _get_overlap_text (splitter 3) "hello world" = "rld" /\
  _get_overlap_text (splitter 20) "hello world" = "hello world" /\
  _get_overlap_text (splitter 0) "hello world" = "hello world" /\
  _get_overlap_text (splitter (-6)) "hello world" = "world".
Proof. vm_compute. repeat split. Qed.

(** ** split_texts_with_metadata *)

(** X21: for a constructed splitter, [split_texts_with_metadata] without a
    metadata list never fails, and returns the chunks of the first text,
    then those of the second, and so on, each text split as [split] splits
    it. *)
Theorem split_texts_concatenates_splits (py_int : string -> option Z)
        (chunk_size chunk_overlap : Z) (p : bool) (self : PDFTextSplitter.t)
        (texts : list string) :
  PDFTextSplitter.__init__ chunk_size chunk_overlap p = Ok self ->
  exists per_text : list (list pydict),
    Forall2 (fun text chunks => PDFTextSplitter.split py_int self text None = Ok chunks)
            texts per_text /\
    split_texts_with_metadata py_int self texts None = Ok (List.concat per_text).
Proof.
  intros Hinit. apply pdf_init_inv in Hinit. destruct Hinit as [Hlt ->].
  unfold split_texts_with_metadata.
  induction texts as [| text texts (per_text & Hall & Hsplit)].
  - exists []. split; [constructor | reflexivity].
  - pose proof (@pdf_split_items py_int
                  {| PDFTextSplitter.chunk_size := chunk_size;
                     PDFTextSplitter.chunk_overlap := chunk_overlap;
                     PDFTextSplitter.preserve_page_info := p |} text None
                  ltac:(cbn; lia)) as Hchunks.
    eexists (_ :: per_text). split; [constructor; [exact Hchunks | exact Hall] |].
    cbn [List.length repeat combine split_pairs List.concat].
    rewrite Hsplit.
    match goal with
    | |- res_bind _ ?k = _ =>
        change (res_bind (PDFTextSplitter.split py_int
                            {| PDFTextSplitter.chunk_size := chunk_size;
                               PDFTextSplitter.chunk_overlap := chunk_overlap;
                               PDFTextSplitter.preserve_page_info := p |} text None) k
                = Ok (map (fun i =>
                             PDFTextSplitter.make_chunk py_int
                               {| PDFTextSplitter.chunk_size := chunk_size;
                                  PDFTextSplitter.chunk_overlap := chunk_overlap;
                                  PDFTextSplitter.preserve_page_info := p |} text []
                               (Z.of_nat i) (Z.of_nat i * (chunk_size - chunk_overlap)))
                          (seq 0 (Z.to_nat ((len text + (chunk_size - chunk_overlap) - 1)
                                            / (chunk_size - chunk_overlap))))
                      ++ List.concat per_text))
    end.
    now rewrite Hchunks.
Qed.

Lemma split_texts_concatenates_splits_witness :
  exists per_text : list (list pydict),
    Forall2 (fun text chunks =>
               PDFTextSplitter.split decimal_int
                 {| PDFTextSplitter.chunk_size := 5; PDFTextSplitter.chunk_overlap := 1;
                    PDFTextSplitter.preserve_page_info := true |} text None = Ok chunks)
            ["hello world"; "abc"] per_text /\
    split_texts_with_metadata decimal_int
      {| PDFTextSplitter.chunk_size := 5; PDFTextSplitter.chunk_overlap := 1;
         PDFTextSplitter.preserve_page_info := true |} ["hello world"; "abc"] None
    = Ok (List.concat per_text).
Proof.
  exact (@split_texts_concatenates_splits decimal_int 5 1 true
           {| PDFTextSplitter.chunk_size := 5; PDFTextSplitter.chunk_overlap := 1;
              PDFTextSplitter.preserve_page_info := true |} ["hello world"; "abc"] eq_refl).
Defined.

(** ** Splitting a transcript by its segments *)

Import YouTubeTextSplitterSegments.

Lemma dict_get_del_same {V} (d : list (string * V)) (k : string) :
  dict_get (dict_del d k) k = None.
Proof.
  induction d as [| [k' v] d IH]; cbn [dict_del]; [reflexivity |].
  destruct (String.eqb k' k) eqn:E; [exact IH |].
  cbn [dict_get]. now rewrite E.
Qed.

Lemma dict_get_del_other {V} (d : list (string * V)) (k k' : string) :
  k <> k' -> dict_get (dict_del d k) k' = dict_get d k'.
Proof.
  intros Hne. induction d as [| [k0 v] d IH]; cbn [dict_del]; [reflexivity |].
  destruct (String.eqb k0 k) eqn:E; cbn [dict_get].
  - apply String.eqb_eq in E. subst k0.
    apply String.eqb_neq in Hne. now rewrite Hne.
  - now rewrite IH.
Qed.

Lemma timed_fields (segment : pyval) :
  timed segment = true ->
  py_getitem segment "text" = Ok (VStr (seg_text segment)) /\
  py_getitem segment "start" = Ok (VFloat (seg_start segment)) /\
  py_getitem segment "duration" = Ok (VFloat (seg_duration segment)).
Proof.
  unfold timed, seg_text, seg_start, seg_duration, field, py_getitem.
  destruct segment as [| | | | | | d]; try discriminate.
  destruct (dict_get d "text") as [[] |]; try discriminate.
  destruct (dict_get d "start") as [[] |]; try discriminate.
  destruct (dict_get d "duration") as [[] |]; try discriminate.
  now repeat split.
Qed.

Lemma last_timed (first_segment : pyval) (rest : list pyval) :
  forallb timed (first_segment :: rest) = true ->
  timed (List.last (first_segment :: rest) first_segment) = true.
Proof.
  intros H. rewrite forallb_forall in H. apply H. clear H.
  generalize first_segment at 2 as d. generalize first_segment as x.
  induction rest as [| y rest IH]; intros x d.
  - now left.
  - right. apply IH.
Qed.

Lemma create_chunk_metadata_timed (self : YouTubeTextSplitter.t) (base_metadata : pydict)
      (first_segment : pyval) (rest : list pyval) (chunk_id : Z) :
  forallb timed (first_segment :: rest) = true ->
  _create_chunk_metadata self base_metadata (first_segment :: rest) chunk_id
  = Ok (created base_metadata first_segment rest chunk_id).
Proof.
  intros Hall. pose proof (last_timed _ _ Hall) as Hlast.
  assert (Hfirst : timed first_segment = true)
    by (cbn [forallb] in Hall; now apply andb_prop in Hall).
  destruct (timed_fields _ Hfirst) as (_ & Hs & _).
  destruct (timed_fields _ Hlast) as (_ & Hls & Hld).
  unfold _create_chunk_metadata. rewrite Hs, Hls, Hld.
  reflexivity.
Qed.

Lemma created_fields (base_metadata : pydict) (first_segment : pyval)
      (rest : list pyval) (chunk_id : Z) :
  let md := created base_metadata first_segment rest chunk_id in
  let start_time := seg_start first_segment in
  let end_time := group_end first_segment rest in
  dict_get md "chunk_id" = Some (VInt chunk_id) /\
  dict_get md "timestamp_start" = Some (VFloat start_time) /\
  dict_get md "timestamp_end" = Some (VFloat end_time) /\
  dict_get md "duration" = Some (VFloat (end_time - start_time)%float) /\
  dict_get md "segments_included" = Some (VInt (Z.of_nat (S (List.length rest)))) /\
  dict_get md "segment_range"
  = Some (VStr (float_1f start_time ++ "s - " ++ float_1f end_time ++ "s")%string) /\
  dict_get md "transcript_segments" = None /\
  forall k, ~ In k segment_keys -> dict_get md k = dict_get base_metadata k.
Proof.
  intros md start_time end_time. subst md. unfold created.
  fold start_time end_time.
  set (written := dict_update base_metadata _).
  assert (Hw : forall k,
             dict_get written k
             = if String.eqb "segment_range" k
               then Some (VStr (float_1f start_time ++ "s - " ++ float_1f end_time ++ "s")%string)
               else if String.eqb "segments_included" k
               then Some (VInt (Z.of_nat (S (List.length rest))))
               else if String.eqb "duration" k
               then Some (VFloat (end_time - start_time)%float)
               else if String.eqb "timestamp_end" k then Some (VFloat end_time)
               else if String.eqb "timestamp_start" k then Some (VFloat start_time)
               else if String.eqb "chunk_id" k then Some (VInt chunk_id)
               else dict_get base_metadata k).
  { intros k. subst written. unfold dict_update. cbn [fold_left fst snd].
    now rewrite !dict_get_set. }
  assert (Hd : forall k,
             k <> "transcript_segments" ->
             dict_get (if dict_contains written "transcript_segments"
                       then dict_del written "transcript_segments"
                       else written) k
             = dict_get written k).
  { intros k Hk. destruct (dict_contains written "transcript_segments");
      [| reflexivity].
    apply dict_get_del_other. congruence. }
  repeat split.
  1-6: rewrite Hd by discriminate; rewrite Hw; reflexivity.
  - unfold dict_contains.
    destruct (dict_get written "transcript_segments") eqn:E;
      [apply dict_get_del_same | exact E].
  - intros k Hk. unfold segment_keys in Hk. cbn [In] in Hk.
    rewrite Hd by intuition congruence. rewrite Hw.
    repeat match goal with
           | |- context [String.eqb ?a k] =>
               destruct (String.eqb_spec a k); [exfalso; intuition congruence |]
           end.
    reflexivity.
Qed.

(** X22: the metadata of a chunk of timed segments.
    [_create_chunk_metadata] on a group of segments that are not empty and
    carry floats under [start] and [duration] never fails; it writes the
    chunk identifier, the start of the first segment, the end of the last
    one, their difference, the number of segments and the range with one
    decimal each, overwriting what the video metadata has under these keys;
    it leaves no [transcript_segments] and copies every other key. *)
Theorem create_chunk_metadata_fields (self : YouTubeTextSplitter.t)
        (base_metadata : pydict) (first_segment : pyval) (rest : list pyval)
        (chunk_id : Z) :
  forallb timed (first_segment :: rest) = true ->
  exists md,
    _create_chunk_metadata self base_metadata (first_segment :: rest) chunk_id = Ok md /\
    dict_get md "chunk_id" = Some (VInt chunk_id) /\
    dict_get md "timestamp_start" = Some (VFloat (seg_start first_segment)) /\
    dict_get md "timestamp_end" = Some (VFloat (group_end first_segment rest)) /\
    dict_get md "duration"
    = Some (VFloat (group_end first_segment rest - seg_start first_segment)%float) /\
    dict_get md "segments_included" = Some (VInt (Z.of_nat (S (List.length rest)))) /\
    dict_get md "segment_range"
    = Some (VStr (float_1f (seg_start first_segment) ++ "s - "
                  ++ float_1f (group_end first_segment rest) ++ "s")%string) /\
    dict_get md "transcript_segments" = None /\
    forall k, ~ In k segment_keys -> dict_get md k = dict_get base_metadata k.
Proof.
  intros Hall. exists (created base_metadata first_segment rest chunk_id).
  split; [now apply create_chunk_metadata_timed | apply created_fields].
Qed.

#[local] Set Warnings "-inexact-float".

Lemma create_chunk_metadata_fields_witness :
  exists md,
    _create_chunk_metadata default_youtube_splitter
      [("title", VStr "Video abc"); ("duration", VStr "10:30");
       ("transcript_segments", VList [])]
      [YouTubeTranscriptLoader.segment "First," 7.5 4.2;
       YouTubeTranscriptLoader.segment "next." 11.7 5.1] 3 = Ok md /\
    dict_get md "timestamp_start" = Some (VFloat 7.5) /\
    dict_get md "timestamp_end" = Some (VFloat (11.7 + 5.1)) /\
    dict_get md "duration" = Some (VFloat (11.7 + 5.1 - 7.5)) /\
    dict_get md "segment_range" = Some (VStr "7.5s - 16.8s") /\
    dict_get md "transcript_segments" = None /\
    dict_get md "title" = Some (VStr "Video abc").
Proof.
  destruct (@create_chunk_metadata_fields default_youtube_splitter
              [("title", VStr "Video abc"); ("duration", VStr "10:30");
               ("transcript_segments", VList [])]
              (YouTubeTranscriptLoader.segment "First," 7.5 4.2)
              [YouTubeTranscriptLoader.segment "next." 11.7 5.1] 3 eq_refl)
    as (md & Hmd & _ & Hstart & Hend & Hduration & _ & Hrange & Hsegments & Hother).
  exists md. repeat split; try assumption.
  apply (Hother "title"). cbn. intuition discriminate.
Defined.

(** ** The loop of [split_by_segments] *)

Lemma str_truthy_spec (s : string) : str_truthy s = true <-> s <> "".
Proof. destruct s; cbn; split; congruence. Qed.

Lemma str_append_length (s t : string) :
  String.length (s ++ t) = (String.length s + String.length t)%nat.
Proof. induction s as [| c s IH]; cbn; [reflexivity | now rewrite IH]. Qed.

Lemma str_append_assoc (s t u : string) : ((s ++ t) ++ u = s ++ (t ++ u))%string.
Proof. induction s as [| c s IH]; cbn; [reflexivity | now rewrite IH]. Qed.

Lemma str_append_nonempty (s t : string) : s <> "" -> (s ++ t)%string <> "".
Proof. destruct s; [congruence | discriminate]. Qed.

Lemma overlap_text_nonempty (self : YouTubeTextSplitter.t) (text : string) :
  0 <= YouTubeTextSplitter.chunk_overlap self -> text <> "" ->
  _get_overlap_text self text <> "".
Proof.
  intros Hco Htext. destruct (overlap_text_drop self text) as (Hpos & Hzero & _).
  destruct (Z.eq_dec (YouTubeTextSplitter.chunk_overlap self) 0) as [E | E].
  - now rewrite Hzero.
  - rewrite Hpos by lia. intros H. apply (f_equal String.length) in H.
    rewrite str_drop_length in H. cbn [String.length] in H.
    assert (String.length text <> 0%nat) by (destruct text; [congruence | discriminate]).
    lia.
Qed.

Lemma combine_snoc {A B} (l : list A) (l' : list B) (a : A) (b : B) :
  List.length l = List.length l' ->
  combine (l ++ [a]) (l' ++ [b]) = combine l l' ++ [(a, b)].
Proof.
  revert l'. induction l as [| x l IH]; intros [| y l'] Hlen; try discriminate.
  - reflexivity.
  - cbn [app combine]. rewrite IH by (cbn in Hlen; lia). reflexivity.
Qed.

Lemma enumerate_snoc {A} (l : list A) (x : A) :
  enumerate (l ++ [x]) = enumerate l ++ [(Z.of_nat (List.length l), x)].
Proof.
  unfold enumerate. rewrite length_app. cbn [List.length].
  rewrite Nat.add_1_r, seq_S, map_app. cbn [map Nat.add].
  apply combine_snoc. now rewrite length_map, length_seq.
Qed.

Lemma raw_texts_length (self : YouTubeTextSplitter.t) (previous : option string)
      (groups : list (list pyval)) :
  List.length (raw_texts self previous groups) = List.length groups.
Proof.
  revert previous. induction groups as [| g groups IH]; intros previous;
    cbn [raw_texts List.length]; [reflexivity | now rewrite IH].
Qed.

Lemma last_text_cons (previous : option string) (text : string) (texts : list string) :
  last_text previous (text :: texts) = last_text (Some text) texts.
Proof.
  unfold last_text. cbn [map]. generalize (Some text) as a.
  generalize (map Some texts) as l. clear text texts. intros l. revert previous.
  induction l as [| y l IH]; intros d a; [reflexivity |].
  transitivity (List.last (y :: l) d); [reflexivity |].
  now rewrite !IH.
Qed.

Lemma raw_texts_snoc (self : YouTubeTextSplitter.t) (previous : option string)
      (groups : list (list pyval)) (g : list pyval) :
  raw_texts self previous (groups ++ [g])
  = raw_texts self previous groups
    ++ [raw_text self (last_text previous (raw_texts self previous groups)) g].
Proof.
  revert previous. induction groups as [| g0 groups IH]; intros previous.
  - reflexivity.
  - cbn [app raw_texts]. rewrite IH, last_text_cons. reflexivity.
Qed.

Lemma last_text_snoc (previous : option string) (texts : list string) (text : string) :
  last_text previous (texts ++ [text]) = Some text.
Proof. unfold last_text. rewrite map_app. cbn [map]. apply last_last. Qed.

Lemma chunks_for_snoc (self : YouTubeTextSplitter.t) (base_metadata : pydict)
      (groups : list (list pyval)) (g : list pyval) :
  chunks_for self base_metadata (groups ++ [g])
  = chunks_for self base_metadata groups
    ++ [chunk_of (str_strip (raw_text self (last_text None (raw_texts self None groups)) g),
                  group_metadata base_metadata g (Z.of_nat (List.length groups)))].
Proof.
  unfold chunks_for. rewrite raw_texts_snoc.
  rewrite combine_snoc by now rewrite raw_texts_length.
  rewrite enumerate_snoc, map_app. cbn [map].
  rewrite length_combine, raw_texts_length, Nat.min_id. reflexivity.
Qed.

Lemma join_texts_snoc (segments : list pyval) (segment : pyval) :
  segments <> [] ->
  join_texts (segments ++ [segment])
  = (join_texts segments ++ " " ++ seg_text segment)%string.
Proof.
  unfold join_texts. intros Hne.
  induction segments as [| s segments IH]; [congruence |].
  destruct segments as [| s' segments]; [reflexivity |].
  cbn [app map String.concat] in *.
  rewrite IH by discriminate. now rewrite !str_append_assoc.
Qed.

Lemma raw_text_snoc (self : YouTubeTextSplitter.t) (previous : option string)
      (segments : list pyval) (segment : pyval) :
  segments <> [] ->
  raw_text self previous (segments ++ [segment])
  = (raw_text self previous segments ++ " " ++ seg_text segment)%string.
Proof.
  intros Hne. unfold raw_text. destruct previous as [text |];
    rewrite join_texts_snoc by assumption; [| reflexivity].
  now rewrite !str_append_assoc.
Qed.

Lemma create_group_metadata (self : YouTubeTextSplitter.t) (base_metadata : pydict)
      (segments : list pyval) (chunk_id : Z) :
  forallb timed segments = true ->
  _create_chunk_metadata self base_metadata segments chunk_id
  = Ok (group_metadata base_metadata segments chunk_id).
Proof.
  destruct segments as [| first_segment rest]; [reflexivity |].
  apply create_chunk_metadata_timed.
Qed.

Lemma append_chunk_timed (self : YouTubeTextSplitter.t) (base_metadata : pydict)
      (st : loop) :
  forallb timed (current_segments st) = true ->
  append_chunk self base_metadata st
  = Ok (chunks st
        ++ [chunk_of (str_strip (current_chunk st),
                      group_metadata base_metadata (current_segments st) (chunk_id st))]).
Proof.
  intros Ht. unfold append_chunk. now rewrite create_group_metadata.
Qed.

Lemma loop_body_timed (self : YouTubeTextSplitter.t) (base_metadata : pydict)
      (st : loop) (segment : pyval) :
  timed segment = true ->
  forallb timed (current_segments st) = true ->
  loop_body self base_metadata st segment
  = Ok (if (YouTubeTextSplitter.chunk_size self
            <? len (current_chunk st ++ " " ++ seg_text segment)%string)
           && str_truthy (current_chunk st)
        then
          {| chunks :=
               chunks st
               ++ [chunk_of (str_strip (current_chunk st),
                             group_metadata base_metadata (current_segments st)
                                            (chunk_id st))];
             current_chunk :=
               (if str_truthy (_get_overlap_text self (current_chunk st))
                then _get_overlap_text self (current_chunk st) ++ " " ++ seg_text segment
                else seg_text segment)%string;
             current_segments := [segment];
             chunk_id := chunk_id st + 1 |}
        else
          {| chunks := chunks st;
             current_chunk :=
               (current_chunk st
                ++ (if str_truthy (current_chunk st)
                    then " " ++ seg_text segment
                    else seg_text segment))%string;
             current_segments := current_segments st ++ [segment];
             chunk_id := chunk_id st |}).
Proof.
  intros Hs Hst. destruct (timed_fields _ Hs) as (Htext & _ & _).
  unfold loop_body. rewrite Htext. cbn [res_bind].
  destruct ((_ <? _) && _); [| reflexivity].
  now rewrite append_chunk_timed.
Qed.

Lemma forallb_snoc {A} (f : A -> bool) (l : list A) (x : A) :
  forallb f l = true -> f x = true -> forallb f (l ++ [x]) = true.
Proof. intros Hl Hx. rewrite forallb_app, Hl. cbn. now rewrite Hx. Qed.

Lemma loop_body_invariant (self : YouTubeTextSplitter.t) (base_metadata : pydict)
      (st : loop) (groups : list (list pyval)) (segment : pyval) :
  0 <= YouTubeTextSplitter.chunk_overlap self ->
  loop_invariant self base_metadata st groups ->
  timed segment = true ->
  exists st' groups',
    loop_body self base_metadata st segment = Ok st' /\
    loop_invariant self base_metadata st' groups' /\
    List.concat groups' ++ current_segments st'
    = List.concat groups ++ current_segments st ++ [segment].
Proof.
  intros Hco (Hchunks & Hid & Hne & Ht & Hcur & Hcurne & Hgne & Hgt & Hbound & Hcb) Hs.
  rewrite loop_body_timed by assumption.
  assert (Htruthy : str_truthy (current_chunk st) = true) by now apply str_truthy_spec.
  rewrite Htruthy, andb_true_r.
  destruct (Z.ltb_spec (YouTubeTextSplitter.chunk_size self)
                       (len (current_chunk st ++ " " ++ seg_text segment)%string))
    as [Hover | Hfits].
  - (* the chunk is closed *)
    pose proof (@overlap_text_nonempty self (current_chunk st) Hco Hcurne) as Hov.
    apply str_truthy_spec in Hov. rewrite Hov.
    eexists; exists (groups ++ [current_segments st]). split; [reflexivity |].
    split.
    + unfold loop_invariant.
      cbn [chunks current_chunk current_segments chunk_id].
      rewrite chunks_for_snoc, raw_texts_snoc, last_text_snoc, <- Hcur, <- Hchunks, Hid.
      rewrite length_app. cbn [List.length].
      repeat match goal with |- _ /\ _ => split end.
      * reflexivity.
      * lia.
      * discriminate.
      * cbn [forallb]. now rewrite Hs.
      * unfold raw_text, join_texts. reflexivity.
      * apply str_append_nonempty. now apply str_truthy_spec.
      * apply Forall_app. split; [assumption | now constructor].
      * apply Forall_app. split; [assumption | now constructor].
      * rewrite combine_snoc by now rewrite raw_texts_length.
        apply Forall_app. split; [assumption |]. constructor; [| constructor].
        cbn [fst snd]. exact Hcb.
      * cbn [List.length]. lia.
    + cbn [current_segments]. rewrite concat_app. cbn [List.concat].
      now rewrite app_nil_r, <- app_assoc.
  - (* the segment joins the chunk *)
    eexists; exists groups. split; [reflexivity |]. split.
    + unfold loop_invariant.
      cbn [chunks current_chunk current_segments chunk_id].
      repeat match goal with |- _ /\ _ => split end; try assumption.
      * now destruct (current_segments st).
      * now apply forallb_snoc.
      * rewrite raw_text_snoc by assumption. now rewrite <- Hcur.
      * now apply str_append_nonempty.
      * intros _. exact Hfits.
    + reflexivity.
Qed.

Lemma run_loop_invariant (self : YouTubeTextSplitter.t) (base_metadata : pydict)
      (segments : list pyval) :
  0 <= YouTubeTextSplitter.chunk_overlap self ->
  forallb timed segments = true ->
  forall (st : loop) (groups : list (list pyval)),
    loop_invariant self base_metadata st groups ->
    exists st' groups',
      run_loop self base_metadata st segments = Ok st' /\
      loop_invariant self base_metadata st' groups' /\
      List.concat groups' ++ current_segments st'
      = List.concat groups ++ current_segments st ++ segments.
Proof.
  intros Hco. induction segments as [| segment segments IH]; intros Hall st groups Hinv.
  - exists st, groups. now rewrite app_nil_r.
  - cbn [forallb] in Hall. apply andb_prop in Hall. destruct Hall as [Hs Hall].
    destruct (@loop_body_invariant self base_metadata st groups segment Hco Hinv Hs) as (st1 & groups1 & Hbody & Hinv1 & Hcat1).
    destruct (IH Hall st1 groups1 Hinv1) as (st' & groups' & Hrun & Hinv' & Hcat').
    exists st', groups'. cbn [run_loop]. rewrite Hbody. cbn [res_bind].
    split; [assumption | split; [assumption |]].
    rewrite Hcat', app_assoc, Hcat1, <- !app_assoc. reflexivity.
Qed.

(** The run of [split_by_segments] on timed segments the first of which has
    a text: the chunks are those of consecutive groups. *)
Lemma split_by_segments_trace (self : YouTubeTextSplitter.t) (base_metadata : pydict)
      (first_segment : pyval) (rest : list pyval) :
  0 <= YouTubeTextSplitter.chunk_overlap self ->
  forallb timed (first_segment :: rest) = true ->
  seg_text first_segment <> "" ->
  exists groups,
    split_by_segments self (first_segment :: rest) base_metadata
    = Ok (chunks_for self base_metadata groups) /\
    List.concat groups = first_segment :: rest /\
    Forall (fun g => g <> []) groups /\
    Forall (fun g => forallb timed g = true) groups /\
    Forall (fun gr => (2 <= List.length (fst gr))%nat ->
                      len (snd gr) <= YouTubeTextSplitter.chunk_size self)
           (combine groups (raw_texts self None groups)).
Proof.
  intros Hco Hall Htext. cbn [forallb] in Hall. apply andb_prop in Hall.
  destruct Hall as [Hfirst Hrest].
  unfold split_by_segments. cbn [run_loop].
  rewrite loop_body_timed by (assumption || reflexivity).
  cbn [chunks current_chunk current_segments chunk_id str_truthy andb app append].
  rewrite andb_false_r. cbn [res_bind].
  match goal with
  | |- context [run_loop self base_metadata ?st rest] =>
      destruct (@run_loop_invariant self base_metadata rest Hco Hrest st [])
        as (st' & groups & Hrun & Hinv & Hcat)
  end.
  - unfold loop_invariant. cbn [chunks current_chunk current_segments chunk_id].
    repeat match goal with |- _ /\ _ => split end;
      try (constructor; fail); try reflexivity; try discriminate.
    + cbn [forallb]. now rewrite Hfirst.
    + exact Htext.
    + cbn [List.length]. lia.
  - rewrite Hrun. cbn [res_bind].
    destruct Hinv as (Hchunks & Hid & Hne & Ht & Hcur & Hcurne & Hgne & Hgt & Hbound & Hcb).
    apply str_truthy_spec in Hcurne. rewrite Hcurne.
    rewrite append_chunk_timed by assumption.
    exists (groups ++ [current_segments st']).
    rewrite chunks_for_snoc, <- Hcur, <- Hchunks, Hid.
    repeat match goal with |- _ /\ _ => split end.
    + reflexivity.
    + rewrite concat_app. cbn [List.concat]. now rewrite app_nil_r.
    + apply Forall_app. split; [assumption | now constructor].
    + apply Forall_app. split; [assumption | now constructor].
    + rewrite raw_texts_snoc, combine_snoc by now rewrite raw_texts_length.
      apply Forall_app. split; [assumption |]. constructor; [| constructor].
      cbn [fst snd]. now rewrite <- Hcur.
Qed.

Lemma chunk_for_text (base_metadata : pydict) (x : Z * (list pyval * string)) :
  chunk_text (chunk_for base_metadata x) = str_strip (snd (snd x)).
Proof. reflexivity. Qed.

Lemma chunk_for_metadata (base_metadata : pydict) (x : Z * (list pyval * string)) :
  chunk_metadata (chunk_for base_metadata x)
  = group_metadata base_metadata (fst (snd x)) (fst x).
Proof. reflexivity. Qed.

Lemma chunk_for_segments_included (base_metadata : pydict)
      (x : Z * (list pyval * string)) :
  fst (snd x) <> [] ->
  segments_included (chunk_for base_metadata x) = Z.of_nat (List.length (fst (snd x))).
Proof.
  intros Hne. unfold segments_included. rewrite chunk_for_metadata.
  destruct (fst (snd x)) as [| first_segment rest]; [congruence |].
  cbn [group_metadata].
  destruct (created_fields base_metadata first_segment rest (fst x))
    as (_ & _ & _ & _ & Hn & _).
  now rewrite Hn.
Qed.

Lemma chunks_for_texts (self : YouTubeTextSplitter.t) (base_metadata : pydict)
      (groups : list (list pyval)) :
  map chunk_text (chunks_for self base_metadata groups)
  = map str_strip (raw_texts self None groups).
Proof.
  unfold chunks_for, enumerate.
  rewrite length_combine, raw_texts_length, Nat.min_id.
  pose proof (raw_texts_length self None groups) as Hlen.
  revert Hlen. generalize (raw_texts self None groups) as texts.
  assert (Hids : List.length (map Z.of_nat (seq 0 (List.length groups)))
                 = List.length groups) by now rewrite length_map, length_seq.
  revert Hids. generalize (map Z.of_nat (seq 0 (List.length groups))) as ids.
  induction groups as [| g groups IH]; intros [| i ids] Hids [| text texts] Hlen;
    try discriminate; [reflexivity |].
  cbn [combine map]. rewrite chunk_for_text. cbn [snd]. f_equal.
  apply IH; cbn in *; lia.
Qed.

Lemma chunks_for_created (self : YouTubeTextSplitter.t) (base_metadata : pydict)
      (groups : list (list pyval)) :
  Forall (fun g => forallb timed g = true) groups ->
  map (fun chunk => Ok (chunk_metadata chunk)) (chunks_for self base_metadata groups)
  = map (fun ig => _create_chunk_metadata self base_metadata (snd ig) (fst ig))
        (enumerate groups).
Proof.
  unfold chunks_for, enumerate.
  rewrite length_combine, raw_texts_length, Nat.min_id.
  pose proof (raw_texts_length self None groups) as Hlen.
  revert Hlen. generalize (raw_texts self None groups) as texts.
  generalize (map Z.of_nat (seq 0 (List.length groups))) as ids.
  induction groups as [| g groups IH]; intros [| i ids] [| text texts] Hlen Hall;
    try discriminate; try reflexivity.
  inversion Hall as [| ? ? Hg Hgroups]; subst.
  cbn [combine map]. rewrite chunk_for_metadata. cbn [fst snd].
  rewrite create_group_metadata by assumption. f_equal.
  apply IH; [cbn in Hlen; lia | assumption].
Qed.

Lemma chunks_for_counts (self : YouTubeTextSplitter.t) (base_metadata : pydict)
      (groups : list (list pyval)) :
  Forall (fun g => g <> []) groups ->
  map segments_included (chunks_for self base_metadata groups)
  = map (fun g => Z.of_nat (List.length g)) groups.
Proof.
  unfold chunks_for, enumerate.
  rewrite length_combine, raw_texts_length, Nat.min_id.
  pose proof (raw_texts_length self None groups) as Hlen.
  revert Hlen. generalize (raw_texts self None groups) as texts.
  assert (Hids : List.length (map Z.of_nat (seq 0 (List.length groups)))
                 = List.length groups) by now rewrite length_map, length_seq.
  revert Hids. generalize (map Z.of_nat (seq 0 (List.length groups))) as ids.
  induction groups as [| g groups IH]; intros [| i ids] Hids [| text texts] Hlen Hall;
    try discriminate; [reflexivity |].
  inversion Hall as [| ? ? Hg Hgroups]; subst.
  cbn [combine map]. rewrite chunk_for_segments_included by assumption.
  cbn [fst snd]. f_equal. apply IH; cbn in *; (lia || assumption).
Qed.

Lemma total_lengths {A} (groups : list (list A)) :
  total (map (fun g => Z.of_nat (List.length g)) groups)
  = Z.of_nat (List.length (List.concat groups)).
Proof.
  unfold total. induction groups as [| g groups IH]; [reflexivity |].
  cbn [map fold_right List.concat]. rewrite IH, length_app. lia.
Qed.

Lemma chunks_for_In (self : YouTubeTextSplitter.t) (base_metadata : pydict)
      (groups : list (list pyval)) (chunk : pydict) :
  In chunk (chunks_for self base_metadata groups) ->
  exists i g text,
    chunk = chunk_for base_metadata (i, (g, text)) /\
    In (g, text) (combine groups (raw_texts self None groups)).
Proof.
  unfold chunks_for. intros Hin. apply in_map_iff in Hin.
  destruct Hin as ([i [g text]] & <- & Hin).
  exists i, g, text. split; [reflexivity |].
  unfold enumerate in Hin. now apply in_combine_r in Hin.
Qed.

(** X23: how [split_by_segments] groups the segments.  With a
    [chunk_overlap] that is not negative, on segments that carry a string
    and two floats, the first with a text that is not empty, the call
    returns; its chunks are those of consecutive groups of segments, none
    empty, that together are the whole list in its order.  Chunk [i] has
    the metadata [_create_chunk_metadata] gives for group [i] with
    identifier [i]; its text is, stripped, the texts of its segments joined
    by spaces, preceded from the second chunk on by the overlap kept of the
    text gathered for the chunk before and a space. *)
Theorem split_by_segments_groups_the_segments (self : YouTubeTextSplitter.t)
        (metadata : pydict) (first_segment : pyval) (rest : list pyval) :
  0 <= YouTubeTextSplitter.chunk_overlap self ->
  forallb timed (first_segment :: rest) = true ->
  seg_text first_segment <> "" ->
  exists (groups : list (list pyval)) (chunks : list pydict),
    split_by_segments self (first_segment :: rest) metadata = Ok chunks /\
    List.concat groups = first_segment :: rest /\
    Forall (fun g => g <> []) groups /\
    map (fun chunk => Ok (chunk_metadata chunk)) chunks
    = map (fun ig => _create_chunk_metadata self metadata (snd ig) (fst ig))
          (enumerate groups) /\
    map chunk_text chunks = map str_strip (raw_texts self None groups).
Proof.
  intros Hco Hall Htext.
  destruct (@split_by_segments_trace self metadata first_segment rest Hco Hall Htext)
    as (groups & Hsplit & Hcat & Hne & Ht & _).
  exists groups, (chunks_for self metadata groups).
  split; [assumption |]. split; [assumption |]. split; [assumption |].
  split; [now apply chunks_for_created | apply chunks_for_texts].
Qed.

Lemma split_by_segments_groups_the_segments_witness :
  exists (groups : list (list pyval)) (chunks : list pydict),
    split_by_segments short_splitter (hello_segment :: world_again)
                      [("title", VStr "Video abc")] = Ok chunks /\
    List.concat groups = hello_segment :: world_again /\
    Forall (fun g => g <> []) groups /\
    map (fun chunk => Ok (chunk_metadata chunk)) chunks
    = map (fun ig => _create_chunk_metadata short_splitter [("title", VStr "Video abc")]
                                            (snd ig) (fst ig))
          (enumerate groups) /\
    map chunk_text chunks = map str_strip (raw_texts short_splitter None groups).
Proof.
  apply (@split_by_segments_groups_the_segments short_splitter
           [("title", VStr "Video abc")] hello_segment world_again).
  - cbn. lia.
  - reflexivity.
  - discriminate.
Defined.

Lemma str_lstrip_length (s : string) :
  (String.length (str_lstrip s) <= String.length s)%nat.
Proof.
  induction s as [| c s IH]; cbn [str_lstrip]; [lia |].
  destruct (py_isspace c); cbn [String.length]; lia.
Qed.

Lemma str_rstrip_length (s : string) :
  (String.length (str_rstrip s) <= String.length s)%nat.
Proof.
  induction s as [| c s IH]; cbn [str_rstrip]; [lia |].
  destruct (str_rstrip s); [destruct (py_isspace c) |]; cbn [String.length] in *; lia.
Qed.

Lemma str_strip_length (s : string) : len (str_strip s) <= len s.
Proof.
  unfold len, str_strip.
  pose proof (str_rstrip_length (str_lstrip s)). pose proof (str_lstrip_length s). lia.
Qed.

(** X24: the size of the chunks of [split_by_segments].  Under the
    conditions of X23, a chunk made of two or more segments is never longer
    than [chunk_size]: a chunk longer than [chunk_size] has
    [segments_included = 1]. *)
Theorem split_by_segments_long_chunks_hold_one_segment (self : YouTubeTextSplitter.t)
        (metadata : pydict) (first_segment : pyval) (rest : list pyval)
        (chunks : list pydict) (chunk : pydict) :
  0 <= YouTubeTextSplitter.chunk_overlap self ->
  forallb timed (first_segment :: rest) = true ->
  seg_text first_segment <> "" ->
  split_by_segments self (first_segment :: rest) metadata = Ok chunks ->
  In chunk chunks ->
  YouTubeTextSplitter.chunk_size self < len (chunk_text chunk) ->
  segments_included chunk = 1.
Proof.
  intros Hco Hall Htext Hsplit Hin Hlong.
  destruct (@split_by_segments_trace self metadata first_segment rest Hco Hall Htext)
    as (groups & Hsplit' & _ & Hne & _ & Hbound).
  rewrite Hsplit' in Hsplit. injection Hsplit as <-.
  apply chunks_for_In in Hin. destruct Hin as (i & g & text & -> & Hin).
  rewrite Forall_forall in Hbound, Hne.
  specialize (Hbound (g, text) Hin). cbn [fst snd] in Hbound.
  apply in_combine_l in Hin. specialize (Hne g Hin).
  rewrite chunk_for_text in Hlong. cbn [snd] in Hlong.
  rewrite chunk_for_segments_included by assumption. cbn [fst snd].
  pose proof (str_strip_length text).
  destruct g as [| s1 [| s2 g]]; [congruence | reflexivity |].
  cbn [List.length] in Hbound. lia.
Qed.

Lemma split_by_segments_long_chunks_hold_one_segment_witness :
  segments_included
    (chunk_of ("llo world",
               created [("title", VStr "Video abc")]
                       (YouTubeTranscriptLoader.segment "world" 1.5 2) [] 1))
  = 1.
Proof.
  apply (@split_by_segments_long_chunks_hold_one_segment
           {| YouTubeTextSplitter.chunk_size := 8;
              YouTubeTextSplitter.chunk_overlap := 3;
              YouTubeTextSplitter.preserve_timestamps := true |}
           [("title", VStr "Video abc")] hello_segment world_again
           (chunks_for {| YouTubeTextSplitter.chunk_size := 8;
                          YouTubeTextSplitter.chunk_overlap := 3;
                          YouTubeTextSplitter.preserve_timestamps := true |}
                       [("title", VStr "Video abc")]
                       [[hello_segment];
                        [YouTubeTranscriptLoader.segment "world" 1.5 2];
                        [YouTubeTranscriptLoader.segment "again" 3.5 1]])).
  - cbn. lia.
  - reflexivity.
  - discriminate.
  - vm_compute. reflexivity.
  - right. left. vm_compute. reflexivity.
  - vm_compute. reflexivity.
Defined.

(** X25: [split] on a loaded video.  When [preserve_timestamps] is set and
    the metadata hold a list of timed segments under [transcript_segments]
    (the first with a text, the overlap not negative), [split] returns,
    whatever [transcript_text] is, what [split_by_segments] returns for
    these segments: at least one chunk, every segment counted in exactly
    one chunk, and in the metadata of every chunk no [transcript_segments]
    but every key of the video metadata that [_create_chunk_metadata] does
    not write. *)
Theorem split_counts_every_segment_once (self : YouTubeTextSplitter.t)
        (transcript_text : string) (metadata : pydict)
        (first_segment : pyval) (rest : list pyval) :
  YouTubeTextSplitter.preserve_timestamps self = true ->
  dict_get metadata "transcript_segments" = Some (VList (first_segment :: rest)) ->
  0 <= YouTubeTextSplitter.chunk_overlap self ->
  forallb timed (first_segment :: rest) = true ->
  seg_text first_segment <> "" ->
  exists chunks,
    split self transcript_text metadata = Ok chunks /\
    split_by_segments self (first_segment :: rest) metadata = Ok chunks /\
    chunks <> [] /\
    total (map segments_included chunks) = Z.of_nat (S (List.length rest)) /\
    Forall (fun chunk =>
              1 <= segments_included chunk /\
              dict_get (chunk_metadata chunk) "transcript_segments" = None /\
              forall k, ~ In k segment_keys ->
                        dict_get (chunk_metadata chunk) k = dict_get metadata k)
           chunks.
Proof.
  intros Hp Hsegments Hco Hall Htext.
  destruct (@split_by_segments_trace self metadata first_segment rest Hco Hall Htext)
    as (groups & Hsplit & Hcat & Hne & _ & _).
  exists (chunks_for self metadata groups).
  split; [| split; [exact Hsplit | split; [| split]]].
  - unfold split, dict_contains, py_getitem. rewrite Hp, Hsegments. exact Hsplit.
  - destruct groups as [| g groups]; [discriminate |].
    unfold chunks_for, enumerate. cbn. discriminate.
  - rewrite chunks_for_counts by assumption.
    rewrite total_lengths, Hcat. reflexivity.
  - apply Forall_forall. intros chunk Hin.
    apply chunks_for_In in Hin. destruct Hin as (i & g & text & -> & Hin).
    apply in_combine_l in Hin. rewrite Forall_forall in Hne. specialize (Hne g Hin).
    rewrite chunk_for_segments_included, chunk_for_metadata by assumption.
    cbn [fst snd]. destruct g as [| s1 g]; [congruence |].
    cbn [group_metadata List.length].
    destruct (created_fields metadata s1 g i) as (_ & _ & _ & _ & _ & _ & Hgone & Hkept).
    split; [lia |]. split; assumption.
Qed.

Lemma split_counts_every_segment_once_witness :
  exists chunks,
    split short_splitter "not read"
          [("title", VStr "Video abc");
           ("transcript_segments", VList (hello_segment :: world_again))] = Ok chunks /\
    split_by_segments short_splitter (hello_segment :: world_again)
          [("title", VStr "Video abc");
           ("transcript_segments", VList (hello_segment :: world_again))] = Ok chunks /\
    chunks <> [] /\
    total (map segments_included chunks) = 3 /\
    Forall (fun chunk =>
              1 <= segments_included chunk /\
              dict_get (chunk_metadata chunk) "transcript_segments" = None /\
              forall k, ~ In k segment_keys ->
                        dict_get (chunk_metadata chunk) k
                        = dict_get [("title", VStr "Video abc");
                                    ("transcript_segments",
                                     VList (hello_segment :: world_again))] k)
           chunks.
Proof.
  apply (@split_counts_every_segment_once short_splitter "not read"
           [("title", VStr "Video abc");
            ("transcript_segments", VList (hello_segment :: world_again))]
           hello_segment world_again).
  - reflexivity.
  - reflexivity.
  - cbn. lia.
  - reflexivity.
  - discriminate.
Defined.

(** ** A transcript that fits one chunk *)

Lemma join_texts_grows (segments more : list pyval) :
  (String.length (join_texts segments)
   <= String.length (join_texts (segments ++ more)))%nat.
Proof.
  induction more as [| segment more IH] using rev_ind.
  - now rewrite app_nil_r.
  - destruct segments as [| s segments].
    + cbn. lia.
    + rewrite app_assoc, join_texts_snoc by discriminate.
      rewrite str_append_length. lia.
Qed.

Lemma run_loop_fits (self : YouTubeTextSplitter.t) (base_metadata : pydict)
      (rest : list pyval) :
  forall st : loop,
    current_segments st <> [] ->
    forallb timed (current_segments st) = true ->
    current_chunk st = join_texts (current_segments st) ->
    current_chunk st <> "" ->
    forallb timed rest = true ->
    len (join_texts (current_segments st ++ rest)) <= YouTubeTextSplitter.chunk_size self ->
    run_loop self base_metadata st rest
    = Ok {| chunks := chunks st;
            current_chunk := join_texts (current_segments st ++ rest);
            current_segments := current_segments st ++ rest;
            chunk_id := chunk_id st |}.
Proof.
  induction rest as [| segment rest IH]; intros st Hne Ht Hcur Hcurne Hrest Hfits.
  - cbn [run_loop]. rewrite app_nil_r, <- Hcur. now destruct st.
  - cbn [forallb] in Hrest. apply andb_prop in Hrest. destruct Hrest as [Hs Hrest].
    cbn [run_loop]. rewrite loop_body_timed by assumption.
    assert (Htruthy : str_truthy (current_chunk st) = true) by now apply str_truthy_spec.
    assert (Hjoin : (current_chunk st ++ " " ++ seg_text segment)%string
                    = join_texts (current_segments st ++ [segment]))
      by now rewrite join_texts_snoc, Hcur.
    rewrite Htruthy, andb_true_r, Hjoin.
    replace (current_segments st ++ segment :: rest)
      with ((current_segments st ++ [segment]) ++ rest) in *
      by now rewrite <- app_assoc.
    pose proof (join_texts_grows (current_segments st ++ [segment]) rest) as Hgrow.
    destruct (Z.ltb_spec (YouTubeTextSplitter.chunk_size self)
                         (len (join_texts (current_segments st ++ [segment]))))
      as [Hover | _]; [unfold len in *; lia |].
    cbn [res_bind]. rewrite IH; cbn [chunks current_chunk current_segments chunk_id];
      try assumption; try reflexivity.
    + now destruct (current_segments st).
    + now apply forallb_snoc.
    + rewrite <- Hjoin. now apply str_append_nonempty.
Qed.

(** X26: a transcript that fits one chunk.  When the texts of the segments
    joined by spaces are not longer than [chunk_size], [split_by_segments]
    returns exactly one chunk, whatever the overlap: its text is the joined
    texts, stripped, and its metadata are those of all the segments, with
    identifier 0. *)
Theorem split_by_segments_single_chunk (self : YouTubeTextSplitter.t)
        (metadata : pydict) (first_segment : pyval) (rest : list pyval) :
  forallb timed (first_segment :: rest) = true ->
  seg_text first_segment <> "" ->
  len (join_texts (first_segment :: rest)) <= YouTubeTextSplitter.chunk_size self ->
  exists chunk_metadata,
    _create_chunk_metadata self metadata (first_segment :: rest) 0 = Ok chunk_metadata /\
    split_by_segments self (first_segment :: rest) metadata
    = Ok [chunk_of (str_strip (join_texts (first_segment :: rest)), chunk_metadata)].
Proof.
  intros Hall Htext Hfits.
  exists (created metadata first_segment rest 0).
  split; [now apply create_chunk_metadata_timed |].
  pose proof Hall as Hall'. cbn [forallb] in Hall'. apply andb_prop in Hall'.
  destruct Hall' as [Hfirst Hrest].
  unfold split_by_segments. cbn [run_loop].
  rewrite loop_body_timed by (assumption || reflexivity).
  cbn [chunks current_chunk current_segments chunk_id str_truthy andb app append].
  rewrite andb_false_r. cbn [res_bind].
  rewrite run_loop_fits; cbn [chunks current_chunk current_segments chunk_id app];
    try assumption; try reflexivity; try discriminate.
  - cbn [res_bind current_chunk].
    assert (Hne : join_texts (first_segment :: rest) <> "").
    { unfold join_texts. cbn [map String.concat].
      destruct (map seg_text rest); [assumption | now apply str_append_nonempty]. }
    apply str_truthy_spec in Hne. rewrite Hne.
    now rewrite append_chunk_timed.
  - cbn [forallb]. now rewrite Hfirst.
Qed.

Lemma split_by_segments_single_chunk_witness :
  exists chunk_metadata,
    _create_chunk_metadata default_youtube_splitter [("title", VStr "Video abc")]
                           (hello_segment :: world_again) 0 = Ok chunk_metadata /\
    split_by_segments default_youtube_splitter (hello_segment :: world_again)
                      [("title", VStr "Video abc")]
    = Ok [chunk_of (str_strip (join_texts (hello_segment :: world_again)),
                    chunk_metadata)].
Proof.
  apply (@split_by_segments_single_chunk default_youtube_splitter
           [("title", VStr "Video abc")] hello_segment world_again).
  - reflexivity.
  - discriminate.
  - vm_compute. discriminate.
Defined.

(** ** Segments that are not as a transcript has them *)

Lemma run_loop_app (self : YouTubeTextSplitter.t) (base_metadata : pydict)
      (segments more : list pyval) (st : loop) :
  run_loop self base_metadata st (segments ++ more)
  = let? st' := run_loop self base_metadata st segments in
    run_loop self base_metadata st' more.
Proof.
  revert st. induction segments as [| segment segments IH]; intros st; [reflexivity |].
  cbn [app run_loop]. destruct (loop_body self base_metadata st segment) as [st1 | e];
    cbn [res_bind]; [apply IH | reflexivity].
Qed.

Lemma run_loop_timed (self : YouTubeTextSplitter.t) (base_metadata : pydict)
      (segments : list pyval) :
  forallb timed segments = true ->
  forall st : loop,
    forallb timed (current_segments st) = true ->
    exists st', run_loop self base_metadata st segments = Ok st'.
Proof.
  induction segments as [| segment segments IH]; intros Hall st Hst.
  - now exists st.
  - cbn [forallb] in Hall. apply andb_prop in Hall. destruct Hall as [Hs Hall].
    cbn [run_loop]. rewrite loop_body_timed by assumption. cbn [res_bind].
    apply IH; [assumption |].
    destruct ((_ <? _) && _); cbn [current_segments forallb].
    + now rewrite Hs.
    + now apply forallb_snoc.
Qed.

(** X27: a segment without a text stops [split_by_segments].  After any
    number of timed segments, a segment that is no mapping, or whose [text]
    is no string, makes the call raise [TypeError], and a mapping without
    [text] makes it raise [KeyError] naming [text]; the chunks made so far
    are lost with it, whatever follows. *)
Theorem split_by_segments_rejects_a_segment_without_text
        (self : YouTubeTextSplitter.t) (metadata : pydict)
        (good : list pyval) (bad : pyval) (rest : list pyval) :
  forallb timed good = true ->
  (forall text, field bad "text" <> Some (VStr text)) ->
  split_by_segments self (good ++ bad :: rest) metadata = Raise (text_error bad).
Proof.
  intros Hgood Hbad. unfold split_by_segments. rewrite run_loop_app.
  destruct (@run_loop_timed self metadata good Hgood
              {| chunks := []; current_chunk := ""; current_segments := [];
                 chunk_id := 0 |} eq_refl) as (st & Hst).
  rewrite Hst. cbn [res_bind run_loop]. unfold loop_body, py_getitem, text_error.
  unfold field in Hbad.
  destruct bad as [| | | | | | d]; try reflexivity.
  destruct (dict_get d "text") as [[] |]; try reflexivity.
  now destruct (Hbad s).
Qed.

Lemma split_by_segments_rejects_a_segment_without_text_witness :
  split_by_segments short_splitter
    ((hello_segment :: world_again)
     ++ VDict [("start", VFloat 4.5); ("duration", VFloat 1)] :: [hello_segment]) []
  = Raise (KeyError "'text'").
Proof.
  apply (@split_by_segments_rejects_a_segment_without_text short_splitter []
           (hello_segment :: world_again)
           (VDict [("start", VFloat 4.5); ("duration", VFloat 1)]) [hello_segment]).
  - reflexivity.
  - discriminate.
Defined.

Lemma run_loop_empty_texts (self : YouTubeTextSplitter.t) (base_metadata : pydict)
      (segments : list pyval) :
  Forall (fun segment => field segment "text" = Some (VStr "")) segments ->
  forall seen : list pyval,
    run_loop self base_metadata
             {| chunks := []; current_chunk := ""; current_segments := seen;
                chunk_id := 0 |} segments
    = Ok {| chunks := []; current_chunk := ""; current_segments := seen ++ segments;
            chunk_id := 0 |}.
Proof.
  induction 1 as [| segment segments Hs _ IH]; intros seen.
  - now rewrite app_nil_r.
  - cbn [run_loop]. unfold loop_body at 1.
    assert (Htext : py_getitem segment "text" = Ok (VStr "")).
    { unfold field in Hs. destruct segment; try discriminate.
      unfold py_getitem. now rewrite Hs. }
    rewrite Htext.
    cbn [res_bind chunks current_chunk current_segments chunk_id str_truthy append].
    rewrite andb_false_r. cbn [res_bind]. rewrite IH, <- app_assoc. reflexivity.
Qed.

(** X28: segments without words leave no chunk.  When the text of every
    segment is the empty string, [split_by_segments] returns the empty
    list, however many segments there are and whatever else they hold:
    their timestamps appear in no chunk. *)
Theorem split_by_segments_drops_empty_texts (self : YouTubeTextSplitter.t)
        (metadata : pydict) (segments : list pyval) :
  Forall (fun segment => field segment "text" = Some (VStr "")) segments ->
  split_by_segments self segments metadata = Ok [].
Proof.
  intros Hall. unfold split_by_segments.
  now rewrite run_loop_empty_texts.
Qed.

Lemma split_by_segments_drops_empty_texts_witness :
  split_by_segments short_splitter
    [YouTubeTranscriptLoader.segment "" 0 1.5; VDict [("text", VStr "")]] []
  = Ok [].
Proof.
  apply (@split_by_segments_drops_empty_texts short_splitter []
           [YouTubeTranscriptLoader.segment "" 0 1.5; VDict [("text", VStr "")]]).
  repeat constructor.
Defined.

(** ** Loading a video *)

Lemma extract_video_id_raises (url : string) (e : exn) :
  extract_video_id url = Raise e ->
  e = ValueError ("Could not extract video ID from URL: " ++ url)%string.
Proof.
  unfold extract_video_id.
  destruct (re_search first_pattern_at url); [discriminate |].
  destruct (re_search second_pattern_at url); [discriminate |].
  now intros [= <-].
Qed.

(** X29: a failure of [load_video_content].  When [extract_video_id] finds
    no identifier in the address, [load_video_content] raises a plain
    [Exception] whose text is that of the [ValueError] after
    [Failed to load YouTube video content: ], and the loader keeps the
    identifier and the metadata it had. *)
Theorem load_video_content_wraps_the_failure (now_1 now_2 : string)
        (self : YouTubeTranscriptLoader.t) (url : string) (e : exn) :
  extract_video_id url = Raise e ->
  YouTubeTranscriptLoader.load_video_content now_1 now_2 self url
  = (YouTubeTranscriptLoader.Exception
       ("Failed to load YouTube video content: Could not extract video ID from URL: "
        ++ url)%string,
     self).
Proof.
  intros H. pose proof (extract_video_id_raises _ H) as ->.
  unfold YouTubeTranscriptLoader.load_video_content. rewrite H. reflexivity.
Qed.

Lemma load_video_content_wraps_the_failure_witness :
  YouTubeTranscriptLoader.load_video_content
    "2024-01-01T10:00:00" "2024-01-01T10:00:01"
    {| YouTubeTranscriptLoader.video_id := Some "abc";
       YouTubeTranscriptLoader.video_info := [("title", VStr "Video abc")] |}
    "https://vimeo.com/12345"
  = (YouTubeTranscriptLoader.Exception
       "Failed to load YouTube video content: Could not extract video ID from URL: https://vimeo.com/12345",
     {| YouTubeTranscriptLoader.video_id := Some "abc";
        YouTubeTranscriptLoader.video_info := [("title", VStr "Video abc")] |}).
Proof.
  apply (@load_video_content_wraps_the_failure
           "2024-01-01T10:00:00" "2024-01-01T10:00:01"
           {| YouTubeTranscriptLoader.video_id := Some "abc";
              YouTubeTranscriptLoader.video_info := [("title", VStr "Video abc")] |}
           "https://vimeo.com/12345"
           (ValueError "Could not extract video ID from URL: https://vimeo.com/12345")).
  reflexivity.
Defined.

(** X30: a loaded video, split.  For every address in which
    [extract_video_id] finds an identifier, [load_video_content] returns the
    transcript and the metadata and keeps both in the loader; [split] with
    the default splitter makes one chunk of them, whose text is the whole
    transcript and which counts the ten segments from 0.0s to 45.3s.  The
    metadata of the chunk name the video and the address, have no
    [transcript_segments], and hold under [duration] the length of the
    chunk in seconds where the video metadata had the string [10:30]. *)
Theorem loaded_video_splits_into_one_chunk (now_1 now_2 : string)
        (self : YouTubeTranscriptLoader.t) (url video_id : string) :
  extract_video_id url = Ok video_id ->
  exists (transcript : string) (metadata chunk_metadata : pydict),
    YouTubeTranscriptLoader.load_video_content now_1 now_2 self url
    = (YouTubeTranscriptLoader.Loaded transcript metadata,
       {| YouTubeTranscriptLoader.video_id := Some video_id;
          YouTubeTranscriptLoader.video_info := metadata |}) /\
    dict_get metadata "duration" = Some (VStr "10:30") /\
    dict_get metadata "transcript_length" = Some (VInt (len transcript)) /\
    split default_youtube_splitter transcript metadata
    = Ok [chunk_of (transcript, chunk_metadata)] /\
    dict_get chunk_metadata "video_id" = Some (VStr video_id) /\
    dict_get chunk_metadata "source" = Some (VStr url) /\
    dict_get chunk_metadata "processed_date" = Some (VStr now_2) /\
    dict_get chunk_metadata "chunk_id" = Some (VInt 0) /\
    dict_get chunk_metadata "segments_included" = Some (VInt 10) /\
    dict_get chunk_metadata "timestamp_start" = Some (VFloat 0) /\
    dict_get chunk_metadata "timestamp_end" = Some (VFloat 45.3) /\
    dict_get chunk_metadata "duration" = Some (VFloat 45.3) /\
    dict_get chunk_metadata "segment_range" = Some (VStr "0.0s - 45.3s") /\
    dict_get chunk_metadata "transcript_segments" = None.
Proof.
  intros H. unfold YouTubeTranscriptLoader.load_video_content. rewrite H.
  do 3 eexists. split; [vm_compute; reflexivity |].
  split; [reflexivity |]. split; [reflexivity |].
  split; [vm_compute; reflexivity |].
  repeat split.
Qed.

Lemma loaded_video_splits_into_one_chunk_witness :
  exists (transcript : string) (metadata chunk_metadata : pydict),
    YouTubeTranscriptLoader.load_video_content
      "2024-01-01T10:00:00" "2024-01-01T10:00:01"
      YouTubeTranscriptLoader.__init__ "https://youtu.be/dQw4w9WgXcQ?t=42"
    = (YouTubeTranscriptLoader.Loaded transcript metadata,
       {| YouTubeTranscriptLoader.video_id := Some "dQw4w9WgXcQ";
          YouTubeTranscriptLoader.video_info := metadata |}) /\
    split default_youtube_splitter transcript metadata
    = Ok [chunk_of (transcript, chunk_metadata)] /\
    dict_get chunk_metadata "video_id" = Some (VStr "dQw4w9WgXcQ") /\
    dict_get chunk_metadata "duration" = Some (VFloat 45.3).
Proof.
  destruct (@loaded_video_splits_into_one_chunk
              "2024-01-01T10:00:00" "2024-01-01T10:00:01"
              YouTubeTranscriptLoader.__init__ "https://youtu.be/dQw4w9WgXcQ?t=42"
              "dQw4w9WgXcQ" eq_refl)
    as (transcript & metadata & chunk_metadata & Hload & _ & _ & Hsplit & Hid & _ & _
        & _ & _ & _ & _ & Hduration & _).
  exists transcript, metadata, chunk_metadata. repeat split; assumption.
Defined.
